(** * WebAuthn ceremony client: codec and ceremony composition

    A shallow embedding of [utils/webauthn-api.ts] and [utils/webauthn.ts]:
    the Base64URL codec, the challenge-option decoders, the four
    begin/finish calls and the two ceremonies that compose them.

    JavaScript strings that are used as "binary strings" (one character per
    byte, char codes 0..255) are [string]s, whose characters are 8-bit
    [ascii]; [Uint8Array] contents are [list byte]. *)

From Stdlib Require Import ZArith Strings.String Strings.Ascii Strings.Byte List Lia.
From stdpp Require Import gmap strings list pretty.

#[local] Set Warnings "-register-all".
#[local] Open Scope string_scope.
#[local] Open Scope Z_scope.

(* ===================================================================== *)
(** * Platform primitives: [btoa] and [atob]                              *)
(* ===================================================================== *)

(** [btoa] and [atob] are host functions (WHATWG HTML, "forgiving-base64
    encode / decode", over the RFC 4648 alphabet).  They are written out
    here the way the standard states them. *)
Module Base64.

Definition alphabet : string :=
  "ABCDEFGHIJKLMNOPQRSTUVWXYZabcdefghijklmnopqrstuvwxyz0123456789+/".

(** [s.charCodeAt(i)] of a binary string. *)
Definition charCode (c : ascii) : Z := Z.of_N (N_of_ascii c).

(** [String.fromCharCode(n)] for a code unit below 256. *)
Definition fromCharCode (n : Z) : ascii := ascii_of_N (Z.to_N n).

(** The character that stands for a 6-bit group. *)
Definition sextet_char (n : Z) : ascii :=
  match String.get (Z.to_nat n) alphabet with
  | Some c => c
  | None => "="%char
  end.

(** The 6-bit group a character of the alphabet stands for. *)
Definition char_sextet (c : ascii) : option Z :=
  let n := charCode c in
  if (65 <=? n) && (n <=? 90) then Some (n - 65)
  else if (97 <=? n) && (n <=? 122) then Some (n - 97 + 26)
  else if (48 <=? n) && (n <=? 57) then Some (n - 48 + 52)
  else if n =? 43 then Some 62
  else if n =? 47 then Some 63
  else None.

(** RFC 4648 section 4: three bytes become four characters; a final group
    of one or two bytes is padded with [=]. *)
Fixpoint btoa (s : string) : string :=
  match s with
  | EmptyString => EmptyString
  | String a EmptyString =>
      let x := charCode a in
      String (sextet_char (Z.shiftr x 2))
        (String (sextet_char (Z.shiftl (Z.land x 3) 4)) "==")
  | String a (String b EmptyString) =>
      let x := charCode a in
      let y := charCode b in
      String (sextet_char (Z.shiftr x 2))
        (String (sextet_char (Z.lor (Z.shiftl (Z.land x 3) 4) (Z.shiftr y 4)))
           (String (sextet_char (Z.shiftl (Z.land y 15) 2)) "="))
  | String a (String b (String c rest)) =>
      let x := charCode a in
      let y := charCode b in
      let z := charCode c in
      String (sextet_char (Z.shiftr x 2))
        (String (sextet_char (Z.lor (Z.shiftl (Z.land x 3) 4) (Z.shiftr y 4)))
           (String (sextet_char (Z.lor (Z.shiftl (Z.land y 15) 2) (Z.shiftr z 6)))
              (String (sextet_char (Z.land z 63)) (btoa rest))))
  end.

(** ASCII whitespace: TAB, LF, FF, CR, SPACE. *)
Definition is_ascii_whitespace (c : ascii) : bool :=
  let n := charCode c in
  (n =? 9) || (n =? 10) || (n =? 12) || (n =? 13) || (n =? 32).

Fixpoint string_filter (p : ascii -> bool) (s : string) : string :=
  match s with
  | EmptyString => EmptyString
  | String c rest =>
      if p c then String c (string_filter p rest) else string_filter p rest
  end.

Fixpoint string_map (f : ascii -> ascii) (s : string) : string :=
  match s with
  | EmptyString => EmptyString
  | String c rest => String (f c) (string_map f rest)
  end.

Definition is_pad (c : ascii) : bool := charCode c =? 61.

(** Forgiving-base64 decode, step 2: "if data ends with one or two [=],
    remove them": the text up to a final [=] or [==]. *)
Fixpoint strip_padding (s : string) : string :=
  match s with
  | EmptyString => EmptyString
  | String c rest =>
      if is_pad c && (String.eqb rest "" || String.eqb rest "=")
      then EmptyString
      else String c (strip_padding rest)
  end.

(** Steps 4 to 10: every character must be in the alphabet; four
    characters give three bytes; bits left over in a final group of two or
    three characters are discarded. *)
Fixpoint decode_groups (s : string) : option string :=
  match s with
  | EmptyString => Some EmptyString
  | String _ EmptyString => None
  | String a (String b EmptyString) =>
      p ← char_sextet a; q ← char_sextet b;
      Some (String (fromCharCode (Z.lor (Z.shiftl p 2) (Z.shiftr q 4))) EmptyString)
  | String a (String b (String c EmptyString)) =>
      p ← char_sextet a; q ← char_sextet b; r ← char_sextet c;
      Some (String (fromCharCode (Z.lor (Z.shiftl p 2) (Z.shiftr q 4)))
              (String (fromCharCode (Z.lor (Z.shiftl (Z.land q 15) 4) (Z.shiftr r 2)))
                 EmptyString))
  | String a (String b (String c (String d rest))) =>
      p ← char_sextet a; q ← char_sextet b; r ← char_sextet c; t ← char_sextet d;
      tl ← decode_groups rest;
      Some (String (fromCharCode (Z.lor (Z.shiftl p 2) (Z.shiftr q 4)))
              (String (fromCharCode (Z.lor (Z.shiftl (Z.land q 15) 4) (Z.shiftr r 2)))
                 (String (fromCharCode (Z.lor (Z.shiftl (Z.land r 3) 6) t)) tl)))
  end.

(** [atob]: [None] stands for the [InvalidCharacterError] it throws. *)
Definition atob (data : string) : option string :=
  let data := string_filter (fun c => negb (is_ascii_whitespace c)) data in
  let data :=
    if (String.length data mod 4 =? 0)%nat then strip_padding data else data in
  if (String.length data mod 4 =? 1)%nat then None
  else decode_groups data.

End Base64.

(* ===================================================================== *)
(** * The codec                                                            *)
(* ===================================================================== *)

(** [s.replace(/x/g, y)] for single characters [x] and [y]. *)
Definition replace_char (x y : ascii) (s : string) : string :=
  Base64.string_map (fun c => if Ascii.eqb c x then y else c) s.

(** [s.replace(/x/g, '')]. *)
Definition remove_char (x : ascii) (s : string) : string :=
  Base64.string_filter (fun c => negb (Ascii.eqb c x)) s.

(** [s.padEnd(n, c)] for a one-character filler. *)
Definition padEnd (s : string) (n : nat) (c : ascii) : string :=
  s +:+ string_of_list_ascii (repeat c (n - String.length s)%nat).

(** [new Uint8Array(buffer)] read into a binary string, one
    [String.fromCharCode(bytes[i])] at a time. *)
Definition binary_of_bytes (bytes : list byte) : string :=
  string_of_list_ascii (map ascii_of_byte bytes).

(** The loop [bytes[i] = binary.charCodeAt(i)]. *)
Definition bytes_of_binary (binary : string) : list byte :=
  map byte_of_ascii (list_ascii_of_string binary).

Definition bufferToBase64URL (buffer : list byte) : string :=
  let binary := binary_of_bytes buffer in
  remove_char "=" (replace_char "/" "_" (replace_char "+" "-" (Base64.btoa binary))).

(** [None] when [atob] throws. *)
Definition base64URLToBuffer (base64url : string) : option (list byte) :=
  let base64 := replace_char "_" "/" (replace_char "-" "+" base64url) in
  let paddedBase64 :=
    padEnd base64
      (String.length base64 + ((4 - (String.length base64 mod 4)) mod 4))%nat "=" in
  binary ← Base64.atob paddedBase64;
  Some (bytes_of_binary binary).

(* ===================================================================== *)
(** * JavaScript values and exceptions                                     *)
(* ===================================================================== *)

(** Server payloads are typed [any] in the source, so they are modelled as
    dynamically typed values.  An object lists its own properties in
    property order; numbers are the integers the protocol carries
    ([timeout], [alg]). [VBuf] is an [ArrayBuffer]. *)
Inductive value : Type :=
  | VUndefined
  | VNull
  | VBool (b : bool)
  | VNum (n : Z)
  | VStr (s : string)
  | VBuf (bytes : list byte)
  | VArr (items : list value)
  | VObj (fields : list (string * value)).

(** What a [throw] carries: an [Error] instance (with its [name] and
    [message]; [TypeError] and [DOMException] are instances of [Error]), or
    any other value. *)
Inductive exn : Type :=
  | JsError (name : string) (message : string)
  | JsThrown (v : value).

Inductive result (A : Type) : Type :=
  | Ok (a : A)
  | Throw (e : exn).
Arguments Ok {A} a.
Arguments Throw {A} e.

#[global] Instance result_ret : MRet result := fun A a => Ok a.
#[global] Instance result_bind : MBind result := fun A B f m =>
  match m with
  | Ok a => f a
  | Throw e => Throw e
  end.

(** [new Error(message)]. *)
Definition new_Error (message : string) : exn := JsError "Error" message.

(** The engine's [TypeError]; the message text follows V8. *)
Definition TypeError (message : string) : exn := JsError "TypeError" message.

(** The [DOMException] thrown by [atob]. *)
Definition InvalidCharacterError : exn :=
  JsError "InvalidCharacterError" "The string to be decoded is not correctly encoded.".

Fixpoint obj_lookup (k : string) (fields : list (string * value)) : option value :=
  match fields with
  | [] => None
  | (k', v) :: rest => if String.eqb k k' then Some v else obj_lookup k rest
  end.

(** Defining a property in an object literal: an existing property keeps its
    place and takes the new value, a new one goes last. *)
Fixpoint obj_set (k : string) (v : value) (fields : list (string * value))
  : list (string * value) :=
  match fields with
  | [] => [(k, v)]
  | (k', v') :: rest =>
      if String.eqb k k' then (k, v) :: rest else (k', v') :: obj_set k v rest
  end.

(** The property read [v.k].  It throws on [null] and [undefined]; on an
    object it is the own property or [undefined].  Primitives, arrays and
    buffers have none of the properties this client reads ([challenge],
    [user], [id], [excludeCredentials], [allowCredentials], [success],
    [data], [error], [message], [publicKey], [sessionId], [token]). *)
Definition get (v : value) (k : string) : result value :=
  match v with
  | VUndefined =>
      Throw (TypeError ("Cannot read properties of undefined (reading '" +:+ k +:+ "')"))
  | VNull =>
      Throw (TypeError ("Cannot read properties of null (reading '" +:+ k +:+ "')"))
  | VObj fields => Ok (default VUndefined (obj_lookup k fields))
  | _ => Ok VUndefined
  end.

(** The own enumerable properties copied by [{...v}]. *)
Definition spread (v : value) : list (string * value) :=
  match v with
  | VObj fields => fields
  | VArr items => imap (fun i x => (pretty i, x)) items
  | VStr s =>
      imap (fun i c => (pretty i, VStr (String c EmptyString))) (list_ascii_of_string s)
  | _ => []
  end.

(** ToBoolean. *)
Definition truthy (v : value) : bool :=
  match v with
  | VUndefined | VNull => false
  | VBool b => b
  | VNum n => negb (n =? 0)
  | VStr s => negb (String.eqb s "")
  | VBuf _ | VArr _ | VObj _ => true
  end.

(** [a || b]. *)
Definition or_else (a b : value) : value := if truthy a then a else b.

Definition join (sep : string) (parts : list string) : string :=
  match parts with
  | [] => ""
  | p :: rest => fold_left (fun acc q => acc +:+ sep +:+ q) rest p
  end.

(** ToString, as [new Error(v)] applies it to its argument.  Payload objects
    come from [JSON.parse] and are printed by [Object.prototype.toString]. *)
Fixpoint to_string (v : value) : string :=
  match v with
  | VUndefined => "undefined"
  | VNull => "null"
  | VBool true => "true"
  | VBool false => "false"
  | VNum n => pretty n
  | VStr s => s
  | VBuf _ => "[object ArrayBuffer]"
  | VArr items =>
      join "," (map (fun x => match x with
                              | VUndefined | VNull => ""
                              | _ => to_string x
                              end) items)
  | VObj _ => "[object Object]"
  end.

(* ===================================================================== *)
(** * [JSON.stringify]                                                     *)
(* ===================================================================== *)

Definition hex_digit (n : Z) : ascii :=
  match String.get (Z.to_nat n) "0123456789abcdef" with
  | Some c => c
  | None => "0"%char
  end.

(** The double-quote character. *)
Definition dquote : ascii := "034"%char.

(** QuoteJSONString on one character. *)
Definition json_escape (c : ascii) : string :=
  let n := Base64.charCode c in
  if n =? 34 then String "\" (String dquote "")
  else if n =? 92 then "\\"
  else if n =? 8 then "\b"
  else if n =? 9 then "\t"
  else if n =? 10 then "\n"
  else if n =? 12 then "\f"
  else if n =? 13 then "\r"
  else if n <? 32 then
    "\u00" +:+ String (hex_digit (Z.shiftr n 4)) (String (hex_digit (Z.land n 15)) "")
  else String c "".

Fixpoint json_escape_all (s : string) : string :=
  match s with
  | EmptyString => EmptyString
  | String c rest => json_escape c +:+ json_escape_all rest
  end.

Definition json_quote (s : string) : string :=
  String dquote (json_escape_all s) +:+ String dquote "".

(** SerializeJSONProperty: [None] is the [undefined] result, for which an
    object drops the property and an array writes [null]. *)
Fixpoint JSON_stringify (v : value) : option string :=
  match v with
  | VUndefined => None
  | VNull => Some "null"
  | VBool true => Some "true"
  | VBool false => Some "false"
  | VNum n => Some (pretty n)
  | VStr s => Some (json_quote s)
  | VBuf _ => Some "{}"
  | VArr items =>
      Some ("[" +:+ join "," (map (fun x => default "null" (JSON_stringify x)) items) +:+ "]")
  | VObj fields =>
      Some ("{" +:+
            join "," (omap (fun kv => match JSON_stringify (snd kv) with
                                      | Some txt => Some (json_quote (fst kv) +:+ ":" +:+ txt)
                                      | None => None
                                      end) fields)
            +:+ "}")
  end.

(** [body: JSON.stringify(x)] in a [fetch] init: an [undefined] body would be
    no body at all; the request data here are always objects. *)
Definition stringify_body (v : value) : string := default "" (JSON_stringify v).

(* ===================================================================== *)
(** * The challenge-option decoders                                        *)
(* ===================================================================== *)

(** The call [base64URLToBuffer(v)] on an untyped argument: [v.replace] is a
    function only when [v] is a string. *)
Definition call_base64URLToBuffer (v : value) : result value :=
  match v with
  | VStr s =>
      match base64URLToBuffer s with
      | Some bytes => Ok (VBuf bytes)
      | None => Throw InvalidCharacterError
      end
  | VUndefined => Throw (TypeError "Cannot read properties of undefined (reading 'replace')")
  | VNull => Throw (TypeError "Cannot read properties of null (reading 'replace')")
  | _ => Throw (TypeError "base64url.replace is not a function")
  end.

(** The callback [(cred) => ({...cred, id: base64URLToBuffer(cred.id)})]. *)
Definition decode_cred (cred : value) : result value :=
  raw ← get cred "id";
  id ← call_base64URLToBuffer raw;
  Ok (VObj (obj_set "id" id (spread cred))).

Fixpoint mapM_result {A B} (f : A -> result B) (l : list A) : result (list B) :=
  match l with
  | [] => Ok []
  | x :: rest => y ← f x; ys ← mapM_result f rest; Ok (y :: ys)
  end.

(** [list?.map(decode_cred)]: [undefined] on [null] and [undefined]; only an
    array has a [map] to call. *)
Definition decode_cred_list (field : string) (list : value) : result value :=
  match list with
  | VUndefined | VNull => Ok VUndefined
  | VArr items => items' ← mapM_result decode_cred items; Ok (VArr items')
  | _ => Throw (TypeError ("options." +:+ field +:+ ".map is not a function"))
  end.

Definition decodeCreationOptions (options : value) : result value :=
  let copied := spread options in
  raw_challenge ← get options "challenge";
  challenge ← call_base64URLToBuffer raw_challenge;
  user ← get options "user";
  let user_copied := spread user in
  raw_user_id ← get user "id";
  user_id ← call_base64URLToBuffer raw_user_id;
  raw_list ← get options "excludeCredentials";
  excludeCredentials ← decode_cred_list "excludeCredentials" raw_list;
  Ok (VObj (obj_set "excludeCredentials" excludeCredentials
             (obj_set "user" (VObj (obj_set "id" user_id user_copied))
                (obj_set "challenge" challenge copied)))).

Definition decodeRequestOptions (options : value) : result value :=
  let copied := spread options in
  raw_challenge ← get options "challenge";
  challenge ← call_base64URLToBuffer raw_challenge;
  raw_list ← get options "allowCredentials";
  allowCredentials ← decode_cred_list "allowCredentials" raw_list;
  Ok (VObj (obj_set "allowCredentials" allowCredentials
             (obj_set "challenge" challenge copied))).

(* ===================================================================== *)
(** * The host: network, platform credential API, storage                  *)
(* ===================================================================== *)

Module Attestation.
(** [AuthenticatorAttestationResponse]. *)
Record response : Type := {
  attestationObject : list byte;
  clientDataJSON : list byte;
}.
End Attestation.

Module Assertion.
(** [AuthenticatorAssertionResponse]; [userHandle] is [ArrayBuffer | null]. *)
Record response : Type := {
  authenticatorData : list byte;
  clientDataJSON : list byte;
  signature : list byte;
  userHandle : option (list byte);
}.
End Assertion.

Module PublicKeyCredential.
Record t (R : Type) : Type := {
  id : string;
  rawId : list byte;
  type : string;
  response : R;
}.
Arguments id {R} _.
Arguments rawId {R} _.
Arguments type {R} _.
Arguments response {R} _.
End PublicKeyCredential.

(** What [typeof] answers. *)
Inductive js_type : Type :=
  | TyUndefined | TyObject | TyBoolean | TyNumber | TyString | TyFunction.

(** The global [window], when there is one, with the type of its
    [PublicKeyCredential] property. *)
Record Window : Type := { window_PublicKeyCredential : js_type }.

(** A [fetch] response: its [ok] flag and what [response.json()] settles to. *)
Record Response : Type := {
  ok : bool;
  json : result value;
}.

(** Everything the client observes of its host.  A [fetch] that the timer
    aborts rejects like any other failed [fetch]: [fetch_outcome] is then a
    [Throw] of the host's [AbortError]. *)
Record World : Type := {
  env_EXPO_PUBLIC_API_URL : option string;
  window : option Window;
  fetch_outcome : string -> string -> result Response;
  create_outcome : value -> result (option (PublicKeyCredential.t Attestation.response));
  get_outcome : value -> result (option (PublicKeyCredential.t Assertion.response));
  setItem_outcome : string -> string -> option exn;
}.

(** What the client does to its host, in order. *)
Inductive event : Type :=
  | SetTimeout (ms : Z)
  | ClearTimeout
  | Fetch (url : string) (body : string)
  | CredentialsCreate (options : value)
  | CredentialsGet (options : value)
  | StorageSetItem (key : string) (val : string)
  | ConsoleError (label : string) (error : exn).

Record State : Type := {
  trace : list event;
  localStorage : gmap string string;
}.

(** Computations of the client: they read the host, change the state and
    return or throw.  [await] of a rejected promise is a [Throw]. *)
Definition M (A : Type) : Type := World -> State -> result A * State.

#[global] Instance M_ret : MRet M := fun A a _ s => (Ok a, s).
#[global] Instance M_bind : MBind M := fun A B f m w s =>
  match m w s with
  | (Ok a, s') => f a w s'
  | (Throw e, s') => (Throw e, s')
  end.

Definition throw {A} (e : exn) : M A := fun _ s => (Throw e, s).
Definition lift {A} (r : result A) : M A := fun _ s => (r, s).
Definition ask : M World := fun w s => (Ok w, s).

Definition emit (e : event) : M unit := fun _ s =>
  (Ok tt, {| trace := trace s ++ [e]; localStorage := localStorage s |}).

(** [try { m } catch (error) { h error }]. *)
Definition try_catch {A} (m : M A) (h : exn -> M A) : M A := fun w s =>
  match m w s with
  | (Ok a, s') => (Ok a, s')
  | (Throw e, s') => h e w s'
  end.

(** [try { m } finally { f }]. *)
Definition try_finally {A} (m : M A) (f : M unit) : M A := fun w s =>
  match m w s with
  | (r, s') =>
      match f w s' with
      | (Ok _, s'') => (r, s'')
      | (Throw e, s'') => (Throw e, s'')
      end
  end.

Definition REQUEST_TIMEOUT : Z := 60000.

(** [process.env.EXPO_PUBLIC_API_URL || 'http://localhost:8080']. *)
Definition API_BASE_URL (w : World) : string :=
  match env_EXPO_PUBLIC_API_URL w with
  | Some url => if String.eqb url "" then "http://localhost:8080" else url
  | None => "http://localhost:8080"
  end.

(** [setTimeout(() => controller.abort(), ms)]. *)
Definition setTimeout (ms : Z) : M unit := emit (SetTimeout ms).
Definition clearTimeout : M unit := emit ClearTimeout.

(** [await fetch(url, { method: 'POST', ..., body, signal })]. *)
Definition fetch (url body : string) : M Response :=
  emit (Fetch url body);;
  w ← ask;
  lift (fetch_outcome w url body).

(** [await response.json()]. *)
Definition response_json (r : Response) : M value := lift (json r).

Definition navigator_credentials_create (options : value)
  : M (option (PublicKeyCredential.t Attestation.response)) :=
  emit (CredentialsCreate options);;
  w ← ask;
  lift (create_outcome w options).

Definition navigator_credentials_get (options : value)
  : M (option (PublicKeyCredential.t Assertion.response)) :=
  emit (CredentialsGet options);;
  w ← ask;
  lift (get_outcome w options).

Definition console_error (label : string) (e : exn) : M unit :=
  emit (ConsoleError label e).

(** [localStorage.setItem(key, val)]: the host stores the value or throws. *)
Definition storage_write (key val : string) : M unit := fun w s =>
  match setItem_outcome w key val with
  | Some e => (Throw e, s)
  | None =>
      (Ok tt, {| trace := trace s; localStorage := <[key := val]> (localStorage s) |})
  end.

Definition localStorage_setItem (key val : string) : M unit :=
  emit (StorageSetItem key val);;
  storage_write key val.

(* ===================================================================== *)
(** * [webauthn-api.ts]: the begin and finish calls                        *)
(* ===================================================================== *)

Module RegistrationBeginResponse.
Record t : Type := { publicKey : value; sessionId : value }.
End RegistrationBeginResponse.

Module LoginBeginResponse.
Record t : Type := { publicKey : value; sessionId : value }.
End LoginBeginResponse.

(** The branch [if (!response.ok)], the same in the four calls:
    [[
      const error = await response.json().catch(() => ({ error: 'ネットワークエラー' }));
      throw new Error(error.error || error.message || fallback);
    ]] *)
Definition throw_http_failure {A} (response : Response) (fallback : string) : M A :=
  error ← try_catch (response_json response)
            (fun _ => mret (VObj [("error", VStr "ネットワークエラー")]));
  e ← lift (get error "error");
  if truthy e then throw (new_Error (to_string e))
  else
    m ← lift (get error "message");
    throw (new_Error (to_string (or_else m (VStr fallback)))).

(** [throw new Error(data.error || fallback)]. *)
Definition throw_api_failure {A} (data : value) (fallback : string) : M A :=
  e ← lift (get data "error");
  throw (new_Error (to_string (or_else e (VStr fallback)))).

Definition beginRegistration (email username : string)
  : M RegistrationBeginResponse.t :=
  setTimeout REQUEST_TIMEOUT;;
  try_finally
    (w ← ask;
     response ← fetch (API_BASE_URL w +:+ "/api/v1/auth/register/begin")
                  (stringify_body
                     (VObj [("email", VStr email); ("username", VStr username)]));
     if negb (ok response) then throw_http_failure response "登録開始に失敗しました"
     else
       data ← response_json response;
       success ← lift (get data "success");
       payload ← lift (get data "data");
       if negb (truthy success) || negb (truthy payload)
       then throw_api_failure data "登録開始に失敗しました"
       else
         raw ← lift (get payload "publicKey");
         publicKey ← lift (decodeCreationOptions raw);
         sessionId ← lift (get payload "sessionId");
         mret {| RegistrationBeginResponse.publicKey := publicKey;
                 RegistrationBeginResponse.sessionId := sessionId |})
    clearTimeout.

(** The request data of [finishRegistration]. *)
Definition registrationFinishRequest (sessionId : value)
    (credential : PublicKeyCredential.t Attestation.response) : value :=
  let response := PublicKeyCredential.response credential in
  VObj [("sessionId", sessionId);
        ("credential",
         VObj [("id", VStr (PublicKeyCredential.id credential));
               ("rawId", VStr (bufferToBase64URL (PublicKeyCredential.rawId credential)));
               ("type", VStr (PublicKeyCredential.type credential));
               ("response",
                VObj [("attestationObject",
                       VStr (bufferToBase64URL (Attestation.attestationObject response)));
                      ("clientDataJSON",
                       VStr (bufferToBase64URL (Attestation.clientDataJSON response)))])])].

Definition finishRegistration (sessionId : value)
    (credential : PublicKeyCredential.t Attestation.response)
  : M value :=
  setTimeout REQUEST_TIMEOUT;;
  try_finally
    (let requestData := registrationFinishRequest sessionId credential in
     w ← ask;
     apiResponse ← fetch (API_BASE_URL w +:+ "/api/v1/auth/register/finish")
                     (stringify_body requestData);
     if negb (ok apiResponse) then throw_http_failure apiResponse "登録完了に失敗しました"
     else
       data ← response_json apiResponse;
       success ← lift (get data "success");
       if negb (truthy success) then throw_api_failure data "登録完了に失敗しました"
       else
         payload ← lift (get data "data");
         mret (or_else payload (VObj [])))
    clearTimeout.

Definition beginLogin (email : string) : M LoginBeginResponse.t :=
  setTimeout REQUEST_TIMEOUT;;
  try_finally
    (w ← ask;
     response ← fetch (API_BASE_URL w +:+ "/api/v1/auth/login/begin")
                  (stringify_body (VObj [("email", VStr email)]));
     if negb (ok response) then throw_http_failure response "認証開始に失敗しました"
     else
       data ← response_json response;
       success ← lift (get data "success");
       payload ← lift (get data "data");
       if negb (truthy success) || negb (truthy payload)
       then throw_api_failure data "認証開始に失敗しました"
       else
         raw ← lift (get payload "publicKey");
         publicKey ← lift (decodeRequestOptions raw);
         sessionId ← lift (get payload "sessionId");
         mret {| LoginBeginResponse.publicKey := publicKey;
                 LoginBeginResponse.sessionId := sessionId |})
    clearTimeout.

(** The request data of [finishLogin]; [response.userHandle ? ... : undefined]
    tests the object, not its length. *)
Definition loginFinishRequest (sessionId : value)
    (credential : PublicKeyCredential.t Assertion.response) : value :=
  let response := PublicKeyCredential.response credential in
  VObj [("sessionId", sessionId);
        ("credential",
         VObj [("id", VStr (PublicKeyCredential.id credential));
               ("rawId", VStr (bufferToBase64URL (PublicKeyCredential.rawId credential)));
               ("type", VStr (PublicKeyCredential.type credential));
               ("response",
                VObj [("authenticatorData",
                       VStr (bufferToBase64URL (Assertion.authenticatorData response)));
                      ("clientDataJSON",
                       VStr (bufferToBase64URL (Assertion.clientDataJSON response)));
                      ("signature",
                       VStr (bufferToBase64URL (Assertion.signature response)));
                      ("userHandle",
                       match Assertion.userHandle response with
                       | Some handle => VStr (bufferToBase64URL handle)
                       | None => VUndefined
                       end)])])].

Definition finishLogin (sessionId : value)
    (credential : PublicKeyCredential.t Assertion.response)
  : M value :=
  setTimeout REQUEST_TIMEOUT;;
  try_finally
    (let requestData := loginFinishRequest sessionId credential in
     w ← ask;
     apiResponse ← fetch (API_BASE_URL w +:+ "/api/v1/auth/login/finish")
                     (stringify_body requestData);
     if negb (ok apiResponse) then throw_http_failure apiResponse "認証完了に失敗しました"
     else
       data ← response_json apiResponse;
       success ← lift (get data "success");
       if negb (truthy success) then throw_api_failure data "認証完了に失敗しました"
       else
         payload ← lift (get data "data");
         mret (or_else payload (VObj [])))
    clearTimeout.

(* ===================================================================== *)
(** * [webauthn.ts]: the ceremonies                                        *)
(* ===================================================================== *)

Definition isWebAuthnSupported (w : World) : bool :=
  match window w with
  | None => false
  | Some win =>
      match window_PublicKeyCredential win with
      | TyUndefined => false
      | TyFunction => true
      | _ => false
      end
  end.

(** [if (typeof window === 'undefined') return;] then the guarded write. *)
Definition saveLastEmail (email : string) : M unit :=
  w ← ask;
  match window w with
  | None => mret tt
  | Some _ =>
      try_catch (localStorage_setItem "webauthn_last_email" email)
        (fun error => console_error "Failed to save last email:" error)
  end.

(** [{ success: false, error }]. *)
Definition failure (error : string) : value :=
  VObj [("success", VBool false); ("error", VStr error)].

(** [error instanceof Error ? error.message : fallback]. *)
Definition message_of (error : exn) (fallback : string) : string :=
  match error with
  | JsError _ message => message
  | JsThrown _ => fallback
  end.

Definition registerWebAuthnCredential (email username : string) : M value :=
  w ← ask;
  if negb (isWebAuthnSupported w)
  then mret (failure "WebAuthnはこのブラウザではサポートされていません")
  else
    try_catch
      (beginResponse ← beginRegistration email username;
       credential ← navigator_credentials_create
         (VObj [("publicKey", RegistrationBeginResponse.publicKey beginResponse)]);
       match credential with
       | None => mret (failure "認証情報の生成に失敗しました")
       | Some credential =>
           result ← finishRegistration
                      (RegistrationBeginResponse.sessionId beginResponse) credential;
           saveLastEmail email;;
           token ← lift (get result "token");
           user ← lift (get result "user");
           mret (VObj [("success", VBool true); ("token", token); ("user", user)])
       end)
      (fun error =>
         console_error "WebAuthn registration failed:" error;;
         mret (failure (message_of error "登録中にエラーが発生しました"))).

Definition authenticateWebAuthn (email : string) : M value :=
  w ← ask;
  if negb (isWebAuthnSupported w)
  then mret (failure "WebAuthnはこのブラウザではサポートされていません")
  else
    try_catch
      (beginResponse ← beginLogin email;
       credential ← navigator_credentials_get
         (VObj [("publicKey", LoginBeginResponse.publicKey beginResponse)]);
       match credential with
       | None => mret (failure "認証に失敗しました")
       | Some credential =>
           result ← finishLogin
                      (LoginBeginResponse.sessionId beginResponse) credential;
           saveLastEmail email;;
           token ← lift (get result "token");
           user ← lift (get result "user");
           mret (VObj [("success", VBool true); ("token", token); ("user", user)])
       end)
      (fun error =>
         console_error "WebAuthn authentication failed:" error;;
         mret (failure (message_of error "認証中にエラーが発生しました"))).

(** The state after the events [evs]. *)
Definition push (s : State) (evs : list event) : State :=
  {| trace := trace s ++ evs; localStorage := localStorage s |}.

Definition initial_state (storage : gmap string string) : State :=
  {| trace := []; localStorage := storage |}.

(** A platform call is an entry of the trace. *)
Definition is_platform_call (e : event) : bool :=
  match e with
  | CredentialsCreate _ | CredentialsGet _ => true
  | _ => false
  end.

Definition is_network_request (e : event) : bool :=
  match e with
  | Fetch _ _ => true
  | _ => false
  end.

(* ===================================================================== *)
(** * Specification vocabulary                                             *)
(* ===================================================================== *)

(** The two [replace] calls of [bufferToBase64URL] on one character, and the
    two of [base64URLToBuffer]. *)
Definition to_url (c : ascii) : ascii :=
  let c := if Ascii.eqb c "+" then "-"%char else c in
  if Ascii.eqb c "/" then "_"%char else c.

Definition of_url (c : ascii) : ascii :=
  let c := if Ascii.eqb c "-" then "+"%char else c in
  if Ascii.eqb c "_" then "/"%char else c.

(** A character of the URL-safe alphabet [A-Za-z0-9-_]. *)
Definition is_url_char (c : ascii) : bool :=
  let n := Base64.charCode c in
  ((65 <=? n) && (n <=? 90)) || ((97 <=? n) && (n <=? 122))
  || ((48 <=? n) && (n <=? 57)) || (n =? 45) || (n =? 95).

Fixpoint string_forallb (p : ascii -> bool) (s : string) : bool :=
  match s with
  | EmptyString => true
  | String c rest => p c && string_forallb p rest
  end.

(** A padding-free URL-safe text that [base64URLToBuffer] accepts: only
    characters of the alphabet, and a length that is not 1 modulo 4. *)
Definition wellformed (t : string) : bool :=
  string_forallb is_url_char t && negb (String.length t mod 4 =? 1)%nat.

(** The 6-bit group of a URL-safe character. *)
Definition url_sextet (c : ascii) : Z := default 0 (Base64.char_sextet (of_url c)).

(** The bits of the last character that no byte uses are zero: the low four
    bits after a final group of two characters, the low two after one of
    three. *)
Fixpoint canonical (t : string) : bool :=
  match t with
  | String _ (String b EmptyString) => Z.land (url_sextet b) 15 =? 0
  | String _ (String _ (String c EmptyString)) => Z.land (url_sextet c) 3 =? 0
  | String _ (String _ (String _ (String _ rest))) => canonical rest
  | _ => true
  end.

(** Exhaustive check of a predicate on [0 .. n-1]. *)
Fixpoint all_below (n : nat) (p : Z -> bool) : bool :=
  match n with
  | O => true
  | S k => p (Z.of_nat k) && all_below k p
  end.

(** ** Vocabulary of the codec proofs *)

Definition in_sextet (n : Z) : bool := (0 <=? n) && (n <? 64).

Definition in_byte (n : Z) : bool := (0 <=? n) && (n <? 256).

(** The four sextets of three bytes. *)
Definition s0 (x : Z) : Z := Z.shiftr x 2.

Definition s1 (x y : Z) : Z := Z.lor (Z.shiftl (Z.land x 3) 4) (Z.shiftr y 4).

Definition s2 (y z : Z) : Z := Z.lor (Z.shiftl (Z.land y 15) 2) (Z.shiftr z 6).

Definition s3 (z : Z) : Z := Z.land z 63.

(** The three bytes of four sextets. *)
Definition b0 (p q : Z) : Z := Z.lor (Z.shiftl p 2) (Z.shiftr q 4).

Definition b1 (q r : Z) : Z := Z.lor (Z.shiftl (Z.land q 15) 4) (Z.shiftr r 2).

Definition b2 (r t : Z) : Z := Z.lor (Z.shiftl (Z.land r 3) 6) t.

(** The URL-safe character of a sextet. *)
Definition url_char (n : Z) : ascii := to_url (Base64.sextet_char n).

Definition sextet_char_ok (n : Z) : bool :=
  match Base64.char_sextet (Base64.sextet_char n) with
  | Some m => m =? n
  | None => false
  end
  && Ascii.eqb (of_url (url_char n)) (Base64.sextet_char n)
  && negb (Ascii.eqb (url_char n) "=")
  && is_url_char (url_char n).

Definition url_code_ok (n : Z) : bool :=
  let c := Base64.fromCharCode n in
  negb (is_url_char c)
  || match Base64.char_sextet (of_url c) with
     | Some p => in_sextet p && Ascii.eqb (url_char p) c
     | None => false
     end.

Definition alpha_code_ok (n : Z) : bool :=
  let c := Base64.fromCharCode n in
  match Base64.char_sextet c with
  | Some p => in_sextet p && negb (Base64.is_ascii_whitespace c) && negb (Base64.is_pad c)
  | None => true
  end.

(** The encoder on a binary string. *)
Definition encode_binary (s : string) : string :=
  remove_char "=" (Base64.string_map to_url (Base64.btoa s)).

(** [t] padded with [=] to a multiple of four characters. *)
Fixpoint pad4 (t : string) : string :=
  match t with
  | EmptyString => EmptyString
  | String a EmptyString => String a "==="
  | String a (String b EmptyString) => String a (String b "==")
  | String a (String b (String c EmptyString)) => String a (String b (String c "="))
  | String a (String b (String c (String d rest))) =>
      String a (String b (String c (String d (pad4 rest))))
  end.

Definition is_alpha (c : ascii) : bool :=
  match Base64.char_sextet c with
  | Some _ => true
  | None => false
  end.


(** ** Vocabulary of the decoder claims *)

(** The value of property [k] of an object, [undefined] when absent. *)
Definition field (k : string) (fields : list (string * value)) : value :=
  default VUndefined (obj_lookup k fields).

(** The properties of an object other than those named in [keys], in order. *)
Definition others (keys : list string) (fields : list (string * value))
  : list (string * value) :=
  List.filter (fun kv => negb (existsb (String.eqb (fst kv)) keys)) fields.

(** [v'] is the binary that the text [v] encodes. *)
Definition decoded_text (v v' : value) : Prop :=
  exists s bytes, v = VStr s /\ base64URLToBuffer s = Some bytes /\ v' = VBuf bytes.

(** [o'] is the object [o] with its [id] converted from text to binary and
    every other property as it was. *)
Definition decoded_id (o o' : value) : Prop :=
  exists fields fields',
    o = VObj fields /\ o' = VObj fields'
    /\ others ["id"] fields' = others ["id"] fields
    /\ decoded_text (field "id" fields) (field "id" fields').

(** [l'] is the credential list [l] with the [id] of every entry converted;
    an absent list stays absent. *)
Definition decoded_list (l l' : value) : Prop :=
  ((l = VUndefined \/ l = VNull) /\ l' = VUndefined)
  \/ exists items items',
       l = VArr items /\ l' = VArr items' /\ Forall2 decoded_id items items'.

(** A text that [base64URLToBuffer] accepts. *)
Definition is_text (v : value) : Prop :=
  exists s bytes, v = VStr s /\ base64URLToBuffer s = Some bytes.

Definition has_text_id (o : value) : Prop :=
  exists fields, o = VObj fields /\ is_text (field "id" fields).

Definition is_cred_list (l : value) : Prop :=
  l = VUndefined \/ l = VNull \/ exists items, l = VArr items /\ Forall has_text_id items.

(** [out] is the creation payload [options] with exactly [challenge],
    [user.id] and the [id] of every [excludeCredentials] entry converted. *)
Definition creation_options_decoded (options out : value) : Prop :=
  exists fields fields',
    options = VObj fields /\ out = VObj fields'
    /\ others ["challenge"; "user"; "excludeCredentials"] fields'
       = others ["challenge"; "user"; "excludeCredentials"] fields
    /\ decoded_text (field "challenge" fields) (field "challenge" fields')
    /\ decoded_id (field "user" fields) (field "user" fields')
    /\ decoded_list (field "excludeCredentials" fields)
         (field "excludeCredentials" fields').

(** [out] is the request payload [options] with exactly [challenge] and the
    [id] of every [allowCredentials] entry converted. *)
Definition request_options_decoded (options out : value) : Prop :=
  exists fields fields',
    options = VObj fields /\ out = VObj fields'
    /\ others ["challenge"; "allowCredentials"] fields'
       = others ["challenge"; "allowCredentials"] fields
    /\ decoded_text (field "challenge" fields) (field "challenge" fields')
    /\ decoded_list (field "allowCredentials" fields)
         (field "allowCredentials" fields').

(** A creation payload whose binary-bearing fields are texts the codec
    accepts. *)
Definition creation_payload (options : value) : Prop :=
  exists fields,
    options = VObj fields
    /\ is_text (field "challenge" fields)
    /\ has_text_id (field "user" fields)
    /\ is_cred_list (field "excludeCredentials" fields).

Definition request_payload (options : value) : Prop :=
  exists fields,
    options = VObj fields
    /\ is_text (field "challenge" fields)
    /\ is_cred_list (field "allowCredentials" fields).

Definition sample_creation_options : value :=
  VObj [("challenge", VStr "AQID");
        ("rp", VObj [("name", VStr "demo")]);
        ("user", VObj [("id", VStr "dXNlcg"); ("name", VStr "u")]);
        ("timeout", VNum 60000);
        ("excludeCredentials",
         VArr [VObj [("type", VStr "public-key"); ("id", VStr "-_8")]])].

Definition sample_request_options : value :=
  VObj [("challenge", VStr "AQID");
        ("rpId", VStr "example.test");
        ("allowCredentials",
         VArr [VObj [("type", VStr "public-key"); ("id", VStr "-_8")]])].

(** ** Vocabulary of the ceremony claims *)

(** [error || message || fallback] on the parsed body of a response. *)
Definition http_failure_message (fields : list (string * value)) (fallback : string)
  : string :=
  to_string (or_else (field "error" fields)
               (or_else (field "message" fields) (VStr fallback))).

(** [error || fallback] on a response envelope. *)
Definition api_failure_message (fields : list (string * value)) (fallback : string)
  : string :=
  to_string (or_else (field "error" fields) (VStr fallback)).

Definition register_begin_url (w : World) : string :=
  API_BASE_URL w +:+ "/api/v1/auth/register/begin".
Definition register_finish_url (w : World) : string :=
  API_BASE_URL w +:+ "/api/v1/auth/register/finish".
Definition login_begin_url (w : World) : string :=
  API_BASE_URL w +:+ "/api/v1/auth/login/begin".
Definition login_finish_url (w : World) : string :=
  API_BASE_URL w +:+ "/api/v1/auth/login/finish".

Definition register_begin_body (email username : string) : string :=
  stringify_body (VObj [("email", VStr email); ("username", VStr username)]).
Definition login_begin_body (email : string) : string :=
  stringify_body (VObj [("email", VStr email)]).

(** The events of one network call. *)
Definition call_events (url body : string) : list event :=
  [SetTimeout REQUEST_TIMEOUT; Fetch url body; ClearTimeout].

(** The property [k] of a value that is neither [null] nor [undefined]. *)
Definition prop (v : value) (k : string) : value :=
  match v with
  | VObj fields => field k fields
  | _ => VUndefined
  end.

(** [{ success: true, token, user }]. *)
Definition success (token user : value) : value :=
  VObj [("success", VBool true); ("token", token); ("user", user)].

Definition MSG_UNSUPPORTED : string := "WebAuthnはこのブラウザではサポートされていません".

Definition LAST_EMAIL_KEY : string := "webauthn_last_email".

(** The state [saveLastEmail email] leaves: nothing without a [window]; the
    value stored when the host accepts the write; the failure logged, and
    the store as it was, when the host throws. *)
Definition after_save (email : string) (w : World) (s : State) : State :=
  match window w with
  | None => s
  | Some _ =>
      match setItem_outcome w LAST_EMAIL_KEY email with
      | None =>
          {| trace := trace s ++ [StorageSetItem LAST_EMAIL_KEY email];
             localStorage := <[LAST_EMAIL_KEY := email]> (localStorage s) |}
      | Some e =>
          push s [StorageSetItem LAST_EMAIL_KEY email;
                  ConsoleError "Failed to save last email:" e]
      end
  end.

(** The two shapes of a ceremony result. *)
Definition ceremony_result (v : value) : Prop :=
  (exists error, v = failure error) \/ (exists token user, v = success token user).

(** ** Sample hosts *)

Definition sample_credential : PublicKeyCredential.t Attestation.response :=
  {| PublicKeyCredential.id := "-_8";
     PublicKeyCredential.rawId := [xfb; xff]%byte;
     PublicKeyCredential.type := "public-key";
     PublicKeyCredential.response :=
       {| Attestation.attestationObject := [x01; x02; x03]%byte;
          Attestation.clientDataJSON := [x7b; x7d]%byte |} |}.

Definition sample_assertion (handle : option (list byte))
  : PublicKeyCredential.t Assertion.response :=
  {| PublicKeyCredential.id := "-_8";
     PublicKeyCredential.rawId := [xfb; xff]%byte;
     PublicKeyCredential.type := "public-key";
     PublicKeyCredential.response :=
       {| Assertion.authenticatorData := [x01; x02; x03]%byte;
          Assertion.clientDataJSON := [x7b; x7d]%byte;
          Assertion.signature := [x68; x65; x6c; x6c; x6f]%byte;
          Assertion.userHandle := handle |} |}.

(** A browser with the credential API, a server that answers every request
    with [response], a platform that returns the sample credentials, and a
    store that accepts writes unless [storage_error] is given. *)
Definition sample_world (response : string -> Response) (storage_error : option exn)
  : World :=
  {| env_EXPO_PUBLIC_API_URL := None;
     window := Some {| window_PublicKeyCredential := TyFunction |};
     fetch_outcome := fun url _ => Ok (response url);
     create_outcome := fun _ => Ok (Some sample_credential);
     get_outcome := fun _ => Ok (Some (sample_assertion None));
     setItem_outcome := fun _ _ => storage_error |}.

(** A host without the credential API. *)
Definition world_without_credentials : World :=
  {| env_EXPO_PUBLIC_API_URL := None;
     window := Some {| window_PublicKeyCredential := TyUndefined |};
     fetch_outcome := fun _ _ => Throw (TypeError "Failed to fetch");
     create_outcome := fun _ => Ok None;
     get_outcome := fun _ => Ok None;
     setItem_outcome := fun _ _ => None |}.

(** A server that accepts both steps of both ceremonies. *)
Definition accepting_server (url : string) : Response :=
  if String.eqb url "http://localhost:8080/api/v1/auth/register/begin" then
    {| ok := true;
       json := Ok (VObj [("success", VBool true);
                         ("data", VObj [("publicKey", sample_creation_options);
                                        ("sessionId", VStr "session-1")])]) |}
  else if String.eqb url "http://localhost:8080/api/v1/auth/login/begin" then
    {| ok := true;
       json := Ok (VObj [("success", VBool true);
                         ("data", VObj [("publicKey", sample_request_options);
                                        ("sessionId", VStr "session-2")])]) |}
  else
    {| ok := true;
       json := Ok (VObj [("success", VBool true);
                         ("data", VObj [("token", VStr "jwt");
                                        ("user", VObj [("name", VStr "alice")])])]) |}.

(** HTTP 500 with an envelope that says [success: true]. *)
Definition server_500_success_true (_ : string) : Response :=
  {| ok := false;
     json := Ok (VObj [("success", VBool true); ("error", VStr "database down")]) |}.

(** HTTP 200 with [success: false] and only a [message]. *)
Definition server_message_only (_ : string) : Response :=
  {| ok := true;
     json := Ok (VObj [("success", VBool false); ("message", VStr "account locked")]) |}.

Definition QuotaExceededError : exn :=
  JsError "QuotaExceededError" "The quota has been exceeded.".

(** The message of a failed begin step: the HTTP status is looked at first. *)
Definition begin_failure_message (r : Response) (fields : list (string * value))
    (fallback : string) : string :=
  if ok r then api_failure_message fields fallback
  else http_failure_message fields fallback.

(** The events of a ceremony whose begin step throws [error]. *)
Definition begin_failure_events (url body label : string) (error : exn) : list event :=
  call_events url body ++ [ConsoleError label error].

(** The selection [error], then [message], then [fallback]. *)
Definition prefers_error_message_fallback (fields : list (string * value))
    (fallback chosen : string) : Prop :=
  (truthy (field "error" fields) = true -> chosen = to_string (field "error" fields))
  /\ (truthy (field "error" fields) = false ->
      truthy (field "message" fields) = true ->
      chosen = to_string (field "message" fields))
  /\ (truthy (field "error" fields) = false ->
      truthy (field "message" fields) = false ->
      chosen = fallback).

(** The selection [error], then [fallback]; [message] plays no part. *)
Definition prefers_error_fallback (fields : list (string * value))
    (fallback chosen : string) : Prop :=
  (truthy (field "error" fields) = true -> chosen = to_string (field "error" fields))
  /\ (truthy (field "error" fields) = false -> chosen = fallback).

(** The host [w] with another storage behaviour. *)
Definition with_storage (w : World) (outcome : string -> string -> option exn) : World :=
  {| env_EXPO_PUBLIC_API_URL := env_EXPO_PUBLIC_API_URL w;
     window := window w;
     fetch_outcome := fetch_outcome w;
     create_outcome := create_outcome w;
     get_outcome := get_outcome w;
     setItem_outcome := outcome |}.

(** The login finish request as an object that has no [userHandle]
    property at all. *)
Definition loginFinishRequest_without_userHandle (sessionId : value)
    (credential : PublicKeyCredential.t Assertion.response) : value :=
  let response := PublicKeyCredential.response credential in
  VObj [("sessionId", sessionId);
        ("credential",
         VObj [("id", VStr (PublicKeyCredential.id credential));
               ("rawId", VStr (bufferToBase64URL (PublicKeyCredential.rawId credential)));
               ("type", VStr (PublicKeyCredential.type credential));
               ("response",
                VObj [("authenticatorData",
                       VStr (bufferToBase64URL (Assertion.authenticatorData response)));
                      ("clientDataJSON",
                       VStr (bufferToBase64URL (Assertion.clientDataJSON response)));
                      ("signature",
                       VStr (bufferToBase64URL (Assertion.signature response)))])])].

(** The login finish request with the text [handle] as [userHandle]. *)
Definition loginFinishRequest_with_userHandle (sessionId : value)
    (credential : PublicKeyCredential.t Assertion.response) (handle : string) : value :=
  let response := PublicKeyCredential.response credential in
  VObj [("sessionId", sessionId);
        ("credential",
         VObj [("id", VStr (PublicKeyCredential.id credential));
               ("rawId", VStr (bufferToBase64URL (PublicKeyCredential.rawId credential)));
               ("type", VStr (PublicKeyCredential.type credential));
               ("response",
                VObj [("authenticatorData",
                       VStr (bufferToBase64URL (Assertion.authenticatorData response)));
                      ("clientDataJSON",
                       VStr (bufferToBase64URL (Assertion.clientDataJSON response)));
                      ("signature",
                       VStr (bufferToBase64URL (Assertion.signature response)));
                      ("userHandle", VStr handle)])])].

(** HTTP 200 with [{success: true}] and no [data]. *)
Definition server_success_without_data (_ : string) : Response :=
  {| ok := true; json := Ok (VObj [("success", VBool true)]) |}.

(* ===================================================================== *)
(** * Further vocabulary                                                   *)
(* ===================================================================== *)

(** Neither of the two characters the URL-safe alphabet replaces, nor the
    padding character. *)
Definition is_url_unsafe (c : ascii) : bool :=
  Ascii.eqb c "+" || Ascii.eqb c "/" || Ascii.eqb c "=".

Definition url_char_is_safe (n : Z) : bool :=
  let c := Base64.fromCharCode n in
  negb (is_url_char c) || negb (is_url_unsafe c).

(** A character of the standard alphabet is not touched by the two
    [replace] calls of the decoder. *)
Definition alpha_char_is_standard (n : Z) : bool :=
  let c := Base64.fromCharCode n in
  negb (is_alpha c) || Ascii.eqb (of_url c) c.

(** Anything but a string. *)
Definition not_a_string (v : value) : Prop := forall s, v <> VStr s.

(** A value on which [?.map(...)] throws: [?.] stops on [undefined] and
    [null] only, and of the other values only an array has a [map]. *)
Definition neither_nullish_nor_array (v : value) : Prop :=
  match v with
  | VUndefined | VNull | VArr _ => False
  | _ => True
  end.

(** Options whose [challenge] and [user.id] are decodable, with the value
    [credentials] as the credential list [key]. *)
Definition options_with_list (key : string) (credentials : value)
  : list (string * value) :=
  [("challenge", VStr "AQID");
   ("user", VObj [("id", VStr "dXNlcg"); ("name", VStr "u")]);
   (key, credentials)].

(** A proxy that answers 502 with an HTML page: [response.json()] rejects. *)
Definition server_502_html (_ : string) : Response :=
  {| ok := false;
     json := Throw (JsError "SyntaxError" "Unexpected token '<' is not valid JSON") |}.

(** A browser with the credential API and no network. *)
Definition offline_world : World :=
  {| env_EXPO_PUBLIC_API_URL := None;
     window := Some {| window_PublicKeyCredential := TyFunction |};
     fetch_outcome := fun _ _ => Throw (TypeError "Failed to fetch");
     create_outcome := fun _ => Ok (Some sample_credential);
     get_outcome := fun _ => Ok (Some (sample_assertion None));
     setItem_outcome := fun _ _ => None |}.

(** A 2xx begin response whose envelope has a true [success] and a [data]. *)
Definition accepted_begin (r : Response) (fields : list (string * value)) : Prop :=
  ok r = true /\ json r = Ok (VObj fields)
  /\ truthy (field "success" fields) = true
  /\ truthy (field "data" fields) = true.

(** A write to the store. *)
Definition is_storage_write (e : event) : bool :=
  match e with
  | StorageSetItem _ _ => true
  | _ => false
  end.

(** The binary that the text property [k] of the object [o] encodes. *)
Definition decoded_field (o : value) (k : string) : option (list byte) :=
  match prop o k with
  | VStr text => base64URLToBuffer text
  | _ => None
  end.

(** A server whose creation options lack the [user] object. *)
Definition server_options_without_user (_ : string) : Response :=
  {| ok := true;
     json := Ok (VObj [("success", VBool true);
                       ("data", VObj [("publicKey", VObj [("challenge", VStr "AQID")]);
                                      ("sessionId", VStr "session-1")])]) |}.

(** A platform whose credential calls return [null] or throw. *)
Definition world_with_platform (server : string -> Response)
    (create : result (option (PublicKeyCredential.t Attestation.response)))
    (get : result (option (PublicKeyCredential.t Assertion.response))) : World :=
  {| env_EXPO_PUBLIC_API_URL := None;
     window := Some {| window_PublicKeyCredential := TyFunction |};
     fetch_outcome := fun url _ => Ok (server url);
     create_outcome := fun _ => create;
     get_outcome := fun _ => get;
     setItem_outcome := fun _ _ => None |}.

Definition NotAllowedError : exn :=
  JsError "NotAllowedError" "The operation either timed out or was not allowed.".

(* ===================================================================== *)
(** * [webauthn.ts]: the stored email and the platform check               *)
(* ===================================================================== *)

(** What else the client observes of its browser: whether reading and
    removing a key of [localStorage] throws, and what
    [PublicKeyCredential.isUserVerifyingPlatformAuthenticatorAvailable()]
    settles to. *)
Record Browser : Type := {
  getItem_outcome : string -> option exn;
  removeItem_outcome : string -> option exn;
  isUserVerifyingPlatformAuthenticatorAvailable : result bool;
}.

(** [localStorage.getItem(key)]: the stored value, [null] when there is
    none, unless the browser throws. *)
Definition localStorage_getItem (b : Browser) (key : string) : M (option string) :=
  fun _ s =>
    match getItem_outcome b key with
    | Some e => (Throw e, s)
    | None => (Ok (localStorage s !! key), s)
    end.

(** [localStorage.removeItem(key)]. *)
Definition localStorage_removeItem (b : Browser) (key : string) : M unit :=
  fun _ s =>
    match removeItem_outcome b key with
    | Some e => (Throw e, s)
    | None => (Ok tt, {| trace := trace s; localStorage := delete key (localStorage s) |})
    end.

Definition getLastEmail (b : Browser) : M (option string) :=
  w ← ask;
  match window w with
  | None => mret None
  | Some _ =>
      try_catch (localStorage_getItem b "webauthn_last_email")
        (fun error => console_error "Failed to get last email:" error;; mret None)
  end.

Definition clearLastEmail (b : Browser) : M unit :=
  w ← ask;
  match window w with
  | None => mret tt
  | Some _ =>
      try_catch (localStorage_removeItem b "webauthn_last_email")
        (fun error => console_error "Failed to clear last email:" error)
  end.

Definition isPlatformAuthenticatorAvailable (b : Browser) : M bool :=
  w ← ask;
  if negb (isWebAuthnSupported w) then mret false
  else
    try_catch (lift (isUserVerifyingPlatformAuthenticatorAvailable b))
      (fun error =>
         console_error "Platform authenticator check failed:" error;;
         mret false).

(** A browser whose store can be read and cleared. *)
Definition plain_browser (platform : result bool) : Browser :=
  {| getItem_outcome := fun _ => None;
     removeItem_outcome := fun _ => None;
     isUserVerifyingPlatformAuthenticatorAvailable := platform |}.

(* ===================================================================== *)
(** * [use-biometrics.web.ts]: the hook                                    *)
(* ===================================================================== *)

Inductive WebAuthnAuthenticationType : Type :=
  | PLATFORM
  | SECURITY_KEY.

Module WebAuthnAuthenticationOptions.
Record t : Type := {
  promptMessage : option string;
  cancelLabel : option string;
  email : option string;
}.
End WebAuthnAuthenticationOptions.

(** The five [useState] cells of [useBiometrics]. *)
Record HookState : Type := {
  isAvailable : bool;
  isEnrolled : bool;
  supportedTypes : list WebAuthnAuthenticationType;
  isLoading : bool;
  lastEmail : option string;
}.

(** The state of the first render. *)
Definition initial_hook_state : HookState :=
  {| isAvailable := false; isEnrolled := false; supportedTypes := [];
     isLoading := true; lastEmail := None |}.

Definition setIsAvailable (x : bool) (h : HookState) : HookState :=
  {| isAvailable := x; isEnrolled := isEnrolled h; supportedTypes := supportedTypes h;
     isLoading := isLoading h; lastEmail := lastEmail h |}.

Definition setIsEnrolled (x : bool) (h : HookState) : HookState :=
  {| isAvailable := isAvailable h; isEnrolled := x; supportedTypes := supportedTypes h;
     isLoading := isLoading h; lastEmail := lastEmail h |}.

Definition setSupportedTypes (x : list WebAuthnAuthenticationType) (h : HookState)
  : HookState :=
  {| isAvailable := isAvailable h; isEnrolled := isEnrolled h; supportedTypes := x;
     isLoading := isLoading h; lastEmail := lastEmail h |}.

Definition setIsLoading (x : bool) (h : HookState) : HookState :=
  {| isAvailable := isAvailable h; isEnrolled := isEnrolled h;
     supportedTypes := supportedTypes h; isLoading := x; lastEmail := lastEmail h |}.

Definition setLastEmail (x : option string) (h : HookState) : HookState :=
  {| isAvailable := isAvailable h; isEnrolled := isEnrolled h;
     supportedTypes := supportedTypes h; isLoading := isLoading h; lastEmail := x |}.

(** [s.includes(sub)]. *)
Fixpoint includes (s sub : string) : bool :=
  String.prefix sub s
  || match s with
     | EmptyString => false
     | String _ rest => includes rest sub
     end.

(** [!!email] on [string | null]. *)
Definition nonempty (email : option string) : bool :=
  match email with
  | Some e => negb (String.eqb e "")
  | None => false
  end.

(** [checkWebAuthnSupport], run once on mount.  The hook state is threaded
    through; the [catch] block sees the state as the setters before the
    throw left it, and the [finally] block runs on every path. *)
Definition checkWebAuthnSupport (b : Browser) (h : HookState) : M HookState :=
  fun w s =>
    let h := setIsLoading true h in
    let rescue (h : HookState) (error : exn) (s : State) :=
      (Ok (setIsLoading false (setIsEnrolled false (setIsAvailable false h))),
       push s [ConsoleError "WebAuthnのチェックに失敗しました:" error]) in
    if negb (isWebAuthnSupported w)
    then (Ok (setIsLoading false (setIsEnrolled false (setIsAvailable false h))), s)
    else
      match isPlatformAuthenticatorAvailable b w s with
      | (Throw error, s1) => rescue h error s1
      | (Ok platformAvailable, s1) =>
          let h := setIsAvailable platformAvailable h in
          if platformAvailable then
            let h := setSupportedTypes [PLATFORM] h in
            match getLastEmail b w s1 with
            | (Throw error, s2) => rescue h error s2
            | (Ok email, s2) =>
                (Ok (setIsLoading false (setIsEnrolled (nonempty email)
                                           (setLastEmail email h))), s2)
            end
          else (Ok (setIsLoading false h), s1)
      end.

(** [{ success: false, error: result.error || fallback }]. *)
Definition failure_or (error : value) (fallback : string) : value :=
  VObj [("success", VBool false); ("error", or_else error (VStr fallback))].

(** The closure [register] of a render whose state is [h]: the result and
    the state after its setters. *)
Definition useBiometrics_register (h : HookState) (email username : string)
  : M (value * HookState) :=
  if String.eqb email "" || String.eqb username ""
  then mret (failure "EmailとUsernameを入力してください", h)
  else if negb (isAvailable h)
  then mret (failure "このブラウザは生体認証（WebAuthn）に対応していません", h)
  else
    try_catch
      (result ← registerWebAuthnCredential email username;
       flag ← lift (get result "success");
       if truthy flag then
         token ← lift (get result "token");
         user ← lift (get result "user");
         mret (VObj [("success", VBool true); ("token", token); ("user", user)],
               setLastEmail (Some email) (setIsEnrolled true h))
       else
         error ← lift (get result "error");
         mret (failure_or error "登録に失敗しました", h))
      (fun error =>
         let errorMessage := message_of error "登録中にエラーが発生しました" in
         if includes errorMessage "cancelled" || includes errorMessage "abort"
         then mret (failure "登録がキャンセルされました", h)
         else mret (failure errorMessage, h)).

(** [options?.email || lastEmail]. *)
Definition email_to_use (h : HookState) (options : option WebAuthnAuthenticationOptions.t)
  : option string :=
  match options ≫= WebAuthnAuthenticationOptions.email with
  | Some e => if String.eqb e "" then lastEmail h else Some e
  | None => lastEmail h
  end.

(** The closure [authenticate] of a render whose state is [h]. *)
Definition useBiometrics_authenticate (h : HookState)
    (options : option WebAuthnAuthenticationOptions.t) : M (value * HookState) :=
  match email_to_use h options with
  | None => mret (failure "Emailが指定されていません", h)
  | Some email =>
      if String.eqb email "" then mret (failure "Emailが指定されていません", h)
      else if negb (isAvailable h)
      then mret (failure "このブラウザは生体認証（WebAuthn）に対応していません", h)
      else
        try_catch
          (result ← authenticateWebAuthn email;
           flag ← lift (get result "success");
           if truthy flag then
             token ← lift (get result "token");
             user ← lift (get result "user");
             mret (VObj [("success", VBool true); ("token", token); ("user", user)],
                   setLastEmail (Some email) h)
           else
             error ← lift (get result "error");
             mret (failure_or error "認証に失敗しました", h))
          (fun error =>
             let errorMessage := message_of error "認証中にエラーが発生しました" in
             if includes errorMessage "cancelled" || includes errorMessage "abort"
             then mret (failure "認証がキャンセルされました", h)
             else if includes errorMessage "timeout"
             then mret (failure "認証がタイムアウトしました", h)
             else mret (failure errorMessage, h))
  end.

(** [errorMessage || fallback] on a string. *)
Definition string_or (s fallback : string) : string :=
  if String.eqb s "" then fallback else s.

Definition AbortError : exn := JsError "AbortError" "signal is aborted without reason".

(** A hook state after a mount check that found the authenticator. *)
Definition ready_hook_state (email : option string) : HookState :=
  {| isAvailable := true; isEnrolled := nonempty email; supportedTypes := [PLATFORM];
     isLoading := false; lastEmail := email |}.

Fixpoint string_existsb (p : ascii -> bool) (s : string) : bool :=
  match s with
  | EmptyString => false
  | String c rest => p c || string_existsb p rest
  end.

(** A character that is neither of an alphabet (standard or URL-safe), nor
    ASCII whitespace, nor the padding character. *)
Definition is_foreign (c : ascii) : bool :=
  negb (is_alpha c) && negb (is_url_char c)
  && negb (Base64.is_ascii_whitespace c) && negb (Base64.is_pad c).

(** A character the decoder's [replace] calls leave foreign. *)
Definition is_bad (c : ascii) : bool :=
  negb (is_alpha c) && negb (Base64.is_ascii_whitespace c) && negb (Base64.is_pad c).

Definition foreign_stays_bad (n : Z) : bool :=
  let c := Base64.fromCharCode n in
  negb (is_foreign c) || is_bad (of_url c).


(** A server that accepts the begin steps and rejects the finish steps
    with HTTP 401. *)
Definition server_rejecting_finish (url : string) : Response :=
  if String.eqb url "http://localhost:8080/api/v1/auth/register/begin"
     || String.eqb url "http://localhost:8080/api/v1/auth/login/begin"
  then accepting_server url
  else {| ok := false;
          json := Ok (VObj [("success", VBool false);
                            ("message", VStr "signature mismatch")]) |}.
(* ===================================================================== *)
(** * Codec: round trips                                                   *)
(* ===================================================================== *)

(** ** The codec on concrete inputs *)

Example encode_empty : bufferToBase64URL [] = "".
Proof. reflexivity. Qed.

Example encode_one_byte : bufferToBase64URL [x41%byte] = "QQ".
Proof. reflexivity. Qed.

Example encode_two_bytes : bufferToBase64URL [xfb; xff]%byte = "-_8".
Proof. reflexivity. Qed.

Example encode_five_bytes :
  bufferToBase64URL [x68; x65; x6c; x6c; x6f]%byte = "aGVsbG8".
Proof. reflexivity. Qed.

Example decode_five_bytes :
  base64URLToBuffer "aGVsbG8" = Some [x68; x65; x6c; x6c; x6f]%byte.
Proof. reflexivity. Qed.

Example decode_padded : base64URLToBuffer "QQ==" = Some [x41%byte].
Proof. reflexivity. Qed.

Example decode_length_1 : base64URLToBuffer "A" = None.
Proof. reflexivity. Qed.

Example decode_outside_alphabet : base64URLToBuffer "QQ*A" = None.
Proof. reflexivity. Qed.

Example atob_skips_whitespace : Base64.atob "aGVs bG8=" = Some "hello".
Proof. reflexivity. Qed.

Lemma all_below_spec n p :
  all_below n p = true -> forall x, 0 <= x < Z.of_nat n -> p x = true.
Proof.
  induction n as [|k IH]; simpl; intros H x Hx; [lia|].
  apply andb_true_iff in H as [Hk Hrest].
  destruct (decide (x = Z.of_nat k)) as [->|Hne]; [exact Hk|].
  apply IH; [exact Hrest | lia].
Qed.

Lemma charCode_range c : 0 <= Base64.charCode c < 256.
Proof.
  unfold Base64.charCode.
  pose proof (N_ascii_bounded c). lia.
Qed.

Lemma fromCharCode_charCode c : Base64.fromCharCode (Base64.charCode c) = c.
Proof.
  unfold Base64.fromCharCode, Base64.charCode.
  rewrite N2Z.id. apply ascii_N_embedding.
Qed.

Lemma charCode_fromCharCode n :
  0 <= n < 256 -> Base64.charCode (Base64.fromCharCode n) = n.
Proof.
  intros Hn. unfold Base64.fromCharCode, Base64.charCode.
  rewrite N_ascii_embedding by lia. lia.
Qed.

Lemma byte_check p :
  all_below 256 p = true -> forall x, 0 <= x < 256 -> p x = true.
Proof. intros H x Hx. apply (all_below_spec 256 p H). lia. Qed.

Lemma byte2_check p :
  all_below 256 (fun x => all_below 256 (p x)) = true ->
  forall x y, 0 <= x < 256 -> 0 <= y < 256 -> p x y = true.
Proof.
  intros H x y Hx Hy.
  apply (byte_check (p x)); [|exact Hy].
  exact (byte_check (fun x => all_below 256 (p x)) H x Hx).
Qed.

Lemma sextet_check p :
  all_below 64 p = true -> forall x, 0 <= x < 64 -> p x = true.
Proof. intros H x Hx. apply (all_below_spec 64 p H). lia. Qed.

Lemma sextet2_check p :
  all_below 64 (fun x => all_below 64 (p x)) = true ->
  forall x y, 0 <= x < 64 -> 0 <= y < 64 -> p x y = true.
Proof.
  intros H x y Hx Hy.
  apply (sextet_check (p x)); [|exact Hy].
  exact (sextet_check (fun x => all_below 64 (p x)) H x Hx).
Qed.

(** ** Bit arithmetic of one group, checked on every byte and sextet *)

Lemma in_sextet_spec n : in_sextet n = true <-> 0 <= n < 64.
Proof. unfold in_sextet. rewrite andb_true_iff, Z.leb_le, Z.ltb_lt. tauto. Qed.

Lemma in_byte_spec n : in_byte n = true <-> 0 <= n < 256.
Proof. unfold in_byte. rewrite andb_true_iff, Z.leb_le, Z.ltb_lt. tauto. Qed.

Ltac bytes1 P x Hx :=
  change (P x = true); apply (byte_check P); [vm_compute; reflexivity | exact Hx].
Ltac bytes2 P x y Hx Hy :=
  change (P x y = true); apply (byte2_check P);
  [vm_compute; reflexivity | exact Hx | exact Hy].
Ltac sextets1 P x Hx :=
  change (P x = true); apply (sextet_check P); [vm_compute; reflexivity | exact Hx].
Ltac sextets2 P x y Hx Hy :=
  change (P x y = true); apply (sextet2_check P);
  [vm_compute; reflexivity | exact Hx | exact Hy].

Lemma s0_range x : 0 <= x < 256 -> 0 <= s0 x < 64.
Proof. intros Hx. apply in_sextet_spec. bytes1 (fun x => in_sextet (s0 x)) x Hx. Qed.

Lemma s1_range x y : 0 <= x < 256 -> 0 <= y < 256 -> 0 <= s1 x y < 64.
Proof.
  intros Hx Hy. apply in_sextet_spec.
  bytes2 (fun x y => in_sextet (s1 x y)) x y Hx Hy.
Qed.

Lemma s2_range y z : 0 <= y < 256 -> 0 <= z < 256 -> 0 <= s2 y z < 64.
Proof.
  intros Hy Hz. apply in_sextet_spec.
  bytes2 (fun y z => in_sextet (s2 y z)) y z Hy Hz.
Qed.

Lemma s3_range z : 0 <= z < 256 -> 0 <= s3 z < 64.
Proof. intros Hz. apply in_sextet_spec. bytes1 (fun z => in_sextet (s3 z)) z Hz. Qed.

Lemma b0_s x y : 0 <= x < 256 -> 0 <= y < 256 -> b0 (s0 x) (s1 x y) = x.
Proof.
  intros Hx Hy. apply Z.eqb_eq.
  bytes2 (fun x y => b0 (s0 x) (s1 x y) =? x) x y Hx Hy.
Qed.

Lemma s1_low x y : 0 <= x < 256 -> 0 <= y < 256 -> Z.land (s1 x y) 15 = Z.shiftr y 4.
Proof.
  intros Hx Hy. apply Z.eqb_eq.
  bytes2 (fun x y => Z.land (s1 x y) 15 =? Z.shiftr y 4) x y Hx Hy.
Qed.

Lemma s2_high y z : 0 <= y < 256 -> 0 <= z < 256 -> Z.shiftr (s2 y z) 2 = Z.land y 15.
Proof.
  intros Hy Hz. apply Z.eqb_eq.
  bytes2 (fun y z => Z.shiftr (s2 y z) 2 =? Z.land y 15) y z Hy Hz.
Qed.

Lemma byte_nibbles y :
  0 <= y < 256 -> Z.lor (Z.shiftl (Z.shiftr y 4) 4) (Z.land y 15) = y.
Proof.
  intros Hy. apply Z.eqb_eq.
  bytes1 (fun y => Z.lor (Z.shiftl (Z.shiftr y 4) 4) (Z.land y 15) =? y) y Hy.
Qed.

Lemma b1_s x y z :
  0 <= x < 256 -> 0 <= y < 256 -> 0 <= z < 256 -> b1 (s1 x y) (s2 y z) = y.
Proof.
  intros Hx Hy Hz. unfold b1.
  rewrite s1_low, s2_high by assumption. apply byte_nibbles, Hy.
Qed.

Lemma b2_s y z : 0 <= y < 256 -> 0 <= z < 256 -> b2 (s2 y z) (s3 z) = z.
Proof.
  intros Hy Hz. apply Z.eqb_eq.
  bytes2 (fun y z => b2 (s2 y z) (s3 z) =? z) y z Hy Hz.
Qed.

(** The last group of one byte: [s1 x 0] is its second sextet. *)
Lemma s1_last x : Z.shiftl (Z.land x 3) 4 = s1 x 0.
Proof. unfold s1. rewrite Z.shiftr_0_l, Z.lor_0_r. reflexivity. Qed.

(** The last group of two bytes: [s2 y 0] is its third sextet. *)
Lemma s2_last y : Z.shiftl (Z.land y 15) 2 = s2 y 0.
Proof. unfold s2. rewrite Z.shiftr_0_l, Z.lor_0_r. reflexivity. Qed.

Lemma b0_range p q : 0 <= p < 64 -> 0 <= q < 64 -> 0 <= b0 p q < 256.
Proof.
  intros Hp Hq. apply in_byte_spec.
  sextets2 (fun p q => in_byte (b0 p q)) p q Hp Hq.
Qed.

Lemma b1_range q r : 0 <= q < 64 -> 0 <= r < 64 -> 0 <= b1 q r < 256.
Proof.
  intros Hq Hr. apply in_byte_spec.
  sextets2 (fun q r => in_byte (b1 q r)) q r Hq Hr.
Qed.

Lemma b2_range r t : 0 <= r < 64 -> 0 <= t < 64 -> 0 <= b2 r t < 256.
Proof.
  intros Hr Ht. apply in_byte_spec.
  sextets2 (fun r t => in_byte (b2 r t)) r t Hr Ht.
Qed.

Lemma s0_b p q : 0 <= p < 64 -> 0 <= q < 64 -> s0 (b0 p q) = p.
Proof.
  intros Hp Hq. apply Z.eqb_eq.
  sextets2 (fun p q => s0 (b0 p q) =? p) p q Hp Hq.
Qed.

Lemma b0_low p q :
  0 <= p < 64 -> 0 <= q < 64 -> Z.shiftl (Z.land (b0 p q) 3) 4 = Z.shiftl (Z.shiftr q 4) 4.
Proof.
  intros Hp Hq. apply Z.eqb_eq.
  sextets2 (fun p q => Z.shiftl (Z.land (b0 p q) 3) 4 =? Z.shiftl (Z.shiftr q 4) 4)
    p q Hp Hq.
Qed.

Lemma b1_high q r : 0 <= q < 64 -> 0 <= r < 64 -> Z.shiftr (b1 q r) 4 = Z.land q 15.
Proof.
  intros Hq Hr. apply Z.eqb_eq.
  sextets2 (fun q r => Z.shiftr (b1 q r) 4 =? Z.land q 15) q r Hq Hr.
Qed.

Lemma b1_low q r :
  0 <= q < 64 -> 0 <= r < 64 -> Z.shiftl (Z.land (b1 q r) 15) 2 = Z.shiftl (Z.shiftr r 2) 2.
Proof.
  intros Hq Hr. apply Z.eqb_eq.
  sextets2 (fun q r => Z.shiftl (Z.land (b1 q r) 15) 2 =? Z.shiftl (Z.shiftr r 2) 2)
    q r Hq Hr.
Qed.

Lemma b2_high r t : 0 <= r < 64 -> 0 <= t < 64 -> Z.shiftr (b2 r t) 6 = Z.land r 3.
Proof.
  intros Hr Ht. apply Z.eqb_eq.
  sextets2 (fun r t => Z.shiftr (b2 r t) 6 =? Z.land r 3) r t Hr Ht.
Qed.

Lemma sextet_halves q :
  0 <= q < 64 -> Z.lor (Z.shiftl (Z.shiftr q 4) 4) (Z.land q 15) = q.
Proof.
  intros Hq. apply Z.eqb_eq.
  sextets1 (fun q => Z.lor (Z.shiftl (Z.shiftr q 4) 4) (Z.land q 15) =? q) q Hq.
Qed.

Lemma sextet_quarters r :
  0 <= r < 64 -> Z.lor (Z.shiftl (Z.shiftr r 2) 2) (Z.land r 3) = r.
Proof.
  intros Hr. apply Z.eqb_eq.
  sextets1 (fun r => Z.lor (Z.shiftl (Z.shiftr r 2) 2) (Z.land r 3) =? r) r Hr.
Qed.

Lemma s1_b p q r :
  0 <= p < 64 -> 0 <= q < 64 -> 0 <= r < 64 -> s1 (b0 p q) (b1 q r) = q.
Proof.
  intros Hp Hq Hr. unfold s1.
  rewrite b0_low, b1_high by assumption. apply sextet_halves, Hq.
Qed.

Lemma s2_b q r t :
  0 <= q < 64 -> 0 <= r < 64 -> 0 <= t < 64 -> s2 (b1 q r) (b2 r t) = r.
Proof.
  intros Hq Hr Ht. unfold s2.
  rewrite b1_low, b2_high by assumption. apply sextet_quarters, Hr.
Qed.

Lemma s3_b r t : 0 <= r < 64 -> 0 <= t < 64 -> s3 (b2 r t) = t.
Proof.
  intros Hr Ht. apply Z.eqb_eq.
  sextets2 (fun r t => s3 (b2 r t) =? t) r t Hr Ht.
Qed.

(** What a non-zero trailing bit costs: the second sextet of a final group
    of two characters comes back with its low four bits cleared. *)
Lemma s1_last_b p q :
  0 <= p < 64 -> 0 <= q < 64 -> s1 (b0 p q) 0 = Z.shiftl (Z.shiftr q 4) 4.
Proof. intros Hp Hq. rewrite <- s1_last. apply b0_low; assumption. Qed.

Lemma s2_last_b q r :
  0 <= q < 64 -> 0 <= r < 64 -> s2 (b1 q r) 0 = Z.shiftl (Z.shiftr r 2) 2.
Proof. intros Hq Hr. rewrite <- s2_last. apply b1_low; assumption. Qed.

Lemma clear_low4 q :
  0 <= q < 64 -> (Z.shiftl (Z.shiftr q 4) 4 =? q) = (Z.land q 15 =? 0).
Proof.
  intros Hq. apply Bool.eqb_prop.
  sextets1 (fun q => Bool.eqb (Z.shiftl (Z.shiftr q 4) 4 =? q) (Z.land q 15 =? 0)) q Hq.
Qed.

Lemma clear_low2 r :
  0 <= r < 64 -> (Z.shiftl (Z.shiftr r 2) 2 =? r) = (Z.land r 3 =? 0).
Proof.
  intros Hr. apply Bool.eqb_prop.
  sextets1 (fun r => Bool.eqb (Z.shiftl (Z.shiftr r 2) 2 =? r) (Z.land r 3 =? 0)) r Hr.
Qed.

Lemma clear_low4_range q : 0 <= q < 64 -> 0 <= Z.shiftl (Z.shiftr q 4) 4 < 64.
Proof.
  intros Hq. apply in_sextet_spec.
  sextets1 (fun q => in_sextet (Z.shiftl (Z.shiftr q 4) 4)) q Hq.
Qed.

Lemma clear_low2_range r : 0 <= r < 64 -> 0 <= Z.shiftl (Z.shiftr r 2) 2 < 64.
Proof.
  intros Hr. apply in_sextet_spec.
  sextets1 (fun r => in_sextet (Z.shiftl (Z.shiftr r 2) 2)) r Hr.
Qed.

(** ** Characters of the two alphabets *)

Lemma sextet_char_facts n :
  0 <= n < 64 ->
  Base64.char_sextet (Base64.sextet_char n) = Some n
  /\ of_url (url_char n) = Base64.sextet_char n
  /\ Ascii.eqb (url_char n) "=" = false
  /\ is_url_char (url_char n) = true.
Proof.
  intros Hn.
  assert (H : sextet_char_ok n = true) by (sextets1 sextet_char_ok n Hn).
  unfold sextet_char_ok in H.
  apply andb_true_iff in H as [H Hurl].
  apply andb_true_iff in H as [H Hpad].
  apply andb_true_iff in H as [Hs Hback].
  repeat split.
  - destruct (Base64.char_sextet (Base64.sextet_char n)) as [m|]; [|discriminate].
    apply Z.eqb_eq in Hs. congruence.
  - apply Ascii.eqb_eq, Hback.
  - apply negb_true_iff, Hpad.
  - exact Hurl.
Qed.

Lemma url_char_facts c :
  is_url_char c = true ->
  exists p, 0 <= p < 64 /\ Base64.char_sextet (of_url c) = Some p /\ url_char p = c.
Proof.
  intros Hc.
  assert (H : url_code_ok (Base64.charCode c) = true).
  { pose proof (charCode_range c) as Hr.
    bytes1 url_code_ok (Base64.charCode c) Hr. }
  unfold url_code_ok in H. rewrite fromCharCode_charCode, Hc in H. simpl in H.
  destruct (Base64.char_sextet (of_url c)) as [p|]; [|discriminate].
  apply andb_true_iff in H as [Hp Hq].
  exists p. split; [apply in_sextet_spec, Hp|].
  split; [reflexivity | apply Ascii.eqb_eq, Hq].
Qed.

Lemma alpha_char_facts c p :
  Base64.char_sextet c = Some p ->
  0 <= p < 64 /\ Base64.is_ascii_whitespace c = false /\ Base64.is_pad c = false.
Proof.
  intros Hc.
  assert (H : alpha_code_ok (Base64.charCode c) = true).
  { pose proof (charCode_range c) as Hr.
    bytes1 alpha_code_ok (Base64.charCode c) Hr. }
  unfold alpha_code_ok in H. rewrite fromCharCode_charCode, Hc in H.
  apply andb_true_iff in H as [H Hpad].
  apply andb_true_iff in H as [Hp Hws].
  split; [apply in_sextet_spec, Hp|].
  split; apply negb_true_iff; assumption.
Qed.

(** ** Strings by groups *)

Lemma string_ind_by3 (P : string -> Prop) :
  P EmptyString ->
  (forall a, P (String a EmptyString)) ->
  (forall a b, P (String a (String b EmptyString))) ->
  (forall a b c rest, P rest -> P (String a (String b (String c rest)))) ->
  forall s, P s.
Proof.
  intros H0 H1 H2 H3 s.
  assert (H : P s /\ (forall a, P (String a s)) /\ (forall a b, P (String a (String b s)))).
  { induction s as [|c s (IHs & IH1 & IH2)].
    - auto.
    - repeat split; auto. }
  exact (proj1 H).
Qed.

Lemma string_ind_by4 (P : string -> Prop) :
  P EmptyString ->
  (forall a, P (String a EmptyString)) ->
  (forall a b, P (String a (String b EmptyString))) ->
  (forall a b c, P (String a (String b (String c EmptyString)))) ->
  (forall a b c d rest, P rest -> P (String a (String b (String c (String d rest))))) ->
  forall s, P s.
Proof.
  intros H0 H1 H2 H3 H4 s.
  assert (H : P s /\ (forall a, P (String a s))
              /\ (forall a b, P (String a (String b s)))
              /\ (forall a b c, P (String a (String b (String c s))))).
  { induction s as [|d s (IHs & IH1 & IH2 & IH3)].
    - auto.
    - repeat split; auto. }
  exact (proj1 H).
Qed.

Lemma replace_to_url s :
  replace_char "/" "_" (replace_char "+" "-" s) = Base64.string_map to_url s.
Proof.
  unfold replace_char.
  induction s as [|c s IH]; simpl; [reflexivity|]. rewrite IH. reflexivity.
Qed.

Lemma replace_of_url s :
  replace_char "_" "/" (replace_char "-" "+" s) = Base64.string_map of_url s.
Proof.
  unfold replace_char.
  induction s as [|c s IH]; simpl; [reflexivity|]. rewrite IH. reflexivity.
Qed.

Lemma bufferToBase64URL_binary buffer :
  bufferToBase64URL buffer = encode_binary (binary_of_bytes buffer).
Proof. unfold bufferToBase64URL, encode_binary. rewrite replace_to_url. reflexivity. Qed.

Lemma remove_pad_cons c s :
  Ascii.eqb c "=" = false -> remove_char "=" (String c s) = String c (remove_char "=" s).
Proof. intros H. unfold remove_char. simpl. rewrite H. reflexivity. Qed.

Lemma keep_url_char n s :
  0 <= n < 64 ->
  remove_char "=" (String (to_url (Base64.sextet_char n)) s)
  = String (url_char n) (remove_char "=" s).
Proof. intros Hn. apply remove_pad_cons. apply sextet_char_facts, Hn. Qed.

Lemma encode_binary_1 a :
  encode_binary (String a EmptyString) =
  String (url_char (s0 (Base64.charCode a)))
    (String (url_char (s1 (Base64.charCode a) 0)) EmptyString).
Proof.
  pose proof (charCode_range a) as Ha.
  unfold encode_binary. cbn [Base64.btoa Base64.string_map].
  rewrite s1_last.
  rewrite (keep_url_char (Z.shiftr _ 2)) by (apply s0_range, Ha).
  rewrite keep_url_char by (apply s1_range; lia).
  reflexivity.
Qed.

Lemma encode_binary_2 a b :
  encode_binary (String a (String b EmptyString)) =
  String (url_char (s0 (Base64.charCode a)))
    (String (url_char (s1 (Base64.charCode a) (Base64.charCode b)))
       (String (url_char (s2 (Base64.charCode b) 0)) EmptyString)).
Proof.
  pose proof (charCode_range a) as Ha.
  pose proof (charCode_range b) as Hb.
  unfold encode_binary. cbn [Base64.btoa Base64.string_map].
  rewrite s2_last.
  rewrite (keep_url_char (Z.shiftr _ 2)) by (apply s0_range, Ha).
  rewrite (keep_url_char (Z.lor _ _)) by (apply s1_range; assumption).
  rewrite keep_url_char by (apply s2_range; lia).
  reflexivity.
Qed.

Lemma encode_binary_3 a b c rest :
  encode_binary (String a (String b (String c rest))) =
  String (url_char (s0 (Base64.charCode a)))
    (String (url_char (s1 (Base64.charCode a) (Base64.charCode b)))
       (String (url_char (s2 (Base64.charCode b) (Base64.charCode c)))
          (String (url_char (s3 (Base64.charCode c))) (encode_binary rest)))).
Proof.
  pose proof (charCode_range a) as Ha.
  pose proof (charCode_range b) as Hb.
  pose proof (charCode_range c) as Hc.
  unfold encode_binary. cbn [Base64.btoa Base64.string_map].
  rewrite (keep_url_char (Z.shiftr _ 2)) by (apply s0_range, Ha).
  rewrite (keep_url_char (Z.lor (Z.shiftl (Z.land _ 3) 4) _))
    by (apply s1_range; assumption).
  rewrite (keep_url_char (Z.lor (Z.shiftl (Z.land _ 15) 2) _))
    by (apply s2_range; assumption).
  rewrite (keep_url_char (Z.land _ 63)) by (apply s3_range, Hc).
  reflexivity.
Qed.

Lemma decode_groups_2 a b :
  Base64.decode_groups (String a (String b EmptyString)) =
  p ← Base64.char_sextet a; q ← Base64.char_sextet b;
  Some (String (Base64.fromCharCode (b0 p q)) EmptyString).
Proof. reflexivity. Qed.

Lemma decode_groups_3 a b c :
  Base64.decode_groups (String a (String b (String c EmptyString))) =
  p ← Base64.char_sextet a; q ← Base64.char_sextet b; r ← Base64.char_sextet c;
  Some (String (Base64.fromCharCode (b0 p q))
          (String (Base64.fromCharCode (b1 q r)) EmptyString)).
Proof. reflexivity. Qed.

Lemma decode_groups_4 a b c d rest :
  Base64.decode_groups (String a (String b (String c (String d rest)))) =
  p ← Base64.char_sextet a; q ← Base64.char_sextet b;
  r ← Base64.char_sextet c; t ← Base64.char_sextet d;
  tl ← Base64.decode_groups rest;
  Some (String (Base64.fromCharCode (b0 p q))
          (String (Base64.fromCharCode (b1 q r))
             (String (Base64.fromCharCode (b2 r t)) tl))).
Proof. reflexivity. Qed.

(** Decoding the sextet of a URL-safe character that the encoder wrote. *)
Lemma sextet_of_url_char n :
  0 <= n < 64 -> Base64.char_sextet (of_url (url_char n)) = Some n.
Proof.
  intros Hn. destruct (sextet_char_facts n Hn) as (Hs & Hback & _).
  rewrite Hback. exact Hs.
Qed.

(** The group decoder undoes the encoder, on the text with the standard
    alphabet restored. *)
Lemma decode_groups_encode_binary s :
  Base64.decode_groups (Base64.string_map of_url (encode_binary s)) = Some s.
Proof.
  induction s as [|a|a b|a b c rest IH] using string_ind_by3.
  - reflexivity.
  - pose proof (charCode_range a) as Ha.
    rewrite encode_binary_1. cbn [Base64.string_map]. rewrite decode_groups_2.
    rewrite !sextet_of_url_char by (first [apply s0_range | apply s1_range]; lia).
    cbn [mbind option_bind]. rewrite b0_s by lia.
    rewrite fromCharCode_charCode. reflexivity.
  - pose proof (charCode_range a) as Ha.
    pose proof (charCode_range b) as Hb.
    rewrite encode_binary_2. cbn [Base64.string_map]. rewrite decode_groups_3.
    rewrite !sextet_of_url_char
      by (first [apply s0_range | apply s1_range | apply s2_range]; lia).
    cbn [mbind option_bind]. rewrite b0_s, b1_s by lia.
    rewrite !fromCharCode_charCode. reflexivity.
  - pose proof (charCode_range a) as Ha.
    pose proof (charCode_range b) as Hb.
    pose proof (charCode_range c) as Hc.
    rewrite encode_binary_3. cbn [Base64.string_map]. rewrite decode_groups_4.
    rewrite !sextet_of_url_char
      by (first [apply s0_range | apply s1_range | apply s2_range | apply s3_range]; lia).
    rewrite IH. cbn [mbind option_bind]. rewrite b0_s, b1_s, b2_s by lia.
    rewrite !fromCharCode_charCode. reflexivity.
Qed.

(** ** [atob] on a text padded by [padEnd] *)

Lemma length_by4 a b c d rest :
  (String.length (String a (String b (String c (String d rest)))) mod 4
   = String.length rest mod 4)%nat.
Proof.
  cbn [String.length].
  replace (S (S (S (S (String.length rest))))) with (String.length rest + 1 * 4)%nat by lia.
  apply Nat.Div0.mod_add.
Qed.

Lemma padEnd_pad4 t :
  padEnd t (String.length t + (4 - String.length t mod 4) mod 4)%nat "=" = pad4 t.
Proof.
  unfold padEnd.
  induction t as [|a|a b|a b c|a b c d rest IH] using string_ind_by4;
    try reflexivity.
  rewrite length_by4.
  cbn [pad4]. rewrite <- IH.
  repeat match goal with
         | |- context [(?n + ?k - ?n)%nat] => replace (n + k - n)%nat with k by lia
         end.
  reflexivity.
Qed.

Lemma length_pad4 t : (String.length (pad4 t) mod 4 =? 0)%nat = true.
Proof.
  induction t as [|a|a b|a b c|a b c d rest IH] using string_ind_by4;
    try reflexivity.
  cbn [pad4]. rewrite length_by4. exact IH.
Qed.

Lemma filter_ws_pad4 t :
  string_forallb is_alpha t = true ->
  Base64.string_filter (fun c => negb (Base64.is_ascii_whitespace c)) (pad4 t) = pad4 t.
Proof.
  assert (Hkeep : forall c s, is_alpha c = true ->
            Base64.string_filter (fun c => negb (Base64.is_ascii_whitespace c)) (String c s)
            = String c (Base64.string_filter (fun c => negb (Base64.is_ascii_whitespace c)) s)).
  { intros c s Hc. unfold is_alpha in Hc.
    destruct (Base64.char_sextet c) as [p|] eqn:Hp; [|discriminate].
    destruct (alpha_char_facts c p Hp) as (_ & Hws & _).
    simpl. rewrite Hws. reflexivity. }
  induction t as [|a|a b|a b c|a b c d rest IH] using string_ind_by4;
    cbn [string_forallb pad4]; intros H;
    repeat (apply andb_true_iff in H as [? H]);
    rewrite ?Hkeep by assumption; try reflexivity.
  rewrite IH by assumption. reflexivity.
Qed.

Lemma strip_padding_pad4 t :
  string_forallb is_alpha t = true ->
  (String.length t mod 4 =? 1)%nat = false ->
  Base64.strip_padding (pad4 t) = t.
Proof.
  assert (Hkeep : forall c s, is_alpha c = true ->
            Base64.strip_padding (String c s) = String c (Base64.strip_padding s)).
  { intros c s Hc. unfold is_alpha in Hc.
    destruct (Base64.char_sextet c) as [p|] eqn:Hp; [|discriminate].
    destruct (alpha_char_facts c p Hp) as (_ & _ & Hpad).
    simpl. rewrite Hpad. reflexivity. }
  induction t as [|a|a b|a b c|a b c d rest IH] using string_ind_by4;
    cbn [string_forallb pad4]; intros H Hlen;
    repeat (apply andb_true_iff in H as [? H]);
    rewrite ?Hkeep by assumption; try reflexivity.
  - discriminate Hlen.
  - rewrite length_by4 in Hlen. rewrite IH by assumption. reflexivity.
Qed.

Lemma atob_padEnd t :
  string_forallb is_alpha t = true ->
  (String.length t mod 4 =? 1)%nat = false ->
  Base64.atob (padEnd t (String.length t + (4 - String.length t mod 4) mod 4)%nat "=")
  = Base64.decode_groups t.
Proof.
  intros Halpha Hlen. rewrite padEnd_pad4. unfold Base64.atob.
  rewrite filter_ws_pad4 by assumption.
  rewrite length_pad4.
  rewrite strip_padding_pad4 by assumption.
  rewrite Hlen. reflexivity.
Qed.

Lemma length_string_map f s :
  String.length (Base64.string_map f s) = String.length s.
Proof. induction s as [|c s IH]; simpl; congruence. Qed.

Lemma of_url_alpha t :
  string_forallb is_url_char t = true ->
  string_forallb is_alpha (Base64.string_map of_url t) = true.
Proof.
  induction t as [|c t IH]; simpl; [reflexivity|].
  intros H. apply andb_true_iff in H as [Hc Ht].
  rewrite IH by assumption.
  destruct (url_char_facts c Hc) as (p & _ & Hp & _).
  unfold is_alpha. rewrite Hp. reflexivity.
Qed.

(** On a well-formed text, [base64URLToBuffer] is the group decoder. *)
Lemma base64URLToBuffer_wellformed t :
  wellformed t = true ->
  base64URLToBuffer t =
  bytes_of_binary <$> Base64.decode_groups (Base64.string_map of_url t).
Proof.
  unfold wellformed. intros H. apply andb_true_iff in H as [Hchars Hlen].
  apply negb_true_iff in Hlen.
  unfold base64URLToBuffer. rewrite replace_of_url.
  rewrite atob_padEnd.
  - destruct (Base64.decode_groups _); reflexivity.
  - apply of_url_alpha, Hchars.
  - rewrite length_string_map. exact Hlen.
Qed.

Lemma bytes_of_binary_of_bytes buffer :
  bytes_of_binary (binary_of_bytes buffer) = buffer.
Proof.
  unfold bytes_of_binary, binary_of_bytes.
  rewrite list_ascii_of_string_of_list_ascii, map_map.
  induction buffer as [|x l IH]; simpl; [reflexivity|].
  rewrite byte_of_ascii_of_byte, IH. reflexivity.
Qed.

Lemma binary_of_bytes_of_binary s :
  binary_of_bytes (bytes_of_binary s) = s.
Proof.
  unfold bytes_of_binary, binary_of_bytes.
  rewrite map_map.
  rewrite <- (string_of_list_ascii_of_string s) at 2.
  f_equal. induction (list_ascii_of_string s) as [|c l IH]; simpl; [reflexivity|].
  rewrite ascii_of_byte_of_ascii, IH. reflexivity.
Qed.

(** What the encoder writes is well-formed and canonical. *)
Lemma encode_binary_wellformed s :
  string_forallb is_url_char (encode_binary s) = true
  /\ (String.length (encode_binary s) mod 4 =? 1)%nat = false
  /\ canonical (encode_binary s) = true.
Proof.
  assert (Hu : forall n, 0 <= n < 64 -> is_url_char (url_char n) = true)
    by (intros n Hn; apply sextet_char_facts, Hn).
  induction s as [|a|a b|a b c rest (IH1 & IH2 & IH3)] using string_ind_by3.
  - repeat split.
  - pose proof (charCode_range a) as Ha.
    rewrite encode_binary_1. cbn [string_forallb canonical].
    rewrite !Hu by (first [apply s0_range | apply s1_range]; lia).
    repeat split. unfold url_sextet.
    rewrite sextet_of_url_char by (apply s1_range; lia).
    rewrite <- s1_last. cbn [default].
    bytes1 (fun x => Z.land (Z.shiftl (Z.land x 3) 4) 15 =? 0) (Base64.charCode a) Ha.
  - pose proof (charCode_range a) as Ha.
    pose proof (charCode_range b) as Hb.
    rewrite encode_binary_2. cbn [string_forallb canonical].
    rewrite !Hu by (first [apply s0_range | apply s1_range | apply s2_range]; lia).
    repeat split. unfold url_sextet.
    rewrite sextet_of_url_char by (apply s2_range; lia).
    rewrite <- s2_last. cbn [default].
    bytes1 (fun y => Z.land (Z.shiftl (Z.land y 15) 2) 3 =? 0) (Base64.charCode b) Hb.
  - pose proof (charCode_range a) as Ha.
    pose proof (charCode_range b) as Hb.
    pose proof (charCode_range c) as Hc.
    rewrite encode_binary_3. rewrite length_by4. cbn [string_forallb canonical].
    rewrite !Hu
      by (first [apply s0_range | apply s1_range | apply s2_range | apply s3_range]; lia).
    rewrite IH1. repeat split; assumption.
Qed.

Lemma url_char_inj m n :
  0 <= m < 64 -> 0 <= n < 64 -> url_char m = url_char n -> m = n.
Proof.
  intros Hm Hn H.
  pose proof (sextet_of_url_char m Hm) as Em.
  pose proof (sextet_of_url_char n Hn) as En.
  rewrite H in Em. congruence.
Qed.

(** Decoding a well-formed text and encoding the bytes again gives the text
    back exactly when the text is canonical. *)
Lemma decode_groups_reencode t :
  string_forallb is_url_char t = true ->
  (String.length t mod 4 =? 1)%nat = false ->
  exists s,
    Base64.decode_groups (Base64.string_map of_url t) = Some s
    /\ (encode_binary s = t <-> canonical t = true).
Proof.
  induction t as [|a|a b|a b c|a b c d rest IH] using string_ind_by4;
    cbn [string_forallb]; intros H Hlen;
    repeat (apply andb_true_iff in H as [? H]).
  - exists EmptyString. split; [reflexivity|]. split; reflexivity.
  - discriminate Hlen.
  - destruct (url_char_facts a) as (p & Hp & Ea & Ua); [assumption|].
    destruct (url_char_facts b) as (q & Hq & Eb & Ub); [assumption|].
    cbn [Base64.string_map]. rewrite decode_groups_2, Ea, Eb. cbn [mbind option_bind].
    eexists. split; [reflexivity|].
    rewrite encode_binary_1.
    rewrite charCode_fromCharCode by (apply b0_range; assumption).
    rewrite s0_b, s1_last_b by assumption.
    cbn [canonical]. unfold url_sextet. rewrite Eb. change (default 0 (Some q)) with q.
    rewrite <- clear_low4 by assumption. rewrite Z.eqb_eq.
    rewrite Ua. rewrite <- Ub.
    split.
    + intros E. injection E as E. apply url_char_inj in E; [exact E| |assumption].
      apply clear_low4_range, Hq.
    + intros E. rewrite E. reflexivity.
  - destruct (url_char_facts a) as (p & Hp & Ea & Ua); [assumption|].
    destruct (url_char_facts b) as (q & Hq & Eb & Ub); [assumption|].
    destruct (url_char_facts c) as (r & Hr & Ec & Uc); [assumption|].
    cbn [Base64.string_map]. rewrite decode_groups_3, Ea, Eb, Ec.
    cbn [mbind option_bind].
    eexists. split; [reflexivity|].
    rewrite encode_binary_2.
    rewrite !charCode_fromCharCode by (first [apply b0_range | apply b1_range]; assumption).
    rewrite s0_b, s1_b, s2_last_b by assumption.
    cbn [canonical]. unfold url_sextet. rewrite Ec. change (default 0 (Some r)) with r.
    rewrite <- clear_low2 by assumption. rewrite Z.eqb_eq.
    rewrite Ua, Ub. rewrite <- Uc.
    split.
    + intros E. injection E as E. apply url_char_inj in E; [exact E| |assumption].
      apply clear_low2_range, Hr.
    + intros E. rewrite E. reflexivity.
  - destruct (url_char_facts a) as (p & Hp & Ea & Ua); [assumption|].
    destruct (url_char_facts b) as (q & Hq & Eb & Ub); [assumption|].
    destruct (url_char_facts c) as (r & Hr & Ec & Uc); [assumption|].
    destruct (url_char_facts d) as (u & Hu & Ed & Ud); [assumption|].
    rewrite length_by4 in Hlen.
    destruct (IH H Hlen) as (s & Es & Hs).
    cbn [Base64.string_map]. rewrite decode_groups_4, Ea, Eb, Ec, Ed, Es.
    cbn [mbind option_bind].
    eexists. split; [reflexivity|].
    rewrite encode_binary_3.
    rewrite !charCode_fromCharCode
      by (first [apply b0_range | apply b1_range | apply b2_range]; assumption).
    rewrite s0_b, s1_b, s2_b, s3_b by assumption.
    rewrite Ua, Ub, Uc, Ud. cbn [canonical]. rewrite <- Hs.
    split; [intros E; injection E as E; exact E | intros E; rewrite E; reflexivity].
Qed.

(** ** The codec claim *)

(** C1, as stated, fails on a text whose last character carries bits that
    no byte uses: ["QR"] is well-formed, [base64URLToBuffer] accepts it and
    returns the byte 0x41, and [bufferToBase64URL] of that byte is ["QQ"]. *)
Lemma C1_noncanonical_text_not_restored :
  wellformed "QR" = true
  /\ base64URLToBuffer "QR" = Some [x41%byte]
  /\ bufferToBase64URL [x41%byte] = "QQ"
  /\ ~ (exists buffer,
          base64URLToBuffer "QR" = Some buffer /\ bufferToBase64URL buffer = "QR").
Proof.
  repeat split.
  intros (buffer & Hdec & Henc).
  assert (Hb : buffer = [x41%byte]) by (vm_compute in Hdec; congruence).
  subst buffer. vm_compute in Henc. discriminate Henc.
Qed.

(** C1 (amended): for every byte sequence [buffer] (the empty one and every
    length included), decoding the encoding of [buffer] gives [buffer] back;
    and for every padding-free text [t] over the URL-safe alphabet whose
    length is not 1 modulo 4, decoding succeeds, and encoding the decoded
    bytes gives [t] back exactly when the unused low bits of the last
    character of [t] are zero. *)
Theorem C1_codec_round_trip :
  (forall buffer : list byte,
      base64URLToBuffer (bufferToBase64URL buffer) = Some buffer)
  /\ (forall t : string,
        wellformed t = true ->
        exists buffer,
          base64URLToBuffer t = Some buffer
          /\ (bufferToBase64URL buffer = t <-> canonical t = true)).
Proof.
  split.
  - intros buffer. rewrite bufferToBase64URL_binary.
    destruct (encode_binary_wellformed (binary_of_bytes buffer)) as (Hc & Hl & _).
    rewrite base64URLToBuffer_wellformed
      by (unfold wellformed; rewrite Hc, Hl; reflexivity).
    rewrite decode_groups_encode_binary. cbn [fmap option_fmap option_map].
    rewrite bytes_of_binary_of_bytes. reflexivity.
  - intros t Ht. rewrite base64URLToBuffer_wellformed by exact Ht.
    unfold wellformed in Ht. apply andb_true_iff in Ht as [Hc Hl].
    apply negb_true_iff in Hl.
    destruct (decode_groups_reencode t Hc Hl) as (s & Hs & Hiff).
    exists (bytes_of_binary s). rewrite Hs. split; [reflexivity|].
    rewrite bufferToBase64URL_binary, binary_of_bytes_of_binary. exact Hiff.
Qed.

Lemma C1_codec_round_trip_witness :
  wellformed "-_8" = true
  /\ exists buffer,
       base64URLToBuffer "-_8" = Some buffer
       /\ (bufferToBase64URL buffer = "-_8" <-> canonical "-_8" = true).
Proof.
  split; [reflexivity|].
  apply (proj2 C1_codec_round_trip). reflexivity.
Defined.

(* ===================================================================== *)
(** * The challenge-option decoders                                        *)
(* ===================================================================== *)

Lemma field_obj_set_eq k v fields : field k (obj_set k v fields) = v.
Proof.
  unfold field. induction fields as [|[k' v'] rest IH]; simpl.
  - rewrite String.eqb_refl. reflexivity.
  - destruct (String.eqb k k') eqn:E; simpl.
    + rewrite String.eqb_refl. reflexivity.
    + rewrite E. exact IH.
Qed.

Lemma field_obj_set_ne k k' v fields :
  k <> k' -> field k' (obj_set k v fields) = field k' fields.
Proof.
  intros Hne. unfold field. induction fields as [|[k0 v0] rest IH]; simpl.
  - apply String.eqb_neq in Hne. rewrite String.eqb_sym, Hne. reflexivity.
  - destruct (String.eqb k k0) eqn:E; simpl.
    + apply String.eqb_eq in E. subst k0.
      assert (E' : String.eqb k' k = false) by (apply String.eqb_neq; congruence).
      rewrite E'. reflexivity.
    + destruct (String.eqb k' k0); [reflexivity | exact IH].
Qed.

Lemma others_obj_set keys k v fields :
  In k keys -> others keys (obj_set k v fields) = others keys fields.
Proof.
  intros Hin.
  assert (Hk : existsb (String.eqb k) keys = true).
  { apply existsb_exists. exists k. split; [exact Hin | apply String.eqb_refl]. }
  unfold others. induction fields as [|[k' v'] rest IH]; simpl.
  - rewrite Hk. reflexivity.
  - destruct (String.eqb k k') eqn:E; simpl.
    + apply String.eqb_eq in E. subst k'. rewrite Hk. reflexivity.
    + rewrite IH. reflexivity.
Qed.

Lemma call_base64URLToBuffer_Ok v v' :
  call_base64URLToBuffer v = Ok v' <-> decoded_text v v'.
Proof.
  unfold decoded_text. split.
  - destruct v; simpl; try discriminate.
    destruct (base64URLToBuffer s) as [bytes|] eqn:E; [|discriminate].
    intros [= <-]. eauto.
  - intros (s & bytes & -> & E & ->). simpl. rewrite E. reflexivity.
Qed.

Lemma get_Ok_object v k r :
  get v k = Ok r ->
  (exists fields, v = VObj fields /\ r = field k fields)
  \/ ((forall fields, v <> VObj fields) /\ r = VUndefined).
Proof.
  destruct v; simpl; try discriminate; intros [= <-];
    try (right; split; [intros; discriminate | reflexivity]).
  left. eauto.
Qed.

Lemma decode_cred_Ok cred cred' :
  decode_cred cred = Ok cred' -> decoded_id cred cred'.
Proof.
  unfold decode_cred. intros H.
  destruct (get cred "id") as [raw|] eqn:Hget; [|discriminate].
  cbn [mbind result_bind] in H.
  destruct (call_base64URLToBuffer raw) as [id|] eqn:Hid; [|discriminate].
  cbn [mbind result_bind] in H. injection H as <-.
  apply call_base64URLToBuffer_Ok in Hid.
  apply get_Ok_object in Hget as [(fields & -> & ->) | (_ & ->)].
  - exists fields, (obj_set "id" id fields). cbn [spread].
    repeat split.
    + apply others_obj_set. left. reflexivity.
    + rewrite field_obj_set_eq. exact Hid.
  - destruct Hid as (s & bytes & Habs & _). discriminate Habs.
Qed.

Lemma mapM_decode_cred_Ok items items' :
  mapM_result decode_cred items = Ok items' -> Forall2 decoded_id items items'.
Proof.
  revert items'. induction items as [|cred rest IH]; simpl; intros items' H.
  - injection H as <-. constructor.
  - destruct (decode_cred cred) as [cred'|] eqn:Hc; [|discriminate].
    cbn [mbind result_bind] in H.
    destruct (mapM_result decode_cred rest) as [rest'|]; [|discriminate].
    cbn [mbind result_bind] in H. injection H as <-.
    constructor; [apply decode_cred_Ok, Hc | apply IH; reflexivity].
Qed.

Lemma decode_cred_list_Ok name l l' :
  decode_cred_list name l = Ok l' -> decoded_list l l'.
Proof.
  unfold decode_cred_list, decoded_list.
  destruct l; try discriminate.
  - intros [= <-]. left. auto.
  - intros [= <-]. left. auto.
  - intros H. right.
    destruct (mapM_result decode_cred items) as [items'|] eqn:E; [|discriminate].
    cbn [mbind result_bind] in H. injection H as <-.
    exists items, items'. repeat split. apply mapM_decode_cred_Ok, E.
Qed.

Lemma decode_cred_total cred :
  has_text_id cred -> exists cred', decode_cred cred = Ok cred'.
Proof.
  intros (fields & -> & s & bytes & Hs & Hb).
  unfold decode_cred. cbn [get mbind result_bind]. fold (field "id" fields).
  rewrite Hs. cbn [call_base64URLToBuffer]. rewrite Hb. eauto.
Qed.

Lemma decode_cred_list_total name l :
  is_cred_list l -> exists l', decode_cred_list name l = Ok l'.
Proof.
  intros [-> | [-> | (items & -> & Hall)]]; [simpl; eauto | simpl; eauto |].
  assert (H : exists items', mapM_result decode_cred items = Ok items').
  { induction Hall as [|cred rest Hc _ (rest' & IH)]; simpl; [eauto|].
    destruct (decode_cred_total cred Hc) as (cred' & ->).
    cbn [mbind result_bind]. rewrite IH. cbn [mbind result_bind]. eauto. }
  destruct H as (items' & E). unfold decode_cred_list. rewrite E.
  cbn [mbind result_bind]. eauto.
Qed.

(** What a successful [decodeCreationOptions] returns. *)
Lemma decodeCreationOptions_Ok options out :
  decodeCreationOptions options = Ok out -> creation_options_decoded options out.
Proof.
  unfold decodeCreationOptions, creation_options_decoded. intros H.
  destruct (get options "challenge") as [raw|] eqn:Hget; [|discriminate].
  cbn [mbind result_bind] in H.
  destruct (call_base64URLToBuffer raw) as [challenge|] eqn:Hch; [|discriminate].
  cbn [mbind result_bind] in H.
  apply call_base64URLToBuffer_Ok in Hch.
  apply get_Ok_object in Hget as [(fields & -> & ->) | (_ & ->)];
    [|destruct Hch as (? & ? & Habs & _); discriminate Habs].
  cbn [get spread] in H. fold (field "user" fields) in H.
  fold (field "excludeCredentials" fields) in H.
  cbn [mbind result_bind] in H.
  destruct (get (field "user" fields) "id") as [raw_id|] eqn:Hu; [|discriminate].
  cbn [mbind result_bind] in H.
  destruct (call_base64URLToBuffer raw_id) as [user_id|] eqn:Hid; [|discriminate].
  cbn [mbind result_bind] in H.
  destruct (decode_cred_list "excludeCredentials" (field "excludeCredentials" fields))
    as [list'|] eqn:Hl; [|discriminate].
  cbn [mbind result_bind] in H. injection H as <-.
  apply call_base64URLToBuffer_Ok in Hid.
  apply decode_cred_list_Ok in Hl.
  apply get_Ok_object in Hu as [(ufields & Hufields & ->) | (_ & ->)];
    [|destruct Hid as (? & ? & Habs & _); discriminate Habs].
  eexists _, _. split; [reflexivity|]. split; [reflexivity|].
  repeat split.
  - rewrite !others_obj_set by (simpl; auto). reflexivity.
  - rewrite !field_obj_set_ne by discriminate. rewrite field_obj_set_eq. exact Hch.
  - rewrite field_obj_set_ne by discriminate. rewrite field_obj_set_eq.
    rewrite Hufields. cbn [spread].
    exists ufields, (obj_set "id" user_id ufields). repeat split.
    + apply others_obj_set. left. reflexivity.
    + rewrite field_obj_set_eq. exact Hid.
  - rewrite field_obj_set_eq. exact Hl.
Qed.

(** What a successful [decodeRequestOptions] returns. *)
Lemma decodeRequestOptions_Ok options out :
  decodeRequestOptions options = Ok out -> request_options_decoded options out.
Proof.
  unfold decodeRequestOptions, request_options_decoded. intros H.
  destruct (get options "challenge") as [raw|] eqn:Hget; [|discriminate].
  cbn [mbind result_bind] in H.
  destruct (call_base64URLToBuffer raw) as [challenge|] eqn:Hch; [|discriminate].
  cbn [mbind result_bind] in H.
  apply call_base64URLToBuffer_Ok in Hch.
  apply get_Ok_object in Hget as [(fields & -> & ->) | (_ & ->)];
    [|destruct Hch as (? & ? & Habs & _); discriminate Habs].
  cbn [get spread] in H. fold (field "allowCredentials" fields) in H.
  cbn [mbind result_bind] in H.
  destruct (decode_cred_list "allowCredentials" (field "allowCredentials" fields))
    as [list'|] eqn:Hl; [|discriminate].
  cbn [mbind result_bind] in H. injection H as <-.
  apply decode_cred_list_Ok in Hl.
  eexists _, _. split; [reflexivity|]. split; [reflexivity|].
  repeat split.
  - rewrite !others_obj_set by (simpl; auto). reflexivity.
  - rewrite field_obj_set_ne by discriminate. rewrite field_obj_set_eq. exact Hch.
  - rewrite field_obj_set_eq. exact Hl.
Qed.

Lemma decodeCreationOptions_total options :
  creation_payload options -> exists out, decodeCreationOptions options = Ok out.
Proof.
  intros (fields & -> & (s & bytes & Hs & Hb) & (ufields & Hu & s' & bytes' & Hs' & Hb')
          & Hlist).
  destruct (decode_cred_list_total "excludeCredentials" _ Hlist) as (l' & Hl).
  unfold decodeCreationOptions. cbn [get mbind result_bind].
  fold (field "challenge" fields). fold (field "user" fields).
  fold (field "excludeCredentials" fields).
  rewrite Hs. cbn [call_base64URLToBuffer]. rewrite Hb. cbn [mbind result_bind].
  rewrite Hu. cbn [get mbind result_bind]. fold (field "id" ufields).
  rewrite Hs'. cbn [call_base64URLToBuffer]. rewrite Hb'. cbn [mbind result_bind].
  rewrite Hl. cbn [mbind result_bind]. eauto.
Qed.

Lemma decodeRequestOptions_total options :
  request_payload options -> exists out, decodeRequestOptions options = Ok out.
Proof.
  intros (fields & -> & (s & bytes & Hs & Hb) & Hlist).
  destruct (decode_cred_list_total "allowCredentials" _ Hlist) as (l' & Hl).
  unfold decodeRequestOptions. cbn [get mbind result_bind].
  fold (field "challenge" fields). fold (field "allowCredentials" fields).
  rewrite Hs. cbn [call_base64URLToBuffer]. rewrite Hb. cbn [mbind result_bind].
  rewrite Hl. cbn [mbind result_bind]. eauto.
Qed.



(* ===================================================================== *)
(** * The begin and finish calls                                           *)
(* ===================================================================== *)

Lemma push_push s evs evs' : push (push s evs) evs' = push s (evs ++ evs').
Proof. unfold push. simpl. rewrite <- app_assoc. reflexivity. Qed.

Lemma push_nil s : push s [] = s.
Proof. destruct s. unfold push. simpl. rewrite app_nil_r. reflexivity. Qed.

Lemma emit_run e w s : emit e w s = (Ok tt, push s [e]).
Proof. reflexivity. Qed.

(** Decompose the run of a sequence. *)
Lemma bind_run {A B} (m : M A) (f : A -> M B) w s :
  (m ≫= f) w s =
  match m w s with
  | (Ok a, s') => f a w s'
  | (Throw e, s') => (Throw e, s')
  end.
Proof. reflexivity. Qed.

Ltac unfold_call :=
  unfold beginRegistration, finishRegistration, beginLogin, finishLogin,
    try_finally, setTimeout, clearTimeout, fetch, ask, lift,
    throw_http_failure, throw_api_failure, response_json, try_catch, throw, emit,
    mbind, M_bind, mret, M_ret,
    register_begin_url, register_finish_url, login_begin_url, login_finish_url,
    register_begin_body, login_begin_body, call_events.

Ltac reduce_call :=
  cbn -[decodeCreationOptions decodeRequestOptions stringify_body String.append
        to_string loginFinishRequest registrationFinishRequest].

Ltac split_runs :=
  repeat match goal with
         | |- context [match ?x with _ => _ end] =>
             lazymatch x with
             | context [match _ with _ => _ end] => fail
             | _ => destruct x eqn:?; reduce_call
             end
         end.

Ltac same_state := unfold push; cbn; rewrite <- ?app_assoc; reflexivity.

(** ** The state after a call: a timer, one request, the timer cleared *)

Lemma beginRegistration_state email username w s :
  snd (beginRegistration email username w s)
  = push s (call_events (register_begin_url w) (register_begin_body email username)).
Proof. unfold_call. reduce_call. split_runs; same_state. Qed.

Lemma beginLogin_state email w s :
  snd (beginLogin email w s)
  = push s (call_events (login_begin_url w) (login_begin_body email)).
Proof. unfold_call. reduce_call. split_runs; same_state. Qed.

Lemma finishRegistration_state sessionId credential w s :
  snd (finishRegistration sessionId credential w s)
  = push s (call_events (register_finish_url w)
              (stringify_body (registrationFinishRequest sessionId credential))).
Proof. unfold_call. reduce_call. split_runs; same_state. Qed.

Lemma finishLogin_state sessionId credential w s :
  snd (finishLogin sessionId credential w s)
  = push s (call_events (login_finish_url w)
              (stringify_body (loginFinishRequest sessionId credential))).
Proof. unfold_call. reduce_call. split_runs; same_state. Qed.

(** The result of a call does not depend on the state it starts from. *)
Lemma beginRegistration_result email username w s s' :
  fst (beginRegistration email username w s) = fst (beginRegistration email username w s').
Proof. unfold_call. reduce_call. split_runs; reflexivity. Qed.

Lemma beginLogin_result email w s s' :
  fst (beginLogin email w s) = fst (beginLogin email w s').
Proof. unfold_call. reduce_call. split_runs; reflexivity. Qed.

Lemma finishRegistration_result sessionId credential w s s' :
  fst (finishRegistration sessionId credential w s)
  = fst (finishRegistration sessionId credential w s').
Proof. unfold_call. reduce_call. split_runs; reflexivity. Qed.

Lemma finishLogin_result sessionId credential w s s' :
  fst (finishLogin sessionId credential w s) = fst (finishLogin sessionId credential w s').
Proof. unfold_call. reduce_call. split_runs; reflexivity. Qed.

(** ** The failure branches *)

Ltac unfold_call_everywhere :=
  unfold beginRegistration, finishRegistration, beginLogin, finishLogin,
    try_finally, setTimeout, clearTimeout, fetch, ask, lift,
    throw_http_failure, throw_api_failure, response_json, try_catch, throw, emit,
    mbind, M_bind, mret, M_ret,
    register_begin_url, register_finish_url, login_begin_url, login_finish_url,
    register_begin_body, login_begin_body, call_events in *.

Ltac run_call :=
  unfold_call_everywhere; reduce_call;
  repeat (match goal with
          | H : _ = _ |- _ => rewrite H
          end; reduce_call).

Lemma http_failure_message_eq fields fallback :
  (if truthy (field "error" fields)
   then to_string (field "error" fields)
   else to_string (or_else (field "message" fields) (VStr fallback)))
  = http_failure_message fields fallback.
Proof.
  unfold http_failure_message, or_else.
  destruct (truthy (field "error" fields)); reflexivity.
Qed.

Section HttpFailure.
Variables (w : World) (s : State) (r : Response) (fields : list (string * value)).
Hypothesis Hok : ok r = false.
Hypothesis Hjson : json r = Ok (VObj fields).

Lemma beginRegistration_http_failure email username :
  fetch_outcome w (register_begin_url w) (register_begin_body email username) = Ok r ->
  fst (beginRegistration email username w s)
  = Throw (new_Error (http_failure_message fields "登録開始に失敗しました")).
Proof.
  intros Hfetch. rewrite <- http_failure_message_eq. unfold field.
  run_call. destruct (truthy _); reflexivity.
Qed.

Lemma beginLogin_http_failure email :
  fetch_outcome w (login_begin_url w) (login_begin_body email) = Ok r ->
  fst (beginLogin email w s)
  = Throw (new_Error (http_failure_message fields "認証開始に失敗しました")).
Proof.
  intros Hfetch. rewrite <- http_failure_message_eq. unfold field.
  run_call. destruct (truthy _); reflexivity.
Qed.

Lemma finishRegistration_http_failure sessionId credential :
  fetch_outcome w (register_finish_url w)
    (stringify_body (registrationFinishRequest sessionId credential)) = Ok r ->
  fst (finishRegistration sessionId credential w s)
  = Throw (new_Error (http_failure_message fields "登録完了に失敗しました")).
Proof.
  intros Hfetch. rewrite <- http_failure_message_eq. unfold field.
  run_call. destruct (truthy _); reflexivity.
Qed.

Lemma finishLogin_http_failure sessionId credential :
  fetch_outcome w (login_finish_url w)
    (stringify_body (loginFinishRequest sessionId credential)) = Ok r ->
  fst (finishLogin sessionId credential w s)
  = Throw (new_Error (http_failure_message fields "認証完了に失敗しました")).
Proof.
  intros Hfetch. rewrite <- http_failure_message_eq. unfold field.
  run_call. destruct (truthy _); reflexivity.
Qed.

End HttpFailure.

Section ApiFailure.
Variables (w : World) (s : State) (r : Response) (fields : list (string * value)).
Hypothesis Hok : ok r = true.
Hypothesis Hjson : json r = Ok (VObj fields).

Lemma beginRegistration_api_failure email username :
  fetch_outcome w (register_begin_url w) (register_begin_body email username) = Ok r ->
  truthy (field "success" fields) = false \/ truthy (field "data" fields) = false ->
  fst (beginRegistration email username w s)
  = Throw (new_Error (api_failure_message fields "登録開始に失敗しました")).
Proof.
  intros Hfetch Hfail. unfold api_failure_message, field in *.
  assert (Hcond : negb (truthy (default VUndefined (obj_lookup "success" fields)))
                  || negb (truthy (default VUndefined (obj_lookup "data" fields))) = true).
  { destruct Hfail as [-> | ->]; [reflexivity | apply orb_true_r]. }
  clear Hfail. run_call. reflexivity.
Qed.

Lemma beginLogin_api_failure email :
  fetch_outcome w (login_begin_url w) (login_begin_body email) = Ok r ->
  truthy (field "success" fields) = false \/ truthy (field "data" fields) = false ->
  fst (beginLogin email w s)
  = Throw (new_Error (api_failure_message fields "認証開始に失敗しました")).
Proof.
  intros Hfetch Hfail. unfold api_failure_message, field in *.
  assert (Hcond : negb (truthy (default VUndefined (obj_lookup "success" fields)))
                  || negb (truthy (default VUndefined (obj_lookup "data" fields))) = true).
  { destruct Hfail as [-> | ->]; [reflexivity | apply orb_true_r]. }
  clear Hfail. run_call. reflexivity.
Qed.

Lemma finishRegistration_api_failure sessionId credential :
  fetch_outcome w (register_finish_url w)
    (stringify_body (registrationFinishRequest sessionId credential)) = Ok r ->
  truthy (field "success" fields) = false ->
  fst (finishRegistration sessionId credential w s)
  = Throw (new_Error (api_failure_message fields "登録完了に失敗しました")).
Proof.
  intros Hfetch Hfail. unfold api_failure_message, field in *.
  run_call. reflexivity.
Qed.

Lemma finishLogin_api_failure sessionId credential :
  fetch_outcome w (login_finish_url w)
    (stringify_body (loginFinishRequest sessionId credential)) = Ok r ->
  truthy (field "success" fields) = false ->
  fst (finishLogin sessionId credential w s)
  = Throw (new_Error (api_failure_message fields "認証完了に失敗しました")).
Proof.
  intros Hfetch Hfail. unfold api_failure_message, field in *.
  run_call. reflexivity.
Qed.

(** A finish call that the server accepts returns [data.data || {}]. *)
Lemma finishRegistration_accepted sessionId credential :
  fetch_outcome w (register_finish_url w)
    (stringify_body (registrationFinishRequest sessionId credential)) = Ok r ->
  truthy (field "success" fields) = true ->
  fst (finishRegistration sessionId credential w s)
  = Ok (or_else (field "data" fields) (VObj [])).
Proof.
  intros Hfetch Hsucc. unfold field in *. run_call. reflexivity.
Qed.

Lemma finishLogin_accepted sessionId credential :
  fetch_outcome w (login_finish_url w)
    (stringify_body (loginFinishRequest sessionId credential)) = Ok r ->
  truthy (field "success" fields) = true ->
  fst (finishLogin sessionId credential w s)
  = Ok (or_else (field "data" fields) (VObj [])).
Proof.
  intros Hfetch Hsucc. unfold field in *. run_call. reflexivity.
Qed.

(** A begin call that the server accepts returns the decoded options with
    the session handle as it came. *)
Lemma beginRegistration_accepted email username publicKey :
  fetch_outcome w (register_begin_url w) (register_begin_body email username) = Ok r ->
  truthy (field "success" fields) = true ->
  truthy (field "data" fields) = true ->
  decodeCreationOptions (prop (field "data" fields) "publicKey") = Ok publicKey ->
  fst (beginRegistration email username w s)
  = Ok {| RegistrationBeginResponse.publicKey := publicKey;
          RegistrationBeginResponse.sessionId := prop (field "data" fields) "sessionId" |}.
Proof.
  intros Hfetch Hsucc Hdata Hdec. unfold field in *.
  destruct (default VUndefined (obj_lookup "data" fields)) as [| | | | | | |dfields] eqn:Hd;
    try discriminate Hdata; cbn [prop] in *.
  all: try (exfalso; revert Hdec; clear; unfold decodeCreationOptions; cbn; discriminate).
  unfold field in *. run_call. reflexivity.
Qed.

Lemma beginLogin_accepted email publicKey :
  fetch_outcome w (login_begin_url w) (login_begin_body email) = Ok r ->
  truthy (field "success" fields) = true ->
  truthy (field "data" fields) = true ->
  decodeRequestOptions (prop (field "data" fields) "publicKey") = Ok publicKey ->
  fst (beginLogin email w s)
  = Ok {| LoginBeginResponse.publicKey := publicKey;
          LoginBeginResponse.sessionId := prop (field "data" fields) "sessionId" |}.
Proof.
  intros Hfetch Hsucc Hdata Hdec. unfold field in *.
  destruct (default VUndefined (obj_lookup "data" fields)) as [| | | | | | |dfields] eqn:Hd;
    try discriminate Hdata; cbn [prop] in *.
  all: try (exfalso; revert Hdec; clear; unfold decodeRequestOptions; cbn; discriminate).
  unfold field in *. run_call. reflexivity.
Qed.

End ApiFailure.

(* ===================================================================== *)
(** * The ceremonies                                                       *)
(* ===================================================================== *)

#[local] Arguments beginRegistration : simpl never.
#[local] Arguments finishRegistration : simpl never.
#[local] Arguments beginLogin : simpl never.
#[local] Arguments finishLogin : simpl never.
#[local] Arguments saveLastEmail : simpl never.

Ltac unfold_ceremony :=
  unfold registerWebAuthnCredential, authenticateWebAuthn,
    navigator_credentials_create, navigator_credentials_get, console_error,
    try_catch, ask, lift, emit, mbind, M_bind, mret, M_ret.

Ltac reduce_ceremony := cbn -[String.append to_string].

Lemma saveLastEmail_run email w s :
  saveLastEmail email w s = (Ok tt, after_save email w s).
Proof.
  unfold saveLastEmail, after_save, localStorage_setItem, storage_write, console_error,
    try_catch, ask, emit, mbind, M_bind, mret, M_ret, LAST_EMAIL_KEY.
  cbn. destruct (window w); [|reflexivity].
  destruct (setItem_outcome w "webauthn_last_email" email); [|reflexivity].
  unfold push. cbn. rewrite <- app_assoc. reflexivity.
Qed.

Lemma isWebAuthnSupported_window w :
  isWebAuthnSupported w = true -> exists win, window w = Some win.
Proof. unfold isWebAuthnSupported. destruct (window w); [eauto | discriminate]. Qed.

Lemma get_truthy v k : truthy v = true -> get v k = Ok (prop v k).
Proof. destruct v; simpl; try discriminate; reflexivity. Qed.

Lemma finishRegistration_truthy sessionId credential w s result s' :
  finishRegistration sessionId credential w s = (Ok result, s') -> truthy result = true.
Proof.
  unfold_call. reduce_call. split_runs; intros [= <- _]; try discriminate.
  all: unfold or_else;
    match goal with
    | |- truthy (if truthy ?p then _ else _) = true =>
        destruct (truthy p) eqn:E; [exact E | reflexivity]
    end.
Qed.

Lemma finishLogin_truthy sessionId credential w s result s' :
  finishLogin sessionId credential w s = (Ok result, s') -> truthy result = true.
Proof.
  unfold_call. reduce_call. split_runs; intros [= <- _]; try discriminate.
  all: unfold or_else;
    match goal with
    | |- truthy (if truthy ?p then _ else _) = true =>
        destruct (truthy p) eqn:E; [exact E | reflexivity]
    end.
Qed.

Section Registration.
Variables (email username : string) (w : World) (s : State).

Lemma register_unsupported :
  isWebAuthnSupported w = false ->
  registerWebAuthnCredential email username w s = (Ok (failure MSG_UNSUPPORTED), s).
Proof. intros H. unfold_ceremony. reduce_ceremony. rewrite H. reflexivity. Qed.

Hypothesis Hsupported : isWebAuthnSupported w = true.

Lemma register_begin_throws error s1 :
  beginRegistration email username w s = (Throw error, s1) ->
  registerWebAuthnCredential email username w s
  = (Ok (failure (message_of error "登録中にエラーが発生しました")),
     push s1 [ConsoleError "WebAuthn registration failed:" error]).
Proof.
  intros H. unfold_ceremony. reduce_ceremony. rewrite Hsupported. reduce_ceremony.
  rewrite H. reflexivity.
Qed.

Variables (beginResponse : RegistrationBeginResponse.t) (s1 : State).
Hypothesis Hbegin : beginRegistration email username w s = (Ok beginResponse, s1).

Let options : value :=
  VObj [("publicKey", RegistrationBeginResponse.publicKey beginResponse)].

Lemma register_platform_throws error :
  create_outcome w options = Throw error ->
  registerWebAuthnCredential email username w s
  = (Ok (failure (message_of error "登録中にエラーが発生しました")),
     push s1 [CredentialsCreate options;
              ConsoleError "WebAuthn registration failed:" error]).
Proof.
  intros H. unfold_ceremony. reduce_ceremony. rewrite Hsupported. reduce_ceremony.
  rewrite Hbegin. reduce_ceremony. fold options. rewrite H. same_state.
Qed.

Lemma register_platform_null :
  create_outcome w options = Ok None ->
  registerWebAuthnCredential email username w s
  = (Ok (failure "認証情報の生成に失敗しました"), push s1 [CredentialsCreate options]).
Proof.
  intros H. unfold_ceremony. reduce_ceremony. rewrite Hsupported. reduce_ceremony.
  rewrite Hbegin. reduce_ceremony. fold options. rewrite H. reflexivity.
Qed.

Variable credential : PublicKeyCredential.t Attestation.response.
Hypothesis Hcreate : create_outcome w options = Ok (Some credential).

Lemma register_finish_throws error s3 :
  finishRegistration (RegistrationBeginResponse.sessionId beginResponse) credential w
    (push s1 [CredentialsCreate options]) = (Throw error, s3) ->
  registerWebAuthnCredential email username w s
  = (Ok (failure (message_of error "登録中にエラーが発生しました")),
     push s3 [ConsoleError "WebAuthn registration failed:" error]).
Proof.
  intros H. unfold_ceremony. reduce_ceremony. rewrite Hsupported. reduce_ceremony.
  rewrite Hbegin. reduce_ceremony. fold options. rewrite Hcreate. reduce_ceremony.
  unfold push in H. cbn in H. rewrite H. reflexivity.
Qed.

Lemma register_finish_returns result s3 :
  finishRegistration (RegistrationBeginResponse.sessionId beginResponse) credential w
    (push s1 [CredentialsCreate options]) = (Ok result, s3) ->
  registerWebAuthnCredential email username w s
  = (Ok (success (prop result "token") (prop result "user")), after_save email w s3).
Proof.
  intros H. pose proof (finishRegistration_truthy _ _ _ _ _ _ H) as Ht.
  unfold_ceremony. reduce_ceremony. rewrite Hsupported. reduce_ceremony.
  rewrite Hbegin. reduce_ceremony. fold options. rewrite Hcreate. reduce_ceremony.
  unfold push in H. cbn in H. rewrite H. rewrite saveLastEmail_run.
  rewrite !get_truthy by exact Ht. reflexivity.
Qed.

End Registration.

Section Authentication.
Variables (email : string) (w : World) (s : State).

Lemma authenticate_unsupported :
  isWebAuthnSupported w = false ->
  authenticateWebAuthn email w s = (Ok (failure MSG_UNSUPPORTED), s).
Proof. intros H. unfold_ceremony. reduce_ceremony. rewrite H. reflexivity. Qed.

Hypothesis Hsupported : isWebAuthnSupported w = true.

Lemma authenticate_begin_throws error s1 :
  beginLogin email w s = (Throw error, s1) ->
  authenticateWebAuthn email w s
  = (Ok (failure (message_of error "認証中にエラーが発生しました")),
     push s1 [ConsoleError "WebAuthn authentication failed:" error]).
Proof.
  intros H. unfold_ceremony. reduce_ceremony. rewrite Hsupported. reduce_ceremony.
  rewrite H. reflexivity.
Qed.

Variables (beginResponse : LoginBeginResponse.t) (s1 : State).
Hypothesis Hbegin : beginLogin email w s = (Ok beginResponse, s1).

Let options : value :=
  VObj [("publicKey", LoginBeginResponse.publicKey beginResponse)].

Lemma authenticate_platform_throws error :
  get_outcome w options = Throw error ->
  authenticateWebAuthn email w s
  = (Ok (failure (message_of error "認証中にエラーが発生しました")),
     push s1 [CredentialsGet options;
              ConsoleError "WebAuthn authentication failed:" error]).
Proof.
  intros H. unfold_ceremony. reduce_ceremony. rewrite Hsupported. reduce_ceremony.
  rewrite Hbegin. reduce_ceremony. fold options. rewrite H. same_state.
Qed.

Lemma authenticate_platform_null :
  get_outcome w options = Ok None ->
  authenticateWebAuthn email w s
  = (Ok (failure "認証に失敗しました"), push s1 [CredentialsGet options]).
Proof.
  intros H. unfold_ceremony. reduce_ceremony. rewrite Hsupported. reduce_ceremony.
  rewrite Hbegin. reduce_ceremony. fold options. rewrite H. reflexivity.
Qed.

Variable credential : PublicKeyCredential.t Assertion.response.
Hypothesis Hget : get_outcome w options = Ok (Some credential).

Lemma authenticate_finish_throws error s3 :
  finishLogin (LoginBeginResponse.sessionId beginResponse) credential w
    (push s1 [CredentialsGet options]) = (Throw error, s3) ->
  authenticateWebAuthn email w s
  = (Ok (failure (message_of error "認証中にエラーが発生しました")),
     push s3 [ConsoleError "WebAuthn authentication failed:" error]).
Proof.
  intros H. unfold_ceremony. reduce_ceremony. rewrite Hsupported. reduce_ceremony.
  rewrite Hbegin. reduce_ceremony. fold options. rewrite Hget. reduce_ceremony.
  unfold push in H. cbn in H. rewrite H. reflexivity.
Qed.

Lemma authenticate_finish_returns result s3 :
  finishLogin (LoginBeginResponse.sessionId beginResponse) credential w
    (push s1 [CredentialsGet options]) = (Ok result, s3) ->
  authenticateWebAuthn email w s
  = (Ok (success (prop result "token") (prop result "user")), after_save email w s3).
Proof.
  intros H. pose proof (finishLogin_truthy _ _ _ _ _ _ H) as Ht.
  unfold_ceremony. reduce_ceremony. rewrite Hsupported. reduce_ceremony.
  rewrite Hbegin. reduce_ceremony. fold options. rewrite Hget. reduce_ceremony.
  unfold push in H. cbn in H. rewrite H. rewrite saveLastEmail_run.
  rewrite !get_truthy by exact Ht. reflexivity.
Qed.

End Authentication.


(* ===================================================================== *)
(** * The ceremony claims                                                  *)
(* ===================================================================== *)

(** C6: when [isWebAuthnSupported] is false, both ceremonies return
    [{success: false, error: <unsupported message>}] at once: the state, and
    with it the trace of requests, is the one they started from. *)
Theorem C6_unsupported_returns_without_network (w : World) (s : State)
    (email username : string) :
  isWebAuthnSupported w = false ->
  registerWebAuthnCredential email username w s = (Ok (failure MSG_UNSUPPORTED), s)
  /\ authenticateWebAuthn email w s = (Ok (failure MSG_UNSUPPORTED), s)
  /\ List.filter is_network_request (trace (snd (registerWebAuthnCredential email username w s)))
     = List.filter is_network_request (trace s)
  /\ List.filter is_network_request (trace (snd (authenticateWebAuthn email w s)))
     = List.filter is_network_request (trace s).
Proof.
  intros H.
  rewrite register_unsupported, authenticate_unsupported by exact H.
  repeat split.
Qed.

Lemma C6_unsupported_witness :
  registerWebAuthnCredential "a@example.test" "alice" world_without_credentials
    (initial_state ∅)
  = (Ok (failure MSG_UNSUPPORTED), initial_state ∅)
  /\ authenticateWebAuthn "a@example.test" world_without_credentials (initial_state ∅)
     = (Ok (failure MSG_UNSUPPORTED), initial_state ∅).
Proof.
  pose proof (C6_unsupported_returns_without_network world_without_credentials
                (initial_state ∅) "a@example.test" "alice" eq_refl) as (H1 & H2 & _).
  exact (conj H1 H2).
Defined.

Lemma run_pair {A} (x : result A * State) r st :
  fst x = r -> snd x = st -> x = (r, st).
Proof. destruct x. simpl. congruence. Qed.

(** C3: when the begin response is an envelope with [success: false], or
    comes with a non-2xx status whatever its [success] flag (the status is
    tested first), [registerWebAuthnCredential] and [authenticateWebAuthn]
    return [{success: false, error}] with the server's error or the
    fallback, and the trace holds the begin request and the logged failure
    only: no platform call. *)
Theorem C3_begin_failure_skips_platform_call (w : World) (s : State)
    (email username : string) (r : Response) (fields : list (string * value)) :
  isWebAuthnSupported w = true ->
  json r = Ok (VObj fields) ->
  ok r = false \/ truthy (field "success" fields) = false ->
  (fetch_outcome w (register_begin_url w) (register_begin_body email username) = Ok r ->
   let message := begin_failure_message r fields "登録開始に失敗しました" in
   let events :=
     begin_failure_events (register_begin_url w) (register_begin_body email username)
       "WebAuthn registration failed:" (new_Error message) in
   registerWebAuthnCredential email username w s = (Ok (failure message), push s events)
   /\ existsb is_platform_call events = false)
  /\ (fetch_outcome w (login_begin_url w) (login_begin_body email) = Ok r ->
      let message := begin_failure_message r fields "認証開始に失敗しました" in
      let events :=
        begin_failure_events (login_begin_url w) (login_begin_body email)
          "WebAuthn authentication failed:" (new_Error message) in
      authenticateWebAuthn email w s = (Ok (failure message), push s events)
      /\ existsb is_platform_call events = false).
Proof.
  intros Hsup Hjson Hfail. split; intros Hfetch; cbv zeta; (split; [|reflexivity]).
  - rewrite (register_begin_throws email username w s Hsup
               (new_Error (begin_failure_message r fields "登録開始に失敗しました"))
               (push s (call_events (register_begin_url w)
                          (register_begin_body email username)))).
    + rewrite push_push. reflexivity.
    + apply run_pair; [|apply beginRegistration_state].
      unfold begin_failure_message. destruct (ok r) eqn:Hok.
      * destruct Hfail as [Hfail|Hfail]; [discriminate|].
        apply (beginRegistration_api_failure w s r fields Hok Hjson); auto.
      * apply (beginRegistration_http_failure w s r fields Hok Hjson); auto.
  - rewrite (authenticate_begin_throws email w s Hsup
               (new_Error (begin_failure_message r fields "認証開始に失敗しました"))
               (push s (call_events (login_begin_url w) (login_begin_body email)))).
    + rewrite push_push. reflexivity.
    + apply run_pair; [|apply beginLogin_state].
      unfold begin_failure_message. destruct (ok r) eqn:Hok.
      * destruct Hfail as [Hfail|Hfail]; [discriminate|].
        apply (beginLogin_api_failure w s r fields Hok Hjson); auto.
      * apply (beginLogin_http_failure w s r fields Hok Hjson); auto.
Qed.

Lemma C3_begin_failure_witness :
  registerWebAuthnCredential "a@example.test" "alice"
    (sample_world server_500_success_true None) (initial_state ∅)
  = (Ok (failure "database down"),
     push (initial_state ∅)
       (begin_failure_events "http://localhost:8080/api/v1/auth/register/begin"
          (register_begin_body "a@example.test" "alice")
          "WebAuthn registration failed:" (new_Error "database down")))
  /\ authenticateWebAuthn "a@example.test"
       (sample_world server_message_only None) (initial_state ∅)
     = (Ok (failure "認証開始に失敗しました"),
        push (initial_state ∅)
          (begin_failure_events "http://localhost:8080/api/v1/auth/login/begin"
             (login_begin_body "a@example.test")
             "WebAuthn authentication failed:" (new_Error "認証開始に失敗しました"))).
Proof.
  split.
  - exact (proj1 (proj1 (C3_begin_failure_skips_platform_call
             (sample_world server_500_success_true None) (initial_state ∅)
             "a@example.test" "alice" (server_500_success_true "")
             [("success", VBool true); ("error", VStr "database down")]
             eq_refl eq_refl (or_introl eq_refl)) eq_refl)).
  - exact (proj1 (proj2 (C3_begin_failure_skips_platform_call
             (sample_world server_message_only None) (initial_state ∅)
             "a@example.test" "alice" (server_message_only "")
             [("success", VBool false); ("message", VStr "account locked")]
             eq_refl eq_refl (or_intror eq_refl)) eq_refl)).
Defined.

Lemma http_failure_message_prefers fields fallback :
  prefers_error_message_fallback fields fallback (http_failure_message fields fallback).
Proof.
  unfold prefers_error_message_fallback, http_failure_message, or_else.
  repeat split; intros; repeat match goal with H : truthy _ = _ |- _ => rewrite H end;
    reflexivity.
Qed.

Lemma api_failure_message_prefers fields fallback :
  prefers_error_fallback fields fallback (api_failure_message fields fallback).
Proof.
  unfold prefers_error_fallback, api_failure_message, or_else.
  split; intros H; rewrite H; reflexivity.
Qed.

(** C4, as stated, fails in the application-level branch: on a 2xx response
    [{success: false, message: "account locked"}] the begin call throws the
    generic fallback, not the envelope's [message], which the stated
    preference would pick. *)
Lemma C4_message_ignored_when_success_false :
  fst (beginRegistration "a@example.test" "alice"
         (sample_world server_message_only None) (initial_state ∅))
  = Throw (new_Error "登録開始に失敗しました")
  /\ fst (finishLogin (VStr "session-2") (sample_assertion None)
            (sample_world server_message_only None) (initial_state ∅))
     = Throw (new_Error "認証完了に失敗しました")
  /\ prefers_error_message_fallback
       [("success", VBool false); ("message", VStr "account locked")]
       "登録開始に失敗しました" "account locked"
  /\ ~ prefers_error_message_fallback
         [("success", VBool false); ("message", VStr "account locked")]
         "登録開始に失敗しました" "登録開始に失敗しました".
Proof.
  split; [reflexivity|]. split; [reflexivity|]. split.
  - repeat split; intros; try discriminate; reflexivity.
  - intros (_ & H & _). specialize (H eq_refl eq_refl). discriminate H.
Qed.

(** C4 (amended): for each of the four calls, when the response has a
    non-2xx status and a JSON object as body, the call throws an [Error]
    whose message is the body's [error], else its [message], else the
    call's fallback; when the response has a 2xx status and an envelope
    whose [success] is false, the call throws an [Error] whose message is
    the envelope's [error], else the call's fallback, and the envelope's
    [message] is not consulted. *)
Theorem C4_failure_message_preference (w : World) (s : State) (r : Response)
    (fields : list (string * value)) (email username : string) (sessionId : value)
    (attestation : PublicKeyCredential.t Attestation.response)
    (assertion : PublicKeyCredential.t Assertion.response) :
  json r = Ok (VObj fields) ->
  (ok r = false \/ truthy (field "success" fields) = false) ->
  let chosen fallback :=
    if ok r then api_failure_message fields fallback
    else http_failure_message fields fallback in
  (forall fallback,
      if ok r then prefers_error_fallback fields fallback (chosen fallback)
      else prefers_error_message_fallback fields fallback (chosen fallback))
  /\ (fetch_outcome w (register_begin_url w) (register_begin_body email username) = Ok r ->
      fst (beginRegistration email username w s)
      = Throw (new_Error (chosen "登録開始に失敗しました")))
  /\ (fetch_outcome w (register_finish_url w)
        (stringify_body (registrationFinishRequest sessionId attestation)) = Ok r ->
      fst (finishRegistration sessionId attestation w s)
      = Throw (new_Error (chosen "登録完了に失敗しました")))
  /\ (fetch_outcome w (login_begin_url w) (login_begin_body email) = Ok r ->
      fst (beginLogin email w s) = Throw (new_Error (chosen "認証開始に失敗しました")))
  /\ (fetch_outcome w (login_finish_url w)
        (stringify_body (loginFinishRequest sessionId assertion)) = Ok r ->
      fst (finishLogin sessionId assertion w s)
      = Throw (new_Error (chosen "認証完了に失敗しました"))).
Proof.
  intros Hjson Hfail chosen. unfold chosen. destruct (ok r) eqn:Hok.
  - destruct Hfail as [Hfail|Hfail]; [discriminate|].
    split; [intros; apply api_failure_message_prefers|].
    repeat split; intros Hfetch.
    + apply (beginRegistration_api_failure w s r fields Hok Hjson); auto.
    + apply (finishRegistration_api_failure w s r fields Hok Hjson); auto.
    + apply (beginLogin_api_failure w s r fields Hok Hjson); auto.
    + apply (finishLogin_api_failure w s r fields Hok Hjson); auto.
  - split; [intros; apply http_failure_message_prefers|].
    repeat split; intros Hfetch.
    + apply (beginRegistration_http_failure w s r fields Hok Hjson); auto.
    + apply (finishRegistration_http_failure w s r fields Hok Hjson); auto.
    + apply (beginLogin_http_failure w s r fields Hok Hjson); auto.
    + apply (finishLogin_http_failure w s r fields Hok Hjson); auto.
Qed.

Lemma C4_failure_message_witness :
  fst (beginRegistration "a@example.test" "alice"
         (sample_world server_500_success_true None) (initial_state ∅))
  = Throw (new_Error "database down")
  /\ fst (finishLogin (VStr "session-2") (sample_assertion None)
            (sample_world server_message_only None) (initial_state ∅))
     = Throw (new_Error "認証完了に失敗しました").
Proof.
  split.
  - exact (proj1 (proj2 (C4_failure_message_preference
             (sample_world server_500_success_true None) (initial_state ∅)
             (server_500_success_true "")
             [("success", VBool true); ("error", VStr "database down")]
             "a@example.test" "alice" (VStr "session-1") sample_credential
             (sample_assertion None) eq_refl (or_introl eq_refl))) eq_refl).
  - exact (proj2 (proj2 (proj2 (proj2 (C4_failure_message_preference
             (sample_world server_message_only None) (initial_state ∅)
             (server_message_only "")
             [("success", VBool false); ("message", VStr "account locked")]
             "a@example.test" "alice" (VStr "session-2") sample_credential
             (sample_assertion None) eq_refl (or_intror eq_refl))))) eq_refl).
Defined.

Lemma after_save_storage email w s :
  isWebAuthnSupported w = true ->
  match setItem_outcome w LAST_EMAIL_KEY email with
  | None => localStorage (after_save email w s) !! LAST_EMAIL_KEY = Some email
  | Some _ => localStorage (after_save email w s) = localStorage s
  end
  /\ In (StorageSetItem LAST_EMAIL_KEY email) (trace (after_save email w s)).
Proof.
  intros Hsup. destruct (isWebAuthnSupported_window w Hsup) as (win & Hwin).
  unfold after_save. rewrite Hwin.
  destruct (setItem_outcome w LAST_EMAIL_KEY email); cbn.
  - split; [reflexivity|]. apply in_or_app. right. left. reflexivity.
  - split; [apply lookup_insert_eq|]. apply in_or_app. right. left. reflexivity.
Qed.

(** C5, as stated, fails when the host's storage refuses the write: every
    step of the registration succeeds, the result is [success], and
    LastUsedIdentifier is not stored. *)
Lemma C5_storage_refusal_leaves_identifier_unset :
  exists s',
    registerWebAuthnCredential "a@example.test" "alice"
      (sample_world accepting_server (Some QuotaExceededError)) (initial_state ∅)
    = (Ok (success (VStr "jwt") (VObj [("name", VStr "alice")])), s')
    /\ localStorage s' !! LAST_EMAIL_KEY = None.
Proof. eexists. split; [vm_compute; reflexivity | reflexivity]. Qed.

Lemma begin_keeps_storage_registration email username w s beginResponse s1 :
  beginRegistration email username w s = (Ok beginResponse, s1) ->
  localStorage s1 = localStorage s.
Proof.
  intros H. pose proof (beginRegistration_state email username w s) as Hs.
  rewrite H in Hs. simpl in Hs. subst s1. reflexivity.
Qed.

Lemma begin_keeps_storage_login email w s beginResponse s1 :
  beginLogin email w s = (Ok beginResponse, s1) -> localStorage s1 = localStorage s.
Proof.
  intros H. pose proof (beginLogin_state email w s) as Hs.
  rewrite H in Hs. simpl in Hs. subst s1. reflexivity.
Qed.

Lemma finish_keeps_storage_registration sessionId credential w s result s3 :
  finishRegistration sessionId credential w s = (Ok result, s3) ->
  localStorage s3 = localStorage s.
Proof.
  intros H. pose proof (finishRegistration_state sessionId credential w s) as Hs.
  rewrite H in Hs. simpl in Hs. subst s3. reflexivity.
Qed.

Lemma finish_keeps_storage_login sessionId credential w s result s3 :
  finishLogin sessionId credential w s = (Ok result, s3) ->
  localStorage s3 = localStorage s.
Proof.
  intros H. pose proof (finishLogin_state sessionId credential w s) as Hs.
  rewrite H in Hs. simpl in Hs. subst s3. reflexivity.
Qed.

(** C5 (amended): whenever begin succeeds, the platform call returns a
    credential and finish succeeds, the ceremony returns
    [{success: true, token, user}] with [token] and [user] read from what
    finish returned ([undefined] when absent), and it writes the email to
    LastUsedIdentifier: the write is issued, and the stored value is the
    email whenever the host's storage accepts it (when the host refuses,
    the store is as before and the result is still a success). *)
Theorem C5_successful_ceremony_saves_identifier (w : World) (s : State)
    (email username : string) :
  isWebAuthnSupported w = true ->
  (forall beginResponse s1 credential result s3,
      beginRegistration email username w s = (Ok beginResponse, s1) ->
      let options :=
        VObj [("publicKey", RegistrationBeginResponse.publicKey beginResponse)] in
      create_outcome w options = Ok (Some credential) ->
      finishRegistration (RegistrationBeginResponse.sessionId beginResponse) credential w
        (push s1 [CredentialsCreate options]) = (Ok result, s3) ->
      registerWebAuthnCredential email username w s
      = (Ok (success (prop result "token") (prop result "user")), after_save email w s3)
      /\ In (StorageSetItem LAST_EMAIL_KEY email) (trace (after_save email w s3))
      /\ match setItem_outcome w LAST_EMAIL_KEY email with
         | None => localStorage (after_save email w s3) !! LAST_EMAIL_KEY = Some email
         | Some _ => localStorage (after_save email w s3) = localStorage s
         end)
  /\ (forall beginResponse s1 credential result s3,
        beginLogin email w s = (Ok beginResponse, s1) ->
        let options :=
          VObj [("publicKey", LoginBeginResponse.publicKey beginResponse)] in
        get_outcome w options = Ok (Some credential) ->
        finishLogin (LoginBeginResponse.sessionId beginResponse) credential w
          (push s1 [CredentialsGet options]) = (Ok result, s3) ->
        authenticateWebAuthn email w s
        = (Ok (success (prop result "token") (prop result "user")), after_save email w s3)
        /\ In (StorageSetItem LAST_EMAIL_KEY email) (trace (after_save email w s3))
        /\ match setItem_outcome w LAST_EMAIL_KEY email with
           | None => localStorage (after_save email w s3) !! LAST_EMAIL_KEY = Some email
           | Some _ => localStorage (after_save email w s3) = localStorage s
           end).
Proof.
  intros Hsup. split; intros beginResponse s1 credential result s3 Hbegin options Hplat Hfin.
  - split.
    + apply (register_finish_returns email username w s Hsup beginResponse s1 Hbegin
               credential Hplat result s3 Hfin).
    + destruct (after_save_storage email w s3 Hsup) as (Hstore & Hin).
      split; [exact Hin|].
      destruct (setItem_outcome w LAST_EMAIL_KEY email); [|exact Hstore].
      rewrite Hstore.
      rewrite (finish_keeps_storage_registration _ _ _ _ _ _ Hfin). cbn.
      apply (begin_keeps_storage_registration _ _ _ _ _ _ Hbegin).
  - split.
    + apply (authenticate_finish_returns email w s Hsup beginResponse s1 Hbegin
               credential Hplat result s3 Hfin).
    + destruct (after_save_storage email w s3 Hsup) as (Hstore & Hin).
      split; [exact Hin|].
      destruct (setItem_outcome w LAST_EMAIL_KEY email); [|exact Hstore].
      rewrite Hstore.
      rewrite (finish_keeps_storage_login _ _ _ _ _ _ Hfin). cbn.
      apply (begin_keeps_storage_login _ _ _ _ _ Hbegin).
Qed.

Lemma C5_successful_ceremony_witness :
  exists s',
    registerWebAuthnCredential "a@example.test" "alice"
      (sample_world accepting_server None) (initial_state ∅)
    = (Ok (success (VStr "jwt") (VObj [("name", VStr "alice")])), s')
    /\ localStorage s' !! LAST_EMAIL_KEY = Some "a@example.test".
Proof.
  edestruct (proj1 (C5_successful_ceremony_saves_identifier
                      (sample_world accepting_server None) (initial_state ∅)
                      "a@example.test" "alice" eq_refl))
    as (Hrun & _ & Hstore); [reflexivity | reflexivity | reflexivity |].
  eexists. split; [exact Hrun | exact Hstore].
Defined.

Lemma register_total email username w s :
  exists v s',
    registerWebAuthnCredential email username w s = (Ok v, s') /\ ceremony_result v.
Proof.
  destruct (isWebAuthnSupported w) eqn:Hsup.
  - destruct (beginRegistration email username w s) as [[br|err] s1] eqn:Hb.
    + destruct (create_outcome w
                  (VObj [("publicKey", RegistrationBeginResponse.publicKey br)]))
        as [[c|]|err] eqn:Hc.
      * destruct (finishRegistration (RegistrationBeginResponse.sessionId br) c w
                    (push s1 [CredentialsCreate
                                (VObj [("publicKey",
                                        RegistrationBeginResponse.publicKey br)])]))
          as [[res|err] s3] eqn:Hf.
        -- eexists _, _. split.
           ++ apply (register_finish_returns email username w s Hsup br s1 Hb c Hc res s3 Hf).
           ++ right. eauto.
        -- eexists _, _. split.
           ++ apply (register_finish_throws email username w s Hsup br s1 Hb c Hc err s3 Hf).
           ++ left. eauto.
      * eexists _, _. split.
        -- apply (register_platform_null email username w s Hsup br s1 Hb Hc).
        -- left. eauto.
      * eexists _, _. split.
        -- apply (register_platform_throws email username w s Hsup br s1 Hb err Hc).
        -- left. eauto.
    + eexists _, _. split.
      * apply (register_begin_throws email username w s Hsup err s1 Hb).
      * left. eauto.
  - eexists _, _. split.
    + apply register_unsupported, Hsup.
    + left. eauto.
Qed.

Lemma authenticate_total email w s :
  exists v s', authenticateWebAuthn email w s = (Ok v, s') /\ ceremony_result v.
Proof.
  destruct (isWebAuthnSupported w) eqn:Hsup.
  - destruct (beginLogin email w s) as [[br|err] s1] eqn:Hb.
    + destruct (get_outcome w (VObj [("publicKey", LoginBeginResponse.publicKey br)]))
        as [[c|]|err] eqn:Hc.
      * destruct (finishLogin (LoginBeginResponse.sessionId br) c w
                    (push s1 [CredentialsGet
                                (VObj [("publicKey", LoginBeginResponse.publicKey br)])]))
          as [[res|err] s3] eqn:Hf.
        -- eexists _, _. split.
           ++ apply (authenticate_finish_returns email w s Hsup br s1 Hb c Hc res s3 Hf).
           ++ right. eauto.
        -- eexists _, _. split.
           ++ apply (authenticate_finish_throws email w s Hsup br s1 Hb c Hc err s3 Hf).
           ++ left. eauto.
      * eexists _, _. split.
        -- apply (authenticate_platform_null email w s Hsup br s1 Hb Hc).
        -- left. eauto.
      * eexists _, _. split.
        -- apply (authenticate_platform_throws email w s Hsup br s1 Hb err Hc).
        -- left. eauto.
    + eexists _, _. split.
      * apply (authenticate_begin_throws email w s Hsup err s1 Hb).
      * left. eauto.
  - eexists _, _. split.
    + apply authenticate_unsupported, Hsup.
    + left. eauto.
Qed.

(** The calls never look at the store's behaviour. *)
Lemma beginRegistration_with_storage email username w f s :
  beginRegistration email username (with_storage w f) s
  = beginRegistration email username w s.
Proof. unfold_call. unfold API_BASE_URL. reduce_call. split_runs; reflexivity. Qed.

Lemma beginLogin_with_storage email w f s :
  beginLogin email (with_storage w f) s = beginLogin email w s.
Proof. unfold_call. unfold API_BASE_URL. reduce_call. split_runs; reflexivity. Qed.

Lemma finishRegistration_with_storage sessionId credential w f s :
  finishRegistration sessionId credential (with_storage w f) s
  = finishRegistration sessionId credential w s.
Proof. unfold_call. unfold API_BASE_URL. reduce_call. split_runs; reflexivity. Qed.

Lemma finishLogin_with_storage sessionId credential w f s :
  finishLogin sessionId credential (with_storage w f) s
  = finishLogin sessionId credential w s.
Proof. unfold_call. unfold API_BASE_URL. reduce_call. split_runs; reflexivity. Qed.

(** The value a ceremony returns does not depend on what the store does. *)
Lemma register_result_with_storage email username w f s :
  fst (registerWebAuthnCredential email username (with_storage w f) s)
  = fst (registerWebAuthnCredential email username w s).
Proof.
  set (w' := with_storage w f).
  destruct (isWebAuthnSupported w) eqn:Hsup.
  - assert (Hsup' : isWebAuthnSupported w' = true) by exact Hsup.
    destruct (beginRegistration email username w s) as [[br|err] s1] eqn:Hb.
    + assert (Hb' : beginRegistration email username w' s = (Ok br, s1))
        by (unfold w'; rewrite beginRegistration_with_storage; exact Hb).
      destruct (create_outcome w
                  (VObj [("publicKey", RegistrationBeginResponse.publicKey br)]))
        as [[c|]|err] eqn:Hc.
      * destruct (finishRegistration (RegistrationBeginResponse.sessionId br) c w
                    (push s1 [CredentialsCreate
                                (VObj [("publicKey",
                                        RegistrationBeginResponse.publicKey br)])]))
          as [[res|err] s3] eqn:Hf.
        -- rewrite (register_finish_returns email username w s Hsup br s1 Hb c Hc res s3 Hf).
           rewrite (register_finish_returns email username w' s Hsup' br s1 Hb' c Hc res s3);
             [reflexivity|].
           unfold w'. rewrite finishRegistration_with_storage. exact Hf.
        -- rewrite (register_finish_throws email username w s Hsup br s1 Hb c Hc err s3 Hf).
           rewrite (register_finish_throws email username w' s Hsup' br s1 Hb' c Hc err s3);
             [reflexivity|].
           unfold w'. rewrite finishRegistration_with_storage. exact Hf.
      * rewrite (register_platform_null email username w s Hsup br s1 Hb Hc).
        rewrite (register_platform_null email username w' s Hsup' br s1 Hb' Hc).
        reflexivity.
      * rewrite (register_platform_throws email username w s Hsup br s1 Hb err Hc).
        rewrite (register_platform_throws email username w' s Hsup' br s1 Hb' err Hc).
        reflexivity.
    + assert (Hb' : beginRegistration email username w' s = (Throw err, s1))
        by (unfold w'; rewrite beginRegistration_with_storage; exact Hb).
      rewrite (register_begin_throws email username w s Hsup err s1 Hb).
      rewrite (register_begin_throws email username w' s Hsup' err s1 Hb').
      reflexivity.
  - assert (Hsup' : isWebAuthnSupported w' = false) by exact Hsup.
    rewrite !register_unsupported by assumption. reflexivity.
Qed.

Lemma authenticate_result_with_storage email w f s :
  fst (authenticateWebAuthn email (with_storage w f) s)
  = fst (authenticateWebAuthn email w s).
Proof.
  set (w' := with_storage w f).
  destruct (isWebAuthnSupported w) eqn:Hsup.
  - assert (Hsup' : isWebAuthnSupported w' = true) by exact Hsup.
    destruct (beginLogin email w s) as [[br|err] s1] eqn:Hb.
    + assert (Hb' : beginLogin email w' s = (Ok br, s1))
        by (unfold w'; rewrite beginLogin_with_storage; exact Hb).
      destruct (get_outcome w (VObj [("publicKey", LoginBeginResponse.publicKey br)]))
        as [[c|]|err] eqn:Hc.
      * destruct (finishLogin (LoginBeginResponse.sessionId br) c w
                    (push s1 [CredentialsGet
                                (VObj [("publicKey", LoginBeginResponse.publicKey br)])]))
          as [[res|err] s3] eqn:Hf.
        -- rewrite (authenticate_finish_returns email w s Hsup br s1 Hb c Hc res s3 Hf).
           rewrite (authenticate_finish_returns email w' s Hsup' br s1 Hb' c Hc res s3);
             [reflexivity|].
           unfold w'. rewrite finishLogin_with_storage. exact Hf.
        -- rewrite (authenticate_finish_throws email w s Hsup br s1 Hb c Hc err s3 Hf).
           rewrite (authenticate_finish_throws email w' s Hsup' br s1 Hb' c Hc err s3);
             [reflexivity|].
           unfold w'. rewrite finishLogin_with_storage. exact Hf.
      * rewrite (authenticate_platform_null email w s Hsup br s1 Hb Hc).
        rewrite (authenticate_platform_null email w' s Hsup' br s1 Hb' Hc).
        reflexivity.
      * rewrite (authenticate_platform_throws email w s Hsup br s1 Hb err Hc).
        rewrite (authenticate_platform_throws email w' s Hsup' br s1 Hb' err Hc).
        reflexivity.
    + assert (Hb' : beginLogin email w' s = (Throw err, s1))
        by (unfold w'; rewrite beginLogin_with_storage; exact Hb).
      rewrite (authenticate_begin_throws email w s Hsup err s1 Hb).
      rewrite (authenticate_begin_throws email w' s Hsup' err s1 Hb').
      reflexivity.
  - assert (Hsup' : isWebAuthnSupported w' = false) by exact Hsup.
    rewrite !authenticate_unsupported by assumption. reflexivity.
Qed.

(** C7: whatever the host does, [registerWebAuthnCredential] and
    [authenticateWebAuthn] return and never throw, and every failing step
    is turned into [{success: false, error}] with a string: without the
    credential API the fixed message; when the begin call throws, when the
    platform call throws, and when the finish call throws, the thrown
    [Error]'s message (the ceremony's generic message when what was thrown
    is no [Error]), with the error logged; when the platform call returns
    [null], the ceremony's fixed message.  When the finish call returns,
    the ceremony returns [{success: true, token, user}] whatever the store
    does: [saveLastEmail] always returns, and when the store throws it
    leaves the store as it was and logs the failure; the value a ceremony
    returns is the same whatever the store does. *)
Theorem C7_ceremonies_never_raise (w : World) (s : State) (email username : string) :
  (exists v s',
      registerWebAuthnCredential email username w s = (Ok v, s') /\ ceremony_result v)
  /\ (exists v s', authenticateWebAuthn email w s = (Ok v, s') /\ ceremony_result v)
  /\ (forall s0, saveLastEmail email w s0 = (Ok tt, after_save email w s0))
  /\ (forall s0 win e,
        window w = Some win ->
        setItem_outcome w LAST_EMAIL_KEY email = Some e ->
        after_save email w s0
        = push s0 [StorageSetItem LAST_EMAIL_KEY email;
                   ConsoleError "Failed to save last email:" e])
  /\ (forall outcome,
        fst (registerWebAuthnCredential email username (with_storage w outcome) s)
        = fst (registerWebAuthnCredential email username w s)
        /\ fst (authenticateWebAuthn email (with_storage w outcome) s)
           = fst (authenticateWebAuthn email w s))
  /\ (isWebAuthnSupported w = false ->
      registerWebAuthnCredential email username w s = (Ok (failure MSG_UNSUPPORTED), s)
      /\ authenticateWebAuthn email w s = (Ok (failure MSG_UNSUPPORTED), s))
  /\ (isWebAuthnSupported w = true ->
      (forall error s1,
          beginRegistration email username w s = (Throw error, s1) ->
          registerWebAuthnCredential email username w s
          = (Ok (failure (message_of error "登録中にエラーが発生しました")),
             push s1 [ConsoleError "WebAuthn registration failed:" error]))
      /\ (forall beginResponse s1,
            beginRegistration email username w s = (Ok beginResponse, s1) ->
            let options :=
              VObj [("publicKey", RegistrationBeginResponse.publicKey beginResponse)] in
            (forall error,
                create_outcome w options = Throw error ->
                registerWebAuthnCredential email username w s
                = (Ok (failure (message_of error "登録中にエラーが発生しました")),
                   push s1 [CredentialsCreate options;
                            ConsoleError "WebAuthn registration failed:" error]))
            /\ (create_outcome w options = Ok None ->
                registerWebAuthnCredential email username w s
                = (Ok (failure "認証情報の生成に失敗しました"),
                   push s1 [CredentialsCreate options]))
            /\ (forall credential,
                  create_outcome w options = Ok (Some credential) ->
                  (forall error s3,
                      finishRegistration
                        (RegistrationBeginResponse.sessionId beginResponse) credential w
                        (push s1 [CredentialsCreate options]) = (Throw error, s3) ->
                      registerWebAuthnCredential email username w s
                      = (Ok (failure (message_of error "登録中にエラーが発生しました")),
                         push s3 [ConsoleError "WebAuthn registration failed:" error]))
                  /\ (forall result s3,
                        finishRegistration
                          (RegistrationBeginResponse.sessionId beginResponse) credential w
                          (push s1 [CredentialsCreate options]) = (Ok result, s3) ->
                        registerWebAuthnCredential email username w s
                        = (Ok (success (prop result "token") (prop result "user")),
                           after_save email w s3)))))
  /\ (isWebAuthnSupported w = true ->
      (forall error s1,
          beginLogin email w s = (Throw error, s1) ->
          authenticateWebAuthn email w s
          = (Ok (failure (message_of error "認証中にエラーが発生しました")),
             push s1 [ConsoleError "WebAuthn authentication failed:" error]))
      /\ (forall beginResponse s1,
            beginLogin email w s = (Ok beginResponse, s1) ->
            let options :=
              VObj [("publicKey", LoginBeginResponse.publicKey beginResponse)] in
            (forall error,
                get_outcome w options = Throw error ->
                authenticateWebAuthn email w s
                = (Ok (failure (message_of error "認証中にエラーが発生しました")),
                   push s1 [CredentialsGet options;
                            ConsoleError "WebAuthn authentication failed:" error]))
            /\ (get_outcome w options = Ok None ->
                authenticateWebAuthn email w s
                = (Ok (failure "認証に失敗しました"), push s1 [CredentialsGet options]))
            /\ (forall credential,
                  get_outcome w options = Ok (Some credential) ->
                  (forall error s3,
                      finishLogin (LoginBeginResponse.sessionId beginResponse) credential w
                        (push s1 [CredentialsGet options]) = (Throw error, s3) ->
                      authenticateWebAuthn email w s
                      = (Ok (failure (message_of error "認証中にエラーが発生しました")),
                         push s3 [ConsoleError "WebAuthn authentication failed:" error]))
                  /\ (forall result s3,
                        finishLogin (LoginBeginResponse.sessionId beginResponse)
                          credential w (push s1 [CredentialsGet options])
                        = (Ok result, s3) ->
                        authenticateWebAuthn email w s
                        = (Ok (success (prop result "token") (prop result "user")),
                           after_save email w s3))))).
Proof.
  split; [apply register_total|].
  split; [apply authenticate_total|].
  split; [intros s0; apply saveLastEmail_run|].
  split.
  { intros s0 win e Hwin Hset. unfold after_save. rewrite Hwin, Hset. reflexivity. }
  split.
  { intros outcome. split.
    - apply register_result_with_storage.
    - apply authenticate_result_with_storage. }
  split.
  { intros Hsup. split.
    - apply register_unsupported, Hsup.
    - apply authenticate_unsupported, Hsup. }
  split; intros Hsup.
  - split; [intros error s1 Hb; exact (register_begin_throws _ _ _ _ Hsup _ _ Hb)|].
    intros br s1 Hb options.
    split; [intros error Hc; exact (register_platform_throws _ _ _ _ Hsup _ _ Hb _ Hc)|].
    split; [intros Hc; exact (register_platform_null _ _ _ _ Hsup _ _ Hb Hc)|].
    intros c Hc. split.
    + intros error s3 Hf.
      exact (register_finish_throws _ _ _ _ Hsup _ _ Hb _ Hc _ _ Hf).
    + intros result s3 Hf.
      exact (register_finish_returns _ _ _ _ Hsup _ _ Hb _ Hc _ _ Hf).
  - split; [intros error s1 Hb; exact (authenticate_begin_throws _ _ _ Hsup _ _ Hb)|].
    intros br s1 Hb options.
    split; [intros error Hc; exact (authenticate_platform_throws _ _ _ Hsup _ _ Hb _ Hc)|].
    split; [intros Hc; exact (authenticate_platform_null _ _ _ Hsup _ _ Hb Hc)|].
    intros c Hc. split.
    + intros error s3 Hf.
      exact (authenticate_finish_throws _ _ _ Hsup _ _ Hb _ Hc _ _ Hf).
    + intros result s3 Hf.
      exact (authenticate_finish_returns _ _ _ Hsup _ _ Hb _ Hc _ _ Hf).
Qed.

Lemma C7_ceremonies_never_raise_witness :
  fst (authenticateWebAuthn "a@example.test" offline_world (initial_state ∅))
  = Ok (failure "Failed to fetch")
  /\ fst (registerWebAuthnCredential "a@example.test" "alice"
            (world_with_platform accepting_server (Throw NotAllowedError) (Ok None))
            (initial_state ∅))
     = Ok (failure "The operation either timed out or was not allowed.")
  /\ fst (authenticateWebAuthn "a@example.test"
            (world_with_platform accepting_server (Ok None) (Ok None)) (initial_state ∅))
     = Ok (failure "認証に失敗しました")
  /\ fst (registerWebAuthnCredential "a@example.test" "alice"
            (sample_world server_rejecting_finish None) (initial_state ∅))
     = Ok (failure "signature mismatch")
  /\ (exists s3,
         registerWebAuthnCredential "a@example.test" "alice"
           (sample_world accepting_server (Some QuotaExceededError)) (initial_state ∅)
         = (Ok (success (VStr "jwt") (VObj [("name", VStr "alice")])),
            push s3 [StorageSetItem LAST_EMAIL_KEY "a@example.test";
                     ConsoleError "Failed to save last email:" QuotaExceededError])
         /\ localStorage s3 !! LAST_EMAIL_KEY = None).
Proof.
  split; [|split; [|split; [|split]]].
  - destruct (C7_ceremonies_never_raise offline_world (initial_state ∅)
                "a@example.test" "alice") as (_ & _ & _ & _ & _ & _ & _ & H).
    destruct (H eq_refl) as (Hbegin & _).
    erewrite Hbegin by reflexivity. reflexivity.
  - destruct (C7_ceremonies_never_raise
                (world_with_platform accepting_server (Throw NotAllowedError) (Ok None))
                (initial_state ∅) "a@example.test" "alice")
      as (_ & _ & _ & _ & _ & _ & H & _).
    destruct (H eq_refl) as (_ & Hbegun).
    edestruct Hbegun as (Hthrows & _); [reflexivity|].
    erewrite Hthrows by reflexivity. reflexivity.
  - destruct (C7_ceremonies_never_raise
                (world_with_platform accepting_server (Ok None) (Ok None))
                (initial_state ∅) "a@example.test" "alice")
      as (_ & _ & _ & _ & _ & _ & _ & H).
    destruct (H eq_refl) as (_ & Hbegun).
    edestruct Hbegun as (_ & Hnull & _); [reflexivity|].
    rewrite Hnull by reflexivity. reflexivity.
  - destruct (C7_ceremonies_never_raise
                (sample_world server_rejecting_finish None)
                (initial_state ∅) "a@example.test" "alice")
      as (_ & _ & _ & _ & _ & _ & H & _).
    destruct (H eq_refl) as (_ & Hbegun).
    edestruct Hbegun as (_ & _ & Hcredential); [reflexivity|].
    edestruct Hcredential as (Hthrows & _); [reflexivity|].
    erewrite Hthrows by reflexivity. reflexivity.
  - destruct (C7_ceremonies_never_raise
                (sample_world accepting_server (Some QuotaExceededError))
                (initial_state ∅) "a@example.test" "alice")
      as (_ & _ & _ & Hlogged & _ & _ & H & _).
    destruct (H eq_refl) as (_ & Hbegun).
    edestruct Hbegun as (_ & _ & Hcredential); [reflexivity|].
    edestruct Hcredential as (_ & Hreturns); [reflexivity|].
    eexists. split.
    + erewrite Hreturns by reflexivity.
      erewrite Hlogged by reflexivity. reflexivity.
    + reflexivity.
Defined.

(* ===================================================================== *)
(** * The finish-login request body                                        *)
(* ===================================================================== *)

Lemma length_append (a b : string) :
  String.length (a +:+ b) = (String.length a + String.length b)%nat.
Proof. induction a as [|c a IH]; simpl; [reflexivity | rewrite IH; reflexivity]. Qed.

Lemma loginFinishRequest_absent sessionId credential :
  Assertion.userHandle (PublicKeyCredential.response credential) = None ->
  stringify_body (loginFinishRequest sessionId credential)
  = stringify_body (loginFinishRequest_without_userHandle sessionId credential).
Proof.
  intros H. unfold stringify_body, loginFinishRequest, loginFinishRequest_without_userHandle.
  rewrite H. reflexivity.
Qed.

Lemma loginFinishRequest_present sessionId credential handle :
  Assertion.userHandle (PublicKeyCredential.response credential) = Some handle ->
  stringify_body (loginFinishRequest sessionId credential)
  = stringify_body (loginFinishRequest_with_userHandle sessionId credential
                      (bufferToBase64URL handle)).
Proof.
  intros H. unfold stringify_body, loginFinishRequest, loginFinishRequest_with_userHandle.
  rewrite H. reflexivity.
Qed.

(** A request that carries a [userHandle], even an empty one, is a longer
    text than the request without the property. *)
Lemma userHandle_text_is_longer sessionId credential handle :
  (String.length (stringify_body (loginFinishRequest_without_userHandle sessionId credential))
   < String.length (stringify_body
                      (loginFinishRequest_with_userHandle sessionId credential handle)))%nat.
Proof.
  unfold stringify_body, loginFinishRequest_without_userHandle,
    loginFinishRequest_with_userHandle.
  cbn -[json_quote String.append String.length bufferToBase64URL].
  destruct (JSON_stringify sessionId) as [sid|];
    cbn -[json_quote String.append String.length bufferToBase64URL];
    rewrite !length_append; cbn [String.length]; lia.
Qed.

(** C8: when the assertion's [userHandle] is [null], the body that
    [finishLogin] sends is the serialization of the request without any
    [userHandle] property; it is not the serialization of the request with
    [userHandle] set to the empty string. *)
Theorem C8_absent_userHandle_is_omitted (w : World) (s : State) (sessionId : value)
    (credential : PublicKeyCredential.t Assertion.response) :
  Assertion.userHandle (PublicKeyCredential.response credential) = None ->
  let body :=
    stringify_body (loginFinishRequest_without_userHandle sessionId credential) in
  stringify_body (loginFinishRequest sessionId credential) = body
  /\ snd (finishLogin sessionId credential w s)
     = push s (call_events (login_finish_url w) body)
  /\ body <> stringify_body (loginFinishRequest_with_userHandle sessionId credential "").
Proof.
  intros H body. unfold body. split; [|split].
  - apply loginFinishRequest_absent, H.
  - rewrite finishLogin_state, loginFinishRequest_absent by exact H. reflexivity.
  - intros E.
    pose proof (userHandle_text_is_longer sessionId credential "") as Hlen.
    rewrite <- E in Hlen. lia.
Qed.

Lemma C8_absent_userHandle_witness :
  (let body :=
     stringify_body
       (loginFinishRequest_without_userHandle (VStr "session-2") (sample_assertion None)) in
   stringify_body (loginFinishRequest (VStr "session-2") (sample_assertion None)) = body
   /\ snd (finishLogin (VStr "session-2") (sample_assertion None)
             (sample_world accepting_server None) (initial_state ∅))
      = push (initial_state ∅)
          (call_events (login_finish_url (sample_world accepting_server None)) body)
   /\ body <> stringify_body
                (loginFinishRequest_with_userHandle (VStr "session-2")
                   (sample_assertion None) ""))
  /\ String.index 0 "userHandle"
       (stringify_body (loginFinishRequest (VStr "session-2") (sample_assertion None)))
     = None
  /\ String.index 0 "signature"
       (stringify_body (loginFinishRequest (VStr "session-2") (sample_assertion None)))
     = Some 147%nat.
Proof.
  split; [|split; reflexivity].
  exact (C8_absent_userHandle_is_omitted (sample_world accepting_server None)
           (initial_state ∅) (VStr "session-2") (sample_assertion None) eq_refl).
Defined.

(** C10: the presence test on [userHandle] is on the object, not on its
    length: for every assertion whose [userHandle] is a buffer, the empty
    buffer included, [finishLogin] sends the property with the buffer's
    encoding, which for the empty buffer is the empty string; and a 2xx
    finish response whose envelope has a true [success] and no [data] makes
    the finish calls return the empty object, whose [token] and [user] are
    [undefined], whereas the same response makes the begin calls throw. *)
Theorem C10_empty_userHandle_and_missing_data (w : World) (s : State)
    (sessionId : value) (assertion : PublicKeyCredential.t Assertion.response)
    (attestation : PublicKeyCredential.t Attestation.response)
    (email username : string) (r : Response) (fields : list (string * value)) :
  (forall handle,
      Assertion.userHandle (PublicKeyCredential.response assertion) = Some handle ->
      let body :=
        stringify_body
          (loginFinishRequest_with_userHandle sessionId assertion
             (bufferToBase64URL handle)) in
      snd (finishLogin sessionId assertion w s)
      = push s (call_events (login_finish_url w) body)
      /\ body <> stringify_body
                   (loginFinishRequest_without_userHandle sessionId assertion))
  /\ bufferToBase64URL [] = ""
  /\ (ok r = true ->
      json r = Ok (VObj fields) ->
      truthy (field "success" fields) = true ->
      truthy (field "data" fields) = false ->
      (fetch_outcome w (login_finish_url w)
         (stringify_body (loginFinishRequest sessionId assertion)) = Ok r ->
       fst (finishLogin sessionId assertion w s) = Ok (VObj []))
      /\ (fetch_outcome w (register_finish_url w)
            (stringify_body (registrationFinishRequest sessionId attestation)) = Ok r ->
          fst (finishRegistration sessionId attestation w s) = Ok (VObj []))
      /\ prop (VObj []) "token" = VUndefined
      /\ prop (VObj []) "user" = VUndefined
      /\ (fetch_outcome w (login_begin_url w) (login_begin_body email) = Ok r ->
          fst (beginLogin email w s)
          = Throw (new_Error (api_failure_message fields "認証開始に失敗しました")))
      /\ (fetch_outcome w (register_begin_url w) (register_begin_body email username)
          = Ok r ->
          fst (beginRegistration email username w s)
          = Throw (new_Error (api_failure_message fields "登録開始に失敗しました")))).
Proof.
  split; [|split; [reflexivity|]].
  - intros handle H body. unfold body. split.
    + rewrite finishLogin_state, (loginFinishRequest_present _ _ handle) by exact H.
      reflexivity.
    + intros E.
      pose proof (userHandle_text_is_longer sessionId assertion (bufferToBase64URL handle))
        as Hlen.
      rewrite E in Hlen. lia.
  - intros Hok Hjson Hsucc Hdata.
    assert (Hempty : or_else (field "data" fields) (VObj []) = VObj [])
      by (unfold or_else; rewrite Hdata; reflexivity).
    repeat split.
    + intros Hfetch. rewrite <- Hempty.
      apply (finishLogin_accepted w s r fields Hok Hjson); assumption.
    + intros Hfetch. rewrite <- Hempty.
      apply (finishRegistration_accepted w s r fields Hok Hjson); assumption.
    + intros Hfetch. apply (beginLogin_api_failure w s r fields Hok Hjson); auto.
    + intros Hfetch. apply (beginRegistration_api_failure w s r fields Hok Hjson); auto.
Qed.

Lemma C10_empty_userHandle_witness :
  snd (finishLogin (VStr "session-2") (sample_assertion (Some []))
         (sample_world server_success_without_data None) (initial_state ∅))
  = push (initial_state ∅)
      (call_events "http://localhost:8080/api/v1/auth/login/finish"
         (stringify_body
            (loginFinishRequest_with_userHandle (VStr "session-2")
               (sample_assertion (Some [])) "")))
  /\ fst (finishLogin (VStr "session-2") (sample_assertion (Some []))
            (sample_world server_success_without_data None) (initial_state ∅))
     = Ok (VObj [])
  /\ fst (beginLogin "a@example.test"
            (sample_world server_success_without_data None) (initial_state ∅))
     = Throw (new_Error "認証開始に失敗しました")
  /\ exists s',
       authenticateWebAuthn "a@example.test"
         (sample_world
            (fun url => if String.eqb url "http://localhost:8080/api/v1/auth/login/finish"
                        then server_success_without_data url
                        else accepting_server url) None)
         (initial_state ∅)
       = (Ok (success VUndefined VUndefined), s').
Proof.
  pose proof (C10_empty_userHandle_and_missing_data
                (sample_world server_success_without_data None) (initial_state ∅)
                (VStr "session-2") (sample_assertion (Some [])) sample_credential
                "a@example.test" "alice" (server_success_without_data "")
                [("success", VBool true)]) as (Hhandle & _ & Hdata).
  destruct (Hhandle [] eq_refl) as (Hbody & _).
  destruct (Hdata eq_refl eq_refl eq_refl eq_refl) as (Hfin & _ & _ & _ & Hbegin & _).
  split; [exact Hbody|]. split; [exact (Hfin eq_refl)|]. split; [exact (Hbegin eq_refl)|].
  eexists. vm_compute. reflexivity.
Defined.

(* ===================================================================== *)
(** * More on the codec                                                    *)
(* ===================================================================== *)

Lemma decode_encode buffer :
  base64URLToBuffer (bufferToBase64URL buffer) = Some buffer.
Proof.
  rewrite bufferToBase64URL_binary.
  destruct (encode_binary_wellformed (binary_of_bytes buffer)) as (Hc & Hl & _).
  rewrite base64URLToBuffer_wellformed
    by (unfold wellformed; rewrite Hc, Hl; reflexivity).
  rewrite decode_groups_encode_binary. cbn [fmap option_fmap option_map].
  rewrite bytes_of_binary_of_bytes. reflexivity.
Qed.

Lemma string_forallb_impl (p q : ascii -> bool) s :
  (forall c, p c = true -> q c = true) ->
  string_forallb p s = true -> string_forallb q s = true.
Proof.
  intros Hpq. induction s as [|c s IH]; simpl; [reflexivity|].
  intros H. apply andb_true_iff in H as [Hc Hs].
  rewrite (Hpq c Hc), (IH Hs). reflexivity.
Qed.

Lemma url_char_not_unsafe c : is_url_char c = true -> is_url_unsafe c = false.
Proof.
  intros Hc.
  assert (H : url_char_is_safe (Base64.charCode c) = true).
  { pose proof (charCode_range c) as Hr.
    bytes1 url_char_is_safe (Base64.charCode c) Hr. }
  unfold url_char_is_safe in H. rewrite fromCharCode_charCode, Hc in H.
  apply negb_true_iff in H. exact H.
Qed.

(** X1: the text [bufferToBase64URL] writes is always in the form the
    decoder restores: only characters of the URL-safe alphabet (so no [+],
    no [/], no [=]), a length that is not 1 modulo 4, and zero unused
    trailing bits. *)
Theorem X1_encoder_writes_url_safe_canonical_text (buffer : list byte) :
  wellformed (bufferToBase64URL buffer) = true
  /\ canonical (bufferToBase64URL buffer) = true
  /\ string_forallb (fun c => negb (is_url_unsafe c)) (bufferToBase64URL buffer) = true.
Proof.
  rewrite bufferToBase64URL_binary.
  destruct (encode_binary_wellformed (binary_of_bytes buffer)) as (Hc & Hl & Hcan).
  split; [unfold wellformed; rewrite Hc, Hl; reflexivity|].
  split; [exact Hcan|].
  apply (string_forallb_impl is_url_char); [|exact Hc].
  intros c H. rewrite (url_char_not_unsafe c H). reflexivity.
Qed.

(** X2: [bufferToBase64URL] is injective: two buffers with the same text are
    the same buffer. *)
Theorem X2_encoder_is_injective (b1 b2 : list byte) :
  bufferToBase64URL b1 = bufferToBase64URL b2 -> b1 = b2.
Proof.
  intros H.
  pose proof (decode_encode b1) as H1. rewrite H, decode_encode in H1.
  congruence.
Qed.

Lemma X2_encoder_is_injective_witness : [x41%byte] = [x41%byte].
Proof. exact (X2_encoder_is_injective [x41%byte] [x41%byte] eq_refl). Defined.

Lemma length_binary_of_bytes buffer :
  String.length (binary_of_bytes buffer) = length buffer.
Proof.
  unfold binary_of_bytes. induction buffer as [|x l IH]; simpl; congruence.
Qed.

Lemma length_bytes_of_binary s : length (bytes_of_binary s) = String.length s.
Proof.
  unfold bytes_of_binary. rewrite length_map.
  induction s as [|c s IH]; simpl; congruence.
Qed.

Lemma length_encode_binary s :
  String.length (encode_binary s) = ((4 * String.length s + 2) / 3)%nat.
Proof.
  induction s as [|a|a b|a b c rest IH] using string_ind_by3.
  - reflexivity.
  - rewrite encode_binary_1. reflexivity.
  - rewrite encode_binary_2. reflexivity.
  - rewrite encode_binary_3. cbn [String.length]. rewrite IH.
    replace (4 * S (S (S (String.length rest))) + 2)%nat
      with ((4 * String.length rest + 2) + 4 * 3)%nat by lia.
    rewrite Nat.div_add by lia. lia.
Qed.

Lemma length_decode_groups t s :
  Base64.decode_groups t = Some s ->
  String.length s = (3 * String.length t / 4)%nat.
Proof.
  revert s. induction t as [|a|a b|a b c|a b c d rest IH] using string_ind_by4;
    intros s H.
  - injection H as <-. reflexivity.
  - discriminate H.
  - rewrite decode_groups_2 in H.
    destruct (Base64.char_sextet a); [|discriminate].
    destruct (Base64.char_sextet b); [|discriminate].
    injection H as <-. reflexivity.
  - rewrite decode_groups_3 in H.
    destruct (Base64.char_sextet a); [|discriminate].
    destruct (Base64.char_sextet b); [|discriminate].
    destruct (Base64.char_sextet c); [|discriminate].
    injection H as <-. reflexivity.
  - rewrite decode_groups_4 in H.
    destruct (Base64.char_sextet a); [|discriminate].
    destruct (Base64.char_sextet b); [|discriminate].
    destruct (Base64.char_sextet c); [|discriminate].
    destruct (Base64.char_sextet d); [|discriminate].
    destruct (Base64.decode_groups rest) as [tl|]; [|discriminate].
    injection H as <-. cbn [String.length]. rewrite (IH tl eq_refl).
    replace (3 * S (S (S (S (String.length rest)))))%nat
      with (3 * String.length rest + 3 * 4)%nat by lia.
    rewrite Nat.div_add by lia. lia.
Qed.

(** X3: sizes.  A buffer of [n] bytes is written as [ceil(4n/3)] characters,
    and a well-formed text of [m] characters is read as [floor(3m/4)]
    bytes. *)
Theorem X3_codec_sizes :
  (forall buffer : list byte,
      String.length (bufferToBase64URL buffer) = ((4 * length buffer + 2) / 3)%nat)
  /\ (forall t buffer,
        wellformed t = true ->
        base64URLToBuffer t = Some buffer ->
        length buffer = (3 * String.length t / 4)%nat).
Proof.
  split.
  - intros buffer.
    rewrite bufferToBase64URL_binary, length_encode_binary, length_binary_of_bytes.
    reflexivity.
  - intros t buffer Ht H. rewrite base64URLToBuffer_wellformed in H by exact Ht.
    destruct (Base64.decode_groups (Base64.string_map of_url t)) as [s|] eqn:Hs;
      [|discriminate].
    injection H as <-. rewrite length_bytes_of_binary.
    rewrite (length_decode_groups _ _ Hs), length_string_map. reflexivity.
Qed.

Lemma X3_codec_sizes_witness :
  length [x68; x65; x6c; x6c; x6f]%byte = (3 * String.length "aGVsbG8" / 4)%nat.
Proof. exact (proj2 X3_codec_sizes "aGVsbG8" _ eq_refl eq_refl). Defined.

Lemma strip_padding_alpha c s :
  is_alpha c = true ->
  Base64.strip_padding (String c s) = String c (Base64.strip_padding s).
Proof.
  intros Hc. unfold is_alpha in Hc.
  destruct (Base64.char_sextet c) as [p|] eqn:Hp; [|discriminate].
  destruct (alpha_char_facts c p Hp) as (_ & _ & Hpad).
  simpl. rewrite Hpad. reflexivity.
Qed.

(** After [padEnd] and [atob]'s padding step, a text of the alphabet whose
    length is 1 modulo 4 is rejected. *)
Lemma decode_padded_length_1 t :
  string_forallb is_alpha t = true ->
  (String.length t mod 4 =? 1)%nat = true ->
  (let data := Base64.strip_padding (pad4 t) in
   if (String.length data mod 4 =? 1)%nat then None else Base64.decode_groups data)
  = None.
Proof.
  induction t as [|a|a b|a b c|a b c d rest IH] using string_ind_by4;
    cbn [string_forallb pad4]; intros H Hlen;
    repeat (apply andb_true_iff in H as [? H]); try discriminate Hlen.
  - rewrite strip_padding_alpha by assumption. cbn.
    destruct (Base64.char_sextet a); reflexivity.
  - rewrite length_by4 in Hlen. specialize (IH H Hlen). cbv zeta in IH |- *.
    rewrite !strip_padding_alpha by assumption.
    rewrite length_by4, decode_groups_4.
    destruct (String.length (Base64.strip_padding (pad4 rest)) mod 4 =? 1)%nat;
      [reflexivity|].
    rewrite IH.
    destruct (Base64.char_sextet a); [|reflexivity].
    destruct (Base64.char_sextet b); [|reflexivity].
    destruct (Base64.char_sextet c); [|reflexivity].
    destruct (Base64.char_sextet d); reflexivity.
Qed.

(** X4: a text over the URL-safe alphabet whose length is 1 modulo 4 is no
    encoding of anything: [base64URLToBuffer] throws on it. *)
Theorem X4_decoder_rejects_length_1_mod_4 (t : string) :
  string_forallb is_url_char t = true ->
  (String.length t mod 4 =? 1)%nat = true ->
  base64URLToBuffer t = None.
Proof.
  intros Hc Hlen. unfold base64URLToBuffer.
  rewrite replace_of_url, padEnd_pad4. unfold Base64.atob.
  rewrite filter_ws_pad4 by (apply of_url_alpha, Hc).
  rewrite length_pad4.
  rewrite decode_padded_length_1;
    [reflexivity | apply of_url_alpha, Hc | rewrite length_string_map; exact Hlen].
Qed.

Lemma X4_decoder_rejects_length_1_mod_4_witness : base64URLToBuffer "aGVsb" = None.
Proof. exact (X4_decoder_rejects_length_1_mod_4 "aGVsb" eq_refl eq_refl). Defined.

(** ** Standard Base64 as input *)

Lemma pad4_idempotent t : pad4 (pad4 t) = pad4 t.
Proof.
  induction t as [|a|a b|a b c|a b c d rest IH] using string_ind_by4;
    try reflexivity.
  cbn [pad4]. rewrite IH. reflexivity.
Qed.

Lemma of_url_url_char n :
  0 <= n < 64 -> of_url (url_char n) = Base64.sextet_char n.
Proof. intros Hn. apply sextet_char_facts, Hn. Qed.

(** [btoa] writes the URL-safe text with the standard alphabet restored and
    the padding added. *)
Lemma btoa_pad4 s :
  Base64.btoa s = pad4 (Base64.string_map of_url (encode_binary s)).
Proof.
  induction s as [|a|a b|a b c rest IH] using string_ind_by3.
  - reflexivity.
  - pose proof (charCode_range a) as Ha.
    rewrite encode_binary_1. cbn [Base64.string_map pad4 Base64.btoa].
    rewrite s1_last. fold (s0 (Base64.charCode a)).
    rewrite !of_url_url_char
      by (first [apply s0_range | apply s1_range]; lia).
    reflexivity.
  - pose proof (charCode_range a) as Ha.
    pose proof (charCode_range b) as Hb.
    rewrite encode_binary_2. cbn [Base64.string_map pad4 Base64.btoa].
    rewrite s2_last. fold (s0 (Base64.charCode a)).
    fold (s1 (Base64.charCode a) (Base64.charCode b)).
    rewrite !of_url_url_char
      by (first [apply s0_range | apply s1_range | apply s2_range]; lia).
    reflexivity.
  - pose proof (charCode_range a) as Ha.
    pose proof (charCode_range b) as Hb.
    pose proof (charCode_range c) as Hc.
    rewrite encode_binary_3. cbn [Base64.string_map pad4 Base64.btoa].
    fold (s0 (Base64.charCode a)).
    fold (s1 (Base64.charCode a) (Base64.charCode b)).
    fold (s2 (Base64.charCode b) (Base64.charCode c)).
    fold (s3 (Base64.charCode c)).
    rewrite !of_url_url_char
      by (first [apply s0_range | apply s1_range | apply s2_range | apply s3_range]; lia).
    rewrite IH. reflexivity.
Qed.

Lemma of_url_idempotent_on_alpha t :
  string_forallb is_alpha t = true ->
  Base64.string_map of_url (pad4 t) = pad4 t.
Proof.
  assert (Hc : forall c, is_alpha c = true -> of_url c = c).
  { intros c H. unfold is_alpha in H.
    destruct (Base64.char_sextet c) as [p|] eqn:Hp; [|discriminate].
    pose proof (charCode_range c) as Hr.
    assert (Hk : alpha_char_is_standard (Base64.charCode c) = true)
      by (bytes1 alpha_char_is_standard (Base64.charCode c) Hr).
    unfold alpha_char_is_standard in Hk. cbv zeta in Hk.
    rewrite fromCharCode_charCode in Hk.
    unfold is_alpha in Hk at 1. rewrite Hp in Hk. apply Ascii.eqb_eq, Hk. }
  induction t as [|a|a b|a b c|a b c d rest IH] using string_ind_by4;
    cbn [string_forallb pad4 Base64.string_map]; intros H;
    repeat (apply andb_true_iff in H as [? H]);
    rewrite ?Hc by assumption; try reflexivity.
  rewrite IH by assumption. reflexivity.
Qed.

(** X5: [base64URLToBuffer] also reads standard, padded Base64: what [btoa]
    writes for a buffer, with [+], [/] and [=], decodes to that buffer. *)
Theorem X5_decoder_reads_standard_base64 (buffer : list byte) :
  base64URLToBuffer (Base64.btoa (binary_of_bytes buffer)) = Some buffer.
Proof.
  destruct (encode_binary_wellformed (binary_of_bytes buffer)) as (Hc & Hl & _).
  pose proof (of_url_alpha _ Hc) as Halpha.
  assert (Hlen : (String.length (Base64.string_map of_url
                                   (encode_binary (binary_of_bytes buffer))) mod 4 =? 1)%nat
                 = false) by (rewrite length_string_map; exact Hl).
  unfold base64URLToBuffer. rewrite replace_of_url, btoa_pad4.
  rewrite of_url_idempotent_on_alpha by exact Halpha.
  rewrite padEnd_pad4, pad4_idempotent. unfold Base64.atob.
  rewrite filter_ws_pad4 by exact Halpha.
  rewrite length_pad4, strip_padding_pad4 by assumption.
  rewrite Hlen, decode_groups_encode_binary. cbn [mbind option_bind].
  rewrite bytes_of_binary_of_bytes. reflexivity.
Qed.

(* ===================================================================== *)
(** * More on the option decoders                                          *)
(* ===================================================================== *)

Lemma decoded_text_is_text v v' : decoded_text v v' -> is_text v.
Proof. intros (s & bytes & -> & H & _). exists s, bytes. auto. Qed.

Lemma decoded_id_has_text_id o o' : decoded_id o o' -> has_text_id o.
Proof.
  intros (fields & fields' & -> & _ & _ & H). exists fields.
  split; [reflexivity | exact (decoded_text_is_text _ _ H)].
Qed.

Lemma decoded_list_is_cred_list l l' : decoded_list l l' -> is_cred_list l.
Proof.
  intros [[[-> | ->] _] | (items & items' & -> & _ & H)].
  - left. reflexivity.
  - right. left. reflexivity.
  - right. right. exists items. split; [reflexivity|].
    induction H as [|o o' rest rest' Ho _ IH]; constructor;
      [exact (decoded_id_has_text_id _ _ Ho) | exact IH].
Qed.

(** X6: the exact domain of the decoders.  [decodeCreationOptions] returns
    on a payload exactly when the payload is an object whose [challenge] is
    a text the codec accepts, whose [user] is an object with such a text as
    [id], and whose [excludeCredentials] is absent, [null], or an array of
    objects each with such a text as [id]; on every other payload it
    throws.  The same holds for [decodeRequestOptions] with [challenge] and
    [allowCredentials]; it never looks at [user].  In particular a list
    that is neither [undefined], [null] nor an array, such as [false], [0]
    or the empty string, makes the decoder throw: only [undefined] and
    [null] are passed over. *)
Theorem X6_decoders_return_exactly_on_decodable_payloads (options : value) :
  ((exists out, decodeCreationOptions options = Ok out) <-> creation_payload options)
  /\ ((exists e, decodeCreationOptions options = Throw e) <-> ~ creation_payload options)
  /\ ((exists out, decodeRequestOptions options = Ok out) <-> request_payload options)
  /\ ((exists e, decodeRequestOptions options = Throw e) <-> ~ request_payload options)
  /\ (forall fields,
        options = VObj fields ->
        (neither_nullish_nor_array (field "excludeCredentials" fields) ->
         exists e, decodeCreationOptions options = Throw e)
        /\ (neither_nullish_nor_array (field "allowCredentials" fields) ->
            exists e, decodeRequestOptions options = Throw e)).
Proof.
  assert (Hlist : forall l, neither_nullish_nor_array l -> ~ is_cred_list l).
  { intros l Hl [-> | [-> | (items & -> & _)]]; exact Hl. }
  assert (Hc : (exists out, decodeCreationOptions options = Ok out)
               <-> creation_payload options).
  { split; [|apply decodeCreationOptions_total].
    intros (out & H). apply decodeCreationOptions_Ok in H.
    destruct H as (fields & fields' & -> & _ & _ & Hch & Hu & Hl).
    exists fields. split; [reflexivity|].
    split; [exact (decoded_text_is_text _ _ Hch)|].
    split; [exact (decoded_id_has_text_id _ _ Hu) | exact (decoded_list_is_cred_list _ _ Hl)]. }
  assert (Hr : (exists out, decodeRequestOptions options = Ok out)
               <-> request_payload options).
  { split; [|apply decodeRequestOptions_total].
    intros (out & H). apply decodeRequestOptions_Ok in H.
    destruct H as (fields & fields' & -> & _ & _ & Hch & Hl).
    exists fields. split; [reflexivity|].
    split; [exact (decoded_text_is_text _ _ Hch) | exact (decoded_list_is_cred_list _ _ Hl)]. }
  assert (Hct : (exists e, decodeCreationOptions options = Throw e)
                <-> ~ creation_payload options).
  { split.
    - intros (e & He) Hp. apply Hc in Hp as (out & Hout). congruence.
    - intros Hn. destruct (decodeCreationOptions options) as [out|e] eqn:E; [|eauto].
      exfalso. apply Hn, Hc. eauto. }
  assert (Hrt : (exists e, decodeRequestOptions options = Throw e)
                <-> ~ request_payload options).
  { split.
    - intros (e & He) Hp. apply Hr in Hp as (out & Hout). congruence.
    - intros Hn. destruct (decodeRequestOptions options) as [out|e] eqn:E; [|eauto].
      exfalso. apply Hn, Hr. eauto. }
  split; [exact Hc|]. split; [exact Hct|]. split; [exact Hr|]. split; [exact Hrt|].
  intros fields ->. split; intros Hl.
  - apply Hct. intros (fields' & [= <-] & _ & _ & Hcred). exact (Hlist _ Hl Hcred).
  - apply Hrt. intros (fields' & [= <-] & _ & Hcred). exact (Hlist _ Hl Hcred).
Qed.

Lemma X6_decoders_domain_witness :
  (exists e,
      decodeCreationOptions (VObj (options_with_list "excludeCredentials" (VBool false)))
      = Throw e)
  /\ (exists e,
        decodeRequestOptions (VObj (options_with_list "allowCredentials" (VStr EmptyString)))
        = Throw e)
  /\ (exists e,
        decodeRequestOptions (VObj (options_with_list "allowCredentials" (VNum 0)))
        = Throw e).
Proof.
  split; [|split].
  - exact (proj1 (proj2 (proj2 (proj2 (proj2
             (X6_decoders_return_exactly_on_decodable_payloads
                (VObj (options_with_list "excludeCredentials" (VBool false)))))))
             _ eq_refl) I).
  - exact (proj2 (proj2 (proj2 (proj2 (proj2
             (X6_decoders_return_exactly_on_decodable_payloads
                (VObj (options_with_list "allowCredentials" (VStr EmptyString)))))))
             _ eq_refl) I).
  - exact (proj2 (proj2 (proj2 (proj2 (proj2
             (X6_decoders_return_exactly_on_decodable_payloads
                (VObj (options_with_list "allowCredentials" (VNum 0)))))))
             _ eq_refl) I).
Defined.

(** X7: the challenge is looked at first.  On an object payload whose
    [challenge] is missing or is not a string, both decoders throw a
    [TypeError]; when it is a string that [atob] rejects, both throw
    [InvalidCharacterError]; whatever the other properties are. *)
Theorem X7_decoders_fail_on_the_challenge_first (fields : list (string * value)) :
  (not_a_string (field "challenge" fields) ->
   exists message,
     decodeCreationOptions (VObj fields) = Throw (TypeError message)
     /\ decodeRequestOptions (VObj fields) = Throw (TypeError message))
  /\ (forall s,
        field "challenge" fields = VStr s ->
        base64URLToBuffer s = None ->
        decodeCreationOptions (VObj fields) = Throw InvalidCharacterError
        /\ decodeRequestOptions (VObj fields) = Throw InvalidCharacterError).
Proof.
  split.
  - intros Hns. unfold decodeCreationOptions, decodeRequestOptions.
    cbn [get mbind result_bind]. fold (field "challenge" fields).
    destruct (field "challenge" fields) as [| | | |s| | |]; cbn; eauto.
    exfalso. exact (Hns s eq_refl).
  - intros s Hs Hdec. unfold decodeCreationOptions, decodeRequestOptions.
    cbn [get mbind result_bind]. fold (field "challenge" fields).
    rewrite Hs. cbn [call_base64URLToBuffer]. rewrite Hdec. split; reflexivity.
Qed.

Lemma X7_decoders_fail_on_the_challenge_first_witness :
  (exists message,
      decodeCreationOptions (VObj [("user", VObj [("id", VStr "AA")])])
      = Throw (TypeError message)
      /\ decodeRequestOptions (VObj [("user", VObj [("id", VStr "AA")])])
         = Throw (TypeError message))
  /\ decodeCreationOptions (VObj [("challenge", VStr "A")]) = Throw InvalidCharacterError.
Proof.
  split.
  - apply (proj1 (X7_decoders_fail_on_the_challenge_first
                    [("user", VObj [("id", VStr "AA")])])).
    intros s H. discriminate H.
  - exact (proj1 (proj2 (X7_decoders_fail_on_the_challenge_first
                           [("challenge", VStr "A")]) "A" eq_refl eq_refl)).
Defined.

(* ===================================================================== *)
(** * More on the begin and finish calls                                   *)
(* ===================================================================== *)

(** X8: the footprint of a call.  Whatever the host answers (a response of
    any status and body, or a rejected [fetch]), each of the four calls
    arms one timer of 60000 ms, issues exactly one request to its own
    endpoint with its own body, clears the timer, and does nothing else:
    no second request, no platform call, no access to the store. *)
Theorem X8_call_footprint (w : World) (s : State) (email username : string)
    (sessionId : value) (attestation : PublicKeyCredential.t Attestation.response)
    (assertion : PublicKeyCredential.t Assertion.response) :
  snd (beginRegistration email username w s)
  = push s [SetTimeout 60000;
            Fetch (API_BASE_URL w +:+ "/api/v1/auth/register/begin")
              (stringify_body (VObj [("email", VStr email); ("username", VStr username)]));
            ClearTimeout]
  /\ snd (finishRegistration sessionId attestation w s)
     = push s [SetTimeout 60000;
               Fetch (API_BASE_URL w +:+ "/api/v1/auth/register/finish")
                 (stringify_body (registrationFinishRequest sessionId attestation));
               ClearTimeout]
  /\ snd (beginLogin email w s)
     = push s [SetTimeout 60000;
               Fetch (API_BASE_URL w +:+ "/api/v1/auth/login/begin")
                 (stringify_body (VObj [("email", VStr email)]));
               ClearTimeout]
  /\ snd (finishLogin sessionId assertion w s)
     = push s [SetTimeout 60000;
               Fetch (API_BASE_URL w +:+ "/api/v1/auth/login/finish")
                 (stringify_body (loginFinishRequest sessionId assertion));
               ClearTimeout].
Proof.
  split; [apply beginRegistration_state|].
  split; [apply finishRegistration_state|].
  split; [apply beginLogin_state | apply finishLogin_state].
Qed.

(** X9: a non-2xx response whose body is not JSON.  When [response.json()]
    rejects on a non-2xx response, each of the four calls throws an [Error]
    with the fixed network-error message, not the call's own fallback and
    not the parse error. *)
Theorem X9_unreadable_error_body_is_a_network_error (w : World) (s : State)
    (r : Response) (parse_error : exn) (email username : string) (sessionId : value)
    (attestation : PublicKeyCredential.t Attestation.response)
    (assertion : PublicKeyCredential.t Assertion.response) :
  ok r = false ->
  json r = Throw parse_error ->
  (fetch_outcome w (register_begin_url w) (register_begin_body email username) = Ok r ->
   fst (beginRegistration email username w s) = Throw (new_Error "ネットワークエラー"))
  /\ (fetch_outcome w (register_finish_url w)
        (stringify_body (registrationFinishRequest sessionId attestation)) = Ok r ->
      fst (finishRegistration sessionId attestation w s)
      = Throw (new_Error "ネットワークエラー"))
  /\ (fetch_outcome w (login_begin_url w) (login_begin_body email) = Ok r ->
      fst (beginLogin email w s) = Throw (new_Error "ネットワークエラー"))
  /\ (fetch_outcome w (login_finish_url w)
        (stringify_body (loginFinishRequest sessionId assertion)) = Ok r ->
      fst (finishLogin sessionId assertion w s) = Throw (new_Error "ネットワークエラー")).
Proof.
  intros Hok Hjson. repeat split; intros Hfetch; run_call; reflexivity.
Qed.

Lemma X9_unreadable_error_body_witness :
  fst (beginRegistration "a@example.test" "alice" (sample_world server_502_html None)
         (initial_state ∅))
  = Throw (new_Error "ネットワークエラー").
Proof.
  exact (proj1 (X9_unreadable_error_body_is_a_network_error
                  (sample_world server_502_html None) (initial_state ∅)
                  (server_502_html "") _ "a@example.test" "alice" (VStr "session-1")
                  sample_credential (sample_assertion None) eq_refl eq_refl) eq_refl).
Defined.

(** X10: errors of the transport pass through unchanged.  When [fetch]
    rejects (no network, aborted by the timer), each call throws what
    [fetch] threw; when a 2xx response has a body that [response.json()]
    cannot read, each call throws the parse error. *)
Theorem X10_transport_errors_propagate (w : World) (s : State) (error : exn)
    (email username : string) (sessionId : value)
    (attestation : PublicKeyCredential.t Attestation.response)
    (assertion : PublicKeyCredential.t Assertion.response) :
  let rejected outcome :=
    outcome = Throw error
    \/ exists r, outcome = Ok r /\ ok r = true /\ json r = Throw error in
  (rejected (fetch_outcome w (register_begin_url w) (register_begin_body email username)) ->
   fst (beginRegistration email username w s) = Throw error)
  /\ (rejected (fetch_outcome w (register_finish_url w)
                  (stringify_body (registrationFinishRequest sessionId attestation))) ->
      fst (finishRegistration sessionId attestation w s) = Throw error)
  /\ (rejected (fetch_outcome w (login_begin_url w) (login_begin_body email)) ->
      fst (beginLogin email w s) = Throw error)
  /\ (rejected (fetch_outcome w (login_finish_url w)
                  (stringify_body (loginFinishRequest sessionId assertion))) ->
      fst (finishLogin sessionId assertion w s) = Throw error).
Proof.
  cbv zeta. repeat split; intros [Hfetch | (r & Hfetch & Hok & Hjson)];
    run_call; reflexivity.
Qed.

Lemma X10_transport_errors_witness :
  fst (beginLogin "a@example.test" offline_world (initial_state ∅))
  = Throw (TypeError "Failed to fetch").
Proof.
  exact (proj1 (proj2 (proj2 (X10_transport_errors_propagate offline_world
                  (initial_state ∅) (TypeError "Failed to fetch") "a@example.test" "alice"
                  (VStr "session-1") sample_credential (sample_assertion None))))
           (or_introl eq_refl)).
Defined.

(* ===================================================================== *)
(** * More on the ceremonies                                               *)
(* ===================================================================== *)

Lemma beginRegistration_undecodable w s r fields email username error :
  accepted_begin r fields ->
  fetch_outcome w (register_begin_url w) (register_begin_body email username) = Ok r ->
  decodeCreationOptions (prop (field "data" fields) "publicKey") = Throw error ->
  fst (beginRegistration email username w s) = Throw error.
Proof.
  intros (Hok & Hjson & Hsucc & Hdata) Hfetch Hdec. unfold field in *.
  destruct (default VUndefined (obj_lookup "data" fields)) eqn:Hd;
    try discriminate Hdata; cbn [prop truthy] in *; unfold field in *;
    try subst; run_call; reflexivity.
Qed.

Lemma beginLogin_undecodable w s r fields email error :
  accepted_begin r fields ->
  fetch_outcome w (login_begin_url w) (login_begin_body email) = Ok r ->
  decodeRequestOptions (prop (field "data" fields) "publicKey") = Throw error ->
  fst (beginLogin email w s) = Throw error.
Proof.
  intros (Hok & Hjson & Hsucc & Hdata) Hfetch Hdec. unfold field in *.
  destruct (default VUndefined (obj_lookup "data" fields)) eqn:Hd;
    try discriminate Hdata; cbn [prop truthy] in *; unfold field in *;
    try subst; run_call; reflexivity.
Qed.

(** X11: options that cannot be decoded stop the ceremony before the
    platform call.  When the server accepts the begin request but the
    [publicKey] it sends makes the decoder throw (a missing [user], a
    challenge that is no text), the ceremony returns
    [{success: false, error}] with the decoder's message; the trace holds
    the begin call and the logged error only. *)
Theorem X11_undecodable_options_stop_the_ceremony (w : World) (s : State)
    (email username : string) (r : Response) (fields : list (string * value))
    (name message : string) :
  isWebAuthnSupported w = true ->
  accepted_begin r fields ->
  (fetch_outcome w (register_begin_url w) (register_begin_body email username) = Ok r ->
   decodeCreationOptions (prop (field "data" fields) "publicKey")
   = Throw (JsError name message) ->
   registerWebAuthnCredential email username w s
   = (Ok (failure message),
      push s (begin_failure_events (register_begin_url w)
                (register_begin_body email username)
                "WebAuthn registration failed:" (JsError name message))))
  /\ (fetch_outcome w (login_begin_url w) (login_begin_body email) = Ok r ->
      decodeRequestOptions (prop (field "data" fields) "publicKey")
      = Throw (JsError name message) ->
      authenticateWebAuthn email w s
      = (Ok (failure message),
         push s (begin_failure_events (login_begin_url w) (login_begin_body email)
                   "WebAuthn authentication failed:" (JsError name message)))).
Proof.
  intros Hsup Hacc. split; intros Hfetch Hdec.
  - rewrite (register_begin_throws email username w s Hsup (JsError name message)
               (push s (call_events (register_begin_url w)
                          (register_begin_body email username)))).
    + rewrite push_push. reflexivity.
    + apply run_pair; [|apply beginRegistration_state].
      exact (beginRegistration_undecodable w s r fields email username _ Hacc Hfetch Hdec).
  - rewrite (authenticate_begin_throws email w s Hsup (JsError name message)
               (push s (call_events (login_begin_url w) (login_begin_body email)))).
    + rewrite push_push. reflexivity.
    + apply run_pair; [|apply beginLogin_state].
      exact (beginLogin_undecodable w s r fields email _ Hacc Hfetch Hdec).
Qed.

Lemma X11_undecodable_options_witness :
  registerWebAuthnCredential "a@example.test" "alice"
    (sample_world server_options_without_user None) (initial_state ∅)
  = (Ok (failure "Cannot read properties of undefined (reading 'id')"),
     push (initial_state ∅)
       (begin_failure_events "http://localhost:8080/api/v1/auth/register/begin"
          (register_begin_body "a@example.test" "alice")
          "WebAuthn registration failed:"
          (TypeError "Cannot read properties of undefined (reading 'id')"))).
Proof.
  exact (proj1 (X11_undecodable_options_stop_the_ceremony
                  (sample_world server_options_without_user None) (initial_state ∅)
                  "a@example.test" "alice" (server_options_without_user "")
                  [("success", VBool true);
                   ("data", VObj [("publicKey", VObj [("challenge", VStr "AQID")]);
                                  ("sessionId", VStr "session-1")])]
                  "TypeError" "Cannot read properties of undefined (reading 'id')"
                  eq_refl (conj eq_refl (conj eq_refl (conj eq_refl eq_refl))))
           eq_refl eq_refl).
Defined.

Lemma after_save_trace email w s :
  exists evs : list event,
    trace (after_save email w s) = (trace s ++ evs)%list
    /\ existsb is_network_request evs = false
    /\ existsb is_platform_call evs = false.
Proof.
  unfold after_save. destruct (window w).
  - destruct (setItem_outcome w LAST_EMAIL_KEY email); eexists; cbn; eauto.
  - exists []. rewrite app_nil_r. auto.
Qed.

Lemma begin_state_registration email username w s beginResponse s1 :
  beginRegistration email username w s = (Ok beginResponse, s1) ->
  s1 = push s (call_events (register_begin_url w) (register_begin_body email username)).
Proof.
  intros H. pose proof (beginRegistration_state email username w s) as Hs.
  rewrite H in Hs. exact Hs.
Qed.

Lemma begin_state_login email w s beginResponse s1 :
  beginLogin email w s = (Ok beginResponse, s1) ->
  s1 = push s (call_events (login_begin_url w) (login_begin_body email)).
Proof.
  intros H. pose proof (beginLogin_state email w s) as Hs.
  rewrite H in Hs. exact Hs.
Qed.

(** X12: the session handle goes back unchanged, and a ceremony makes two
    requests.  When the begin response is accepted with decodable options
    and the platform returns a credential, the trace of the ceremony is:
    the begin call, the platform call on the decoded options, the finish
    call whose body is the finish request built from the [sessionId] of the
    begin response and that credential, and then, whatever the finish
    answer, events that are neither requests nor platform calls. *)
Theorem X12_session_handle_is_passed_unchanged (w : World) (s : State)
    (email username : string) (r : Response) (fields : list (string * value))
    (publicKey : value) :
  isWebAuthnSupported w = true ->
  accepted_begin r fields ->
  let sessionId := prop (field "data" fields) "sessionId" in
  let options := VObj [("publicKey", publicKey)] in
  (forall credential,
      fetch_outcome w (register_begin_url w) (register_begin_body email username) = Ok r ->
      decodeCreationOptions (prop (field "data" fields) "publicKey") = Ok publicKey ->
      create_outcome w options = Ok (Some credential) ->
      exists rest : list event,
        trace (snd (registerWebAuthnCredential email username w s))
        = (trace s
           ++ call_events (register_begin_url w) (register_begin_body email username)
           ++ [CredentialsCreate options]
           ++ call_events (register_finish_url w)
                (stringify_body (registrationFinishRequest sessionId credential))
           ++ rest)%list
        /\ existsb is_network_request rest = false
        /\ existsb is_platform_call rest = false)
  /\ (forall credential,
        fetch_outcome w (login_begin_url w) (login_begin_body email) = Ok r ->
        decodeRequestOptions (prop (field "data" fields) "publicKey") = Ok publicKey ->
        get_outcome w options = Ok (Some credential) ->
        exists rest : list event,
          trace (snd (authenticateWebAuthn email w s))
          = (trace s
             ++ call_events (login_begin_url w) (login_begin_body email)
             ++ [CredentialsGet options]
             ++ call_events (login_finish_url w)
                  (stringify_body (loginFinishRequest sessionId credential))
             ++ rest)%list
          /\ existsb is_network_request rest = false
          /\ existsb is_platform_call rest = false).
Proof.
  intros Hsup (Hok & Hjson & Hsucc & Hdata) sessionId options.
  split; intros credential Hfetch Hdec Hplat.
  - set (s1 := push s (call_events (register_begin_url w)
                         (register_begin_body email username))).
    assert (Hbegin : beginRegistration email username w s
                     = (Ok {| RegistrationBeginResponse.publicKey := publicKey;
                              RegistrationBeginResponse.sessionId := sessionId |}, s1)).
    { apply run_pair; [|apply beginRegistration_state].
      apply (beginRegistration_accepted w s r fields Hok Hjson); assumption. }
    set (s2 := push s1 [CredentialsCreate options]).
    pose proof (finishRegistration_state sessionId credential w s2) as Hfs.
    destruct (finishRegistration sessionId credential w s2) as [[result|error] s3] eqn:Hf;
      cbn [snd] in Hfs; subst s3.
    + rewrite (register_finish_returns email username w s Hsup _ s1 Hbegin credential
                 Hplat result _ Hf).
      cbn [snd]. destruct (after_save_trace email w
                             (push s2 (call_events (register_finish_url w)
                                (stringify_body
                                   (registrationFinishRequest sessionId credential)))))
        as (evs & Ht & Hn & Hp).
      exists evs. rewrite Ht. unfold s2, s1, push. cbn [trace].
      rewrite <- !app_assoc. auto.
    + rewrite (register_finish_throws email username w s Hsup _ s1 Hbegin credential
                 Hplat error _ Hf).
      eexists. unfold s2, s1, push. cbn [snd trace]. rewrite <- !app_assoc.
      split; [reflexivity | split; reflexivity].
  - set (s1 := push s (call_events (login_begin_url w) (login_begin_body email))).
    assert (Hbegin : beginLogin email w s
                     = (Ok {| LoginBeginResponse.publicKey := publicKey;
                              LoginBeginResponse.sessionId := sessionId |}, s1)).
    { apply run_pair; [|apply beginLogin_state].
      apply (beginLogin_accepted w s r fields Hok Hjson); assumption. }
    set (s2 := push s1 [CredentialsGet options]).
    pose proof (finishLogin_state sessionId credential w s2) as Hfs.
    destruct (finishLogin sessionId credential w s2) as [[result|error] s3] eqn:Hf;
      cbn [snd] in Hfs; subst s3.
    + rewrite (authenticate_finish_returns email w s Hsup _ s1 Hbegin credential
                 Hplat result _ Hf).
      cbn [snd]. destruct (after_save_trace email w
                             (push s2 (call_events (login_finish_url w)
                                (stringify_body
                                   (loginFinishRequest sessionId credential)))))
        as (evs & Ht & Hn & Hp).
      exists evs. rewrite Ht. unfold s2, s1, push. cbn [trace].
      rewrite <- !app_assoc. auto.
    + rewrite (authenticate_finish_throws email w s Hsup _ s1 Hbegin credential
                 Hplat error _ Hf).
      eexists. unfold s2, s1, push. cbn [snd trace]. rewrite <- !app_assoc.
      split; [reflexivity | split; reflexivity].
Qed.

Lemma X12_session_handle_witness :
  exists rest : list event,
    trace (snd (authenticateWebAuthn "a@example.test"
                  (sample_world accepting_server None) (initial_state ∅)))
    = ([] ++ call_events "http://localhost:8080/api/v1/auth/login/begin"
               (login_begin_body "a@example.test")
          ++ [CredentialsGet
                (VObj [("publicKey",
                        VObj [("challenge", VBuf [x01; x02; x03]%byte);
                              ("rpId", VStr "example.test");
                              ("allowCredentials",
                               VArr [VObj [("type", VStr "public-key");
                                           ("id", VBuf [xfb; xff]%byte)]])])])]
          ++ call_events "http://localhost:8080/api/v1/auth/login/finish"
               (stringify_body
                  (loginFinishRequest (VStr "session-2") (sample_assertion None)))
          ++ rest)%list
    /\ existsb is_network_request rest = false
    /\ existsb is_platform_call rest = false.
Proof.
  exact (proj2 (X12_session_handle_is_passed_unchanged
                  (sample_world accepting_server None) (initial_state ∅)
                  "a@example.test" "alice"
                  (accepting_server "http://localhost:8080/api/v1/auth/login/begin")
                  [("success", VBool true);
                   ("data", VObj [("publicKey", sample_request_options);
                                  ("sessionId", VStr "session-2")])]
                  _ eq_refl (conj eq_refl (conj eq_refl (conj eq_refl eq_refl))))
           (sample_assertion None) eq_refl eq_refl eq_refl).
Defined.

(** X13: when the platform step fails, nothing is sent and nothing is
    stored.  After a successful begin, a platform call that returns [null]
    makes the ceremony return its fixed failure message, and one that
    throws makes it return the thrown [Error]'s message, or the generic
    message when what was thrown is no [Error]; in both cases the trace is
    the begin call and the platform call (and the logged error): no finish
    request, no write to the store. *)
Theorem X13_platform_failure_ends_the_ceremony (w : World) (s : State)
    (email username : string) :
  isWebAuthnSupported w = true ->
  (forall beginResponse,
      fst (beginRegistration email username w s) = Ok beginResponse ->
      let options :=
        VObj [("publicKey", RegistrationBeginResponse.publicKey beginResponse)] in
      let begun :=
        (call_events (register_begin_url w) (register_begin_body email username)
         ++ [CredentialsCreate options])%list in
      (create_outcome w options = Ok None ->
       registerWebAuthnCredential email username w s
       = (Ok (failure "認証情報の生成に失敗しました"), push s begun))
      /\ (forall error,
            create_outcome w options = Throw error ->
            registerWebAuthnCredential email username w s
            = (Ok (failure (match error with
                            | JsError _ message => message
                            | JsThrown _ => "登録中にエラーが発生しました"
                            end)),
               push s (begun ++ [ConsoleError "WebAuthn registration failed:" error])%list)))
  /\ (forall beginResponse,
        fst (beginLogin email w s) = Ok beginResponse ->
        let options :=
          VObj [("publicKey", LoginBeginResponse.publicKey beginResponse)] in
        let begun :=
          (call_events (login_begin_url w) (login_begin_body email)
           ++ [CredentialsGet options])%list in
        (get_outcome w options = Ok None ->
         authenticateWebAuthn email w s = (Ok (failure "認証に失敗しました"), push s begun))
        /\ (forall error,
              get_outcome w options = Throw error ->
              authenticateWebAuthn email w s
              = (Ok (failure (match error with
                              | JsError _ message => message
                              | JsThrown _ => "認証中にエラーが発生しました"
                              end)),
                 push s (begun ++ [ConsoleError "WebAuthn authentication failed:" error])%list))).
Proof.
  intros Hsup. split; intros br Hfst options begun.
  - assert (Hbegin : beginRegistration email username w s
                     = (Ok br, push s (call_events (register_begin_url w)
                                         (register_begin_body email username))))
      by (apply run_pair; [exact Hfst | apply beginRegistration_state]).
    split.
    + intros Hnull.
      rewrite (register_platform_null email username w s Hsup br _ Hbegin Hnull).
      rewrite push_push. reflexivity.
    + intros error Hthrow.
      rewrite (register_platform_throws email username w s Hsup br _ Hbegin error Hthrow).
      rewrite push_push. unfold begun. rewrite <- app_assoc. reflexivity.
  - assert (Hbegin : beginLogin email w s
                     = (Ok br, push s (call_events (login_begin_url w)
                                         (login_begin_body email))))
      by (apply run_pair; [exact Hfst | apply beginLogin_state]).
    split.
    + intros Hnull.
      rewrite (authenticate_platform_null email w s Hsup br _ Hbegin Hnull).
      rewrite push_push. reflexivity.
    + intros error Hthrow.
      rewrite (authenticate_platform_throws email w s Hsup br _ Hbegin error Hthrow).
      rewrite push_push. unfold begun. rewrite <- app_assoc. reflexivity.
Qed.

Lemma X13_platform_failure_witness :
  fst (authenticateWebAuthn "a@example.test"
         (world_with_platform accepting_server (Ok None) (Throw NotAllowedError))
         (initial_state ∅))
  = Ok (failure "The operation either timed out or was not allowed.")
  /\ fst (registerWebAuthnCredential "a@example.test" "alice"
            (world_with_platform accepting_server (Ok None) (Throw NotAllowedError))
            (initial_state ∅))
     = Ok (failure "認証情報の生成に失敗しました").
Proof.
  pose proof (X13_platform_failure_ends_the_ceremony
                (world_with_platform accepting_server (Ok None) (Throw NotAllowedError))
                (initial_state ∅) "a@example.test" "alice" eq_refl) as (Hreg & Hauth).
  split.
  - destruct (Hauth _ eq_refl) as (_ & Hthrow).
    rewrite (Hthrow NotAllowedError eq_refl). reflexivity.
  - destruct (Hreg _ eq_refl) as (Hnull & _).
    rewrite (Hnull eq_refl). reflexivity.
Defined.

Lemma push_keeps_store s evs :
  existsb is_storage_write evs = false ->
  localStorage (push s evs) = localStorage s
  /\ List.filter is_storage_write (trace (push s evs))
     = List.filter is_storage_write (trace s).
Proof.
  intros H. split; [reflexivity|]. unfold push. cbn [trace].
  rewrite List.filter_app.
  assert (Hnil : List.filter is_storage_write evs = []).
  { induction evs as [|e evs IH]; [reflexivity|].
    cbn in H |- *. apply orb_false_iff in H as [He Hevs].
    rewrite He. exact (IH Hevs). }
  rewrite Hnil. apply app_nil_r.
Qed.

Ltac store_kept :=
  intros H; injection H as _ <-; rewrite ?push_push; apply push_keeps_store; reflexivity.

Lemma register_failure_keeps_store email username w s error s' :
  registerWebAuthnCredential email username w s = (Ok (failure error), s') ->
  localStorage s' = localStorage s
  /\ List.filter is_storage_write (trace s') = List.filter is_storage_write (trace s).
Proof.
  destruct (isWebAuthnSupported w) eqn:Hsup.
  - pose proof (beginRegistration_state email username w s) as Hs1.
    destruct (beginRegistration email username w s) as [[br|err] s1] eqn:Hb;
      cbn [snd] in Hs1; subst s1.
    + destruct (create_outcome w
                  (VObj [("publicKey", RegistrationBeginResponse.publicKey br)]))
        as [[c|]|err] eqn:Hc.
      * match goal with
        | _ : beginRegistration _ _ _ _ = (_, ?s1) |- _ =>
            pose proof (finishRegistration_state
                          (RegistrationBeginResponse.sessionId br) c w
                          (push s1 [CredentialsCreate
                                      (VObj [("publicKey",
                                              RegistrationBeginResponse.publicKey br)])]))
              as Hs3;
            destruct (finishRegistration (RegistrationBeginResponse.sessionId br) c w
                        (push s1 [CredentialsCreate
                                    (VObj [("publicKey",
                                            RegistrationBeginResponse.publicKey br)])]))
              as [[res|err] s3] eqn:Hf; cbn [snd] in Hs3; subst s3
        end.
        -- rewrite (register_finish_returns email username w s Hsup br _ Hb c Hc res _ Hf).
           intros H. discriminate H.
        -- rewrite (register_finish_throws email username w s Hsup br _ Hb c Hc err _ Hf).
           store_kept.
      * rewrite (register_platform_null email username w s Hsup br _ Hb Hc). store_kept.
      * rewrite (register_platform_throws email username w s Hsup br _ Hb err Hc).
        store_kept.
    + rewrite (register_begin_throws email username w s Hsup err _ Hb). store_kept.
  - rewrite register_unsupported by exact Hsup.
    intros H. injection H as _ <-. auto.
Qed.

Lemma authenticate_failure_keeps_store email w s error s' :
  authenticateWebAuthn email w s = (Ok (failure error), s') ->
  localStorage s' = localStorage s
  /\ List.filter is_storage_write (trace s') = List.filter is_storage_write (trace s).
Proof.
  destruct (isWebAuthnSupported w) eqn:Hsup.
  - pose proof (beginLogin_state email w s) as Hs1.
    destruct (beginLogin email w s) as [[br|err] s1] eqn:Hb;
      cbn [snd] in Hs1; subst s1.
    + destruct (get_outcome w (VObj [("publicKey", LoginBeginResponse.publicKey br)]))
        as [[c|]|err] eqn:Hc.
      * match goal with
        | _ : beginLogin _ _ _ = (_, ?s1) |- _ =>
            pose proof (finishLogin_state (LoginBeginResponse.sessionId br) c w
                          (push s1 [CredentialsGet
                                      (VObj [("publicKey",
                                              LoginBeginResponse.publicKey br)])]))
              as Hs3;
            destruct (finishLogin (LoginBeginResponse.sessionId br) c w
                        (push s1 [CredentialsGet
                                    (VObj [("publicKey",
                                            LoginBeginResponse.publicKey br)])]))
              as [[res|err] s3] eqn:Hf; cbn [snd] in Hs3; subst s3
        end.
        -- rewrite (authenticate_finish_returns email w s Hsup br _ Hb c Hc res _ Hf).
           intros H. discriminate H.
        -- rewrite (authenticate_finish_throws email w s Hsup br _ Hb c Hc err _ Hf).
           store_kept.
      * rewrite (authenticate_platform_null email w s Hsup br _ Hb Hc). store_kept.
      * rewrite (authenticate_platform_throws email w s Hsup br _ Hb err Hc). store_kept.
    + rewrite (authenticate_begin_throws email w s Hsup err _ Hb). store_kept.
  - rewrite authenticate_unsupported by exact Hsup.
    intros H. injection H as _ <-. auto.
Qed.

(** X14: a ceremony that fails leaves LastUsedIdentifier alone.  Whenever
    [registerWebAuthnCredential] or [authenticateWebAuthn] returns
    [{success: false, error}], for whatever reason, the store is the one it
    started with and the trace has no new [setItem]. *)
Theorem X14_failed_ceremony_keeps_the_store (w : World) (s s' : State)
    (email username error : string) :
  (registerWebAuthnCredential email username w s = (Ok (failure error), s') ->
   localStorage s' = localStorage s
   /\ List.filter is_storage_write (trace s') = List.filter is_storage_write (trace s))
  /\ (authenticateWebAuthn email w s = (Ok (failure error), s') ->
      localStorage s' = localStorage s
      /\ List.filter is_storage_write (trace s')
         = List.filter is_storage_write (trace s)).
Proof.
  split; [apply register_failure_keeps_store | apply authenticate_failure_keeps_store].
Qed.

Lemma X14_failed_ceremony_witness :
  localStorage
    (snd (registerWebAuthnCredential "a@example.test" "alice"
            (sample_world server_message_only None)
            (initial_state {[ LAST_EMAIL_KEY := "old@example.test" ]})))
  = {[ LAST_EMAIL_KEY := "old@example.test" ]}.
Proof.
  exact (proj1 (proj1 (X14_failed_ceremony_keeps_the_store
                         (sample_world server_message_only None)
                         (initial_state {[ LAST_EMAIL_KEY := "old@example.test" ]})
                         _ "a@example.test" "alice" "登録開始に失敗しました") eq_refl)).
Defined.

(** X15: what the finish requests carry can be read back.  In both finish
    requests the session handle, the credential [id] and [type] are passed
    as they are, and every binary field ([rawId], [attestationObject],
    [clientDataJSON], [authenticatorData], [signature]) is a text from which
    [base64URLToBuffer] recovers exactly the credential's bytes;
    [userHandle] reads back as the platform's user handle, absent when the
    platform gave none. *)
Theorem X15_finish_requests_read_back (sessionId : value)
    (attestation : PublicKeyCredential.t Attestation.response)
    (assertion : PublicKeyCredential.t Assertion.response) :
  let registration := registrationFinishRequest sessionId attestation in
  let login := loginFinishRequest sessionId assertion in
  (prop registration "sessionId" = sessionId
   /\ prop (prop registration "credential") "id" = VStr (PublicKeyCredential.id attestation)
   /\ prop (prop registration "credential") "type"
      = VStr (PublicKeyCredential.type attestation)
   /\ decoded_field (prop registration "credential") "rawId"
      = Some (PublicKeyCredential.rawId attestation)
   /\ decoded_field (prop (prop registration "credential") "response") "attestationObject"
      = Some (Attestation.attestationObject (PublicKeyCredential.response attestation))
   /\ decoded_field (prop (prop registration "credential") "response") "clientDataJSON"
      = Some (Attestation.clientDataJSON (PublicKeyCredential.response attestation)))
  /\ (prop login "sessionId" = sessionId
      /\ prop (prop login "credential") "id" = VStr (PublicKeyCredential.id assertion)
      /\ prop (prop login "credential") "type" = VStr (PublicKeyCredential.type assertion)
      /\ decoded_field (prop login "credential") "rawId"
         = Some (PublicKeyCredential.rawId assertion)
      /\ decoded_field (prop (prop login "credential") "response") "authenticatorData"
         = Some (Assertion.authenticatorData (PublicKeyCredential.response assertion))
      /\ decoded_field (prop (prop login "credential") "response") "clientDataJSON"
         = Some (Assertion.clientDataJSON (PublicKeyCredential.response assertion))
      /\ decoded_field (prop (prop login "credential") "response") "signature"
         = Some (Assertion.signature (PublicKeyCredential.response assertion))
      /\ decoded_field (prop (prop login "credential") "response") "userHandle"
         = Assertion.userHandle (PublicKeyCredential.response assertion)).
Proof.
  cbv zeta. unfold registrationFinishRequest, loginFinishRequest, decoded_field.
  cbn [prop field obj_lookup String.eqb Ascii.eqb Bool.eqb default from_option id].
  rewrite !decode_encode.
  repeat split.
  destruct (Assertion.userHandle (PublicKeyCredential.response assertion)) as [handle|];
    [apply decode_encode | reflexivity].
Qed.

(* ===================================================================== *)
(** * The stored email                                                     *)
(* ===================================================================== *)

Ltac unfold_storage :=
  unfold getLastEmail, clearLastEmail, localStorage_getItem, localStorage_removeItem,
    isPlatformAuthenticatorAvailable, console_error, try_catch, ask, lift, emit,
    mbind, M_bind, mret, M_ret.

Lemma getLastEmail_run b w s :
  getLastEmail b w s
  = match window w with
    | None => (Ok None, s)
    | Some _ =>
        match getItem_outcome b LAST_EMAIL_KEY with
        | None => (Ok (localStorage s !! LAST_EMAIL_KEY), s)
        | Some e => (Ok None, push s [ConsoleError "Failed to get last email:" e])
        end
    end.
Proof.
  unfold_storage. unfold LAST_EMAIL_KEY. cbn.
  destruct (window w); [|reflexivity].
  destruct (getItem_outcome b "webauthn_last_email"); reflexivity.
Qed.

Lemma clearLastEmail_run b w s :
  clearLastEmail b w s
  = match window w with
    | None => (Ok tt, s)
    | Some _ =>
        match removeItem_outcome b LAST_EMAIL_KEY with
        | None =>
            (Ok tt, {| trace := trace s;
                       localStorage := delete LAST_EMAIL_KEY (localStorage s) |})
        | Some e => (Ok tt, push s [ConsoleError "Failed to clear last email:" e])
        end
    end.
Proof.
  unfold_storage. unfold LAST_EMAIL_KEY. cbn.
  destruct (window w); [|reflexivity].
  destruct (removeItem_outcome b "webauthn_last_email"); reflexivity.
Qed.

(** X16: the stored email round-trips.  In a browser with a [window] whose
    store accepts the write and can be read, [getLastEmail] after
    [saveLastEmail email] returns [email], whatever was stored before; and
    after [clearLastEmail] (when the removal is accepted) it returns [null],
    while every other key of the store keeps its value. *)
Theorem X16_stored_email_round_trip (b : Browser) (w : World) (s : State)
    (email : string) (win : Window) :
  window w = Some win ->
  getItem_outcome b LAST_EMAIL_KEY = None ->
  (setItem_outcome w LAST_EMAIL_KEY email = None ->
   fst (getLastEmail b w (snd (saveLastEmail email w s))) = Ok (Some email))
  /\ (removeItem_outcome b LAST_EMAIL_KEY = None ->
      fst (getLastEmail b w (snd (clearLastEmail b w s))) = Ok None
      /\ forall key,
           key <> LAST_EMAIL_KEY ->
           localStorage (snd (clearLastEmail b w s)) !! key = localStorage s !! key).
Proof.
  intros Hwin Hget. split.
  - intros Hset. rewrite saveLastEmail_run, getLastEmail_run, Hwin, Hget.
    unfold after_save. rewrite Hwin, Hset. cbn. rewrite lookup_insert_eq. reflexivity.
  - intros Hrem. rewrite clearLastEmail_run, getLastEmail_run, Hwin, Hget, Hrem. cbn.
    split.
    + rewrite lookup_delete_eq. reflexivity.
    + intros key Hne. apply lookup_delete_ne. congruence.
Qed.

Lemma X16_stored_email_round_trip_witness :
  fst (getLastEmail (plain_browser (Ok true)) (sample_world accepting_server None)
         (snd (saveLastEmail "a@example.test" (sample_world accepting_server None)
                 (initial_state {[ LAST_EMAIL_KEY := "old@example.test" ]}))))
  = Ok (Some "a@example.test").
Proof.
  exact (proj1 (X16_stored_email_round_trip (plain_browser (Ok true))
                  (sample_world accepting_server None)
                  (initial_state {[ LAST_EMAIL_KEY := "old@example.test" ]})
                  "a@example.test" _ eq_refl eq_refl) eq_refl).
Defined.

(** X17: the storage helpers never throw.  On every host [getLastEmail] and
    [clearLastEmail] return; without a [window] they do nothing and
    [getLastEmail] answers [null]; when the browser throws they log the
    error, leave the store as it was, and [getLastEmail] answers [null];
    and [getLastEmail] never changes the store. *)
Theorem X17_storage_helpers_never_throw (b : Browser) (w : World) (s : State) :
  (exists answer s',
      getLastEmail b w s = (Ok answer, s')
      /\ localStorage s' = localStorage s
      /\ (window w = None -> answer = None /\ s' = s)
      /\ (forall e, getItem_outcome b LAST_EMAIL_KEY = Some e -> answer = None))
  /\ (exists s',
        clearLastEmail b w s = (Ok tt, s')
        /\ (window w = None -> s' = s)
        /\ (forall e, removeItem_outcome b LAST_EMAIL_KEY = Some e ->
                      localStorage s' = localStorage s)).
Proof.
  rewrite getLastEmail_run, clearLastEmail_run. split.
  - destruct (window w);
      [destruct (getItem_outcome b LAST_EMAIL_KEY) as [e|] eqn:Hg|];
      eexists _, _; (split; [reflexivity|]);
      repeat split; intros; try discriminate; try congruence; reflexivity.
  - destruct (window w);
      [destruct (removeItem_outcome b LAST_EMAIL_KEY) as [e|] eqn:Hr|];
      eexists; (split; [reflexivity|]);
      repeat split; intros; try discriminate; try congruence; reflexivity.
Qed.

Lemma register_success_state email username w s token user s' :
  registerWebAuthnCredential email username w s = (Ok (success token user), s') ->
  isWebAuthnSupported w = true /\ exists s3, s' = after_save email w s3.
Proof.
  destruct (isWebAuthnSupported w) eqn:Hsup.
  - destruct (beginRegistration email username w s) as [[br|err] s1] eqn:Hb.
    + destruct (create_outcome w
                  (VObj [("publicKey", RegistrationBeginResponse.publicKey br)]))
        as [[c|]|err] eqn:Hc.
      * destruct (finishRegistration (RegistrationBeginResponse.sessionId br) c w
                    (push s1 [CredentialsCreate
                                (VObj [("publicKey",
                                        RegistrationBeginResponse.publicKey br)])]))
          as [[res|err] s3] eqn:Hf.
        -- rewrite (register_finish_returns email username w s Hsup br s1 Hb c Hc res s3 Hf).
           intros H. injection H as _ _ <-. eauto.
        -- rewrite (register_finish_throws email username w s Hsup br s1 Hb c Hc err s3 Hf).
           discriminate.
      * rewrite (register_platform_null email username w s Hsup br s1 Hb Hc). discriminate.
      * rewrite (register_platform_throws email username w s Hsup br s1 Hb err Hc).
        discriminate.
    + rewrite (register_begin_throws email username w s Hsup err s1 Hb). discriminate.
  - rewrite register_unsupported by exact Hsup. discriminate.
Qed.

Lemma authenticate_success_state email w s token user s' :
  authenticateWebAuthn email w s = (Ok (success token user), s') ->
  isWebAuthnSupported w = true /\ exists s3, s' = after_save email w s3.
Proof.
  destruct (isWebAuthnSupported w) eqn:Hsup.
  - destruct (beginLogin email w s) as [[br|err] s1] eqn:Hb.
    + destruct (get_outcome w (VObj [("publicKey", LoginBeginResponse.publicKey br)]))
        as [[c|]|err] eqn:Hc.
      * destruct (finishLogin (LoginBeginResponse.sessionId br) c w
                    (push s1 [CredentialsGet
                                (VObj [("publicKey", LoginBeginResponse.publicKey br)])]))
          as [[res|err] s3] eqn:Hf.
        -- rewrite (authenticate_finish_returns email w s Hsup br s1 Hb c Hc res s3 Hf).
           intros H. injection H as _ _ <-. eauto.
        -- rewrite (authenticate_finish_throws email w s Hsup br s1 Hb c Hc err s3 Hf).
           discriminate.
      * rewrite (authenticate_platform_null email w s Hsup br s1 Hb Hc). discriminate.
      * rewrite (authenticate_platform_throws email w s Hsup br s1 Hb err Hc).
        discriminate.
    + rewrite (authenticate_begin_throws email w s Hsup err s1 Hb). discriminate.
  - rewrite authenticate_unsupported by exact Hsup. discriminate.
Qed.

Lemma getLastEmail_after_save b w s email :
  isWebAuthnSupported w = true ->
  getItem_outcome b LAST_EMAIL_KEY = None ->
  setItem_outcome w LAST_EMAIL_KEY email = None ->
  fst (getLastEmail b w (after_save email w s)) = Ok (Some email).
Proof.
  intros Hsup Hget Hset. destruct (isWebAuthnSupported_window w Hsup) as (win & Hwin).
  rewrite getLastEmail_run, Hwin, Hget. unfold after_save. rewrite Hwin, Hset. cbn.
  rewrite lookup_insert_eq. reflexivity.
Qed.

(** X18: a successful ceremony is what the next [getLastEmail] sees.  On a
    host whose store accepts the write and can be read, after
    [registerWebAuthnCredential] or [authenticateWebAuthn] has returned
    [{success: true, ...}], [getLastEmail] returns the email that ceremony
    was run with. *)
Theorem X18_successful_ceremony_is_remembered (b : Browser) (w : World) (s s' : State)
    (email username : string) (token user : value) :
  getItem_outcome b LAST_EMAIL_KEY = None ->
  setItem_outcome w LAST_EMAIL_KEY email = None ->
  (registerWebAuthnCredential email username w s = (Ok (success token user), s') ->
   fst (getLastEmail b w s') = Ok (Some email))
  /\ (authenticateWebAuthn email w s = (Ok (success token user), s') ->
      fst (getLastEmail b w s') = Ok (Some email)).
Proof.
  intros Hget Hset. split; intros H.
  - apply register_success_state in H as (Hsup & s3 & ->).
    apply getLastEmail_after_save; assumption.
  - apply authenticate_success_state in H as (Hsup & s3 & ->).
    apply getLastEmail_after_save; assumption.
Qed.

Lemma X18_successful_ceremony_witness :
  fst (getLastEmail (plain_browser (Ok true)) (sample_world accepting_server None)
         (snd (authenticateWebAuthn "a@example.test"
                 (sample_world accepting_server None) (initial_state ∅))))
  = Ok (Some "a@example.test").
Proof.
  apply (proj2 (X18_successful_ceremony_is_remembered (plain_browser (Ok true))
                  (sample_world accepting_server None) (initial_state ∅) _
                  "a@example.test" "alice" (VStr "jwt") (VObj [("name", VStr "alice")])
                  eq_refl eq_refl)).
  vm_compute. reflexivity.
Defined.

Lemma isPlatformAuthenticatorAvailable_run b w s :
  isPlatformAuthenticatorAvailable b w s
  = if isWebAuthnSupported w then
      match isUserVerifyingPlatformAuthenticatorAvailable b with
      | Ok answer => (Ok answer, s)
      | Throw error =>
          (Ok false, push s [ConsoleError "Platform authenticator check failed:" error])
      end
    else (Ok false, s).
Proof.
  unfold_storage. cbn. destruct (isWebAuthnSupported w); [|reflexivity].
  destruct (isUserVerifyingPlatformAuthenticatorAvailable b); reflexivity.
Qed.

(* ===================================================================== *)
(** * The hook                                                             *)
(* ===================================================================== *)

Ltac unfold_hook :=
  unfold useBiometrics_register, useBiometrics_authenticate,
    try_catch, lift, mbind, M_bind, mret, M_ret.

Lemma failure_or_string error fallback :
  failure_or (VStr error) fallback = failure (string_or error fallback).
Proof.
  unfold failure_or, failure, string_or, or_else. cbn [truthy].
  destruct (String.eqb error ""); reflexivity.
Qed.

(** X19: the hook validates before it touches the host.  [register] with an
    empty email or username, and [authenticate] with neither a non-empty
    [options.email] nor a remembered email, return their validation error;
    with valid input but [isAvailable] false both return the unsupported
    error.  In all these cases nothing is requested, nothing is logged or
    stored, and the hook state stays as it was. *)
Theorem X19_hook_validates_before_touching_the_host (h : HookState) (w : World)
    (s : State) (email username : string)
    (options : option WebAuthnAuthenticationOptions.t) :
  (email = "" \/ username = "" ->
   useBiometrics_register h email username w s
   = (Ok (failure "EmailとUsernameを入力してください", h), s))
  /\ (email <> "" -> username <> "" -> isAvailable h = false ->
      useBiometrics_register h email username w s
      = (Ok (failure "このブラウザは生体認証（WebAuthn）に対応していません", h), s))
  /\ (nonempty (email_to_use h options) = false ->
      useBiometrics_authenticate h options w s
      = (Ok (failure "Emailが指定されていません", h), s))
  /\ (nonempty (email_to_use h options) = true -> isAvailable h = false ->
      useBiometrics_authenticate h options w s
      = (Ok (failure "このブラウザは生体認証（WebAuthn）に対応していません", h), s)).
Proof.
  split; [|split; [|split]].
  - intros Hempty. unfold useBiometrics_register.
    assert (Hb : String.eqb email "" || String.eqb username "" = true).
    { destruct Hempty as [-> | ->]; [reflexivity|]. apply orb_true_r. }
    rewrite Hb. reflexivity.
  - intros He Hu Hav. unfold useBiometrics_register.
    apply String.eqb_neq in He, Hu. rewrite He, Hu, Hav. reflexivity.
  - intros Hne. unfold useBiometrics_authenticate.
    destruct (email_to_use h options) as [e|]; [|reflexivity].
    cbn in Hne. apply negb_false_iff in Hne. rewrite Hne. reflexivity.
  - intros Hne Hav. unfold useBiometrics_authenticate.
    destruct (email_to_use h options) as [e|]; [|discriminate].
    cbn in Hne. apply negb_true_iff in Hne. rewrite Hne, Hav. reflexivity.
Qed.

Lemma X19_hook_validation_witness :
  useBiometrics_register initial_hook_state "" "alice" offline_world (initial_state ∅)
  = (Ok (failure "EmailとUsernameを入力してください", initial_hook_state), initial_state ∅)
  /\ useBiometrics_authenticate initial_hook_state None offline_world (initial_state ∅)
     = (Ok (failure "Emailが指定されていません", initial_hook_state), initial_state ∅).
Proof.
  pose proof (X19_hook_validates_before_touching_the_host initial_hook_state
                offline_world (initial_state ∅) "" "alice" None) as (H1 & _ & H3 & _).
  exact (conj (H1 (or_introl eq_refl)) (H3 eq_refl)).
Defined.

Lemma hook_register_run h email username w s v s' :
  email <> "" -> username <> "" -> isAvailable h = true ->
  registerWebAuthnCredential email username w s = (Ok v, s') ->
  (forall token user,
      v = success token user ->
      useBiometrics_register h email username w s
      = (Ok (success token user, setLastEmail (Some email) (setIsEnrolled true h)), s'))
  /\ (forall error,
        v = failure error ->
        useBiometrics_register h email username w s
        = (Ok (failure (string_or error "登録に失敗しました"), h), s')).
Proof.
  intros He Hu Hav Hrun. apply String.eqb_neq in He, Hu.
  split; intros; subst v; unfold_hook; rewrite He, Hu, Hav; cbn; rewrite Hrun; cbn.
  - reflexivity.
  - rewrite failure_or_string. reflexivity.
Qed.

Lemma hook_authenticate_run h options email w s v s' :
  email_to_use h options = Some email -> email <> "" -> isAvailable h = true ->
  authenticateWebAuthn email w s = (Ok v, s') ->
  (forall token user,
      v = success token user ->
      useBiometrics_authenticate h options w s
      = (Ok (success token user, setLastEmail (Some email) h), s'))
  /\ (forall error,
        v = failure error ->
        useBiometrics_authenticate h options w s
        = (Ok (failure (string_or error "認証に失敗しました"), h), s')).
Proof.
  intros Hopt He Hav Hrun. apply String.eqb_neq in He.
  split; intros; subst v; unfold_hook; rewrite Hopt, He, Hav; cbn; rewrite Hrun; cbn.
  - reflexivity.
  - rewrite failure_or_string. reflexivity.
Qed.

(** X20: with valid input the hook returns what the ceremony returned, and
    never throws.  [register] (with non-empty email and username) and
    [authenticate] (with the email it selects), when [isAvailable] is true,
    run the ceremony once; if it succeeded they return
    [{success: true, token, user}] and remember the email ([register] also
    sets [isEnrolled]); if it failed they return the ceremony's error
    message unchanged, or their fallback when that message is empty, and
    leave the hook state as it was.  The hook's own [catch], which would
    rewrite messages containing "cancelled", "abort" or "timeout", is never
    reached. *)
Theorem X20_hook_returns_the_ceremony_outcome (h : HookState) (w : World) (s : State)
    (email username : string) (options : option WebAuthnAuthenticationOptions.t) :
  email <> "" ->
  isAvailable h = true ->
  (username <> "" ->
   exists v s',
     registerWebAuthnCredential email username w s = (Ok v, s')
     /\ ((exists token user,
             v = success token user
             /\ useBiometrics_register h email username w s
                = (Ok (success token user,
                       setLastEmail (Some email) (setIsEnrolled true h)), s'))
         \/ (exists error,
                v = failure error
                /\ useBiometrics_register h email username w s
                   = (Ok (failure (string_or error "登録に失敗しました"), h), s'))))
  /\ (email_to_use h options = Some email ->
      exists v s',
        authenticateWebAuthn email w s = (Ok v, s')
        /\ ((exists token user,
                v = success token user
                /\ useBiometrics_authenticate h options w s
                   = (Ok (success token user, setLastEmail (Some email) h), s'))
            \/ (exists error,
                   v = failure error
                   /\ useBiometrics_authenticate h options w s
                      = (Ok (failure (string_or error "認証に失敗しました"), h), s')))).
Proof.
  intros He Hav. split.
  - intros Hu. destruct (register_total email username w s) as (v & s' & Hrun & Hres).
    exists v, s'. split; [exact Hrun|].
    destruct (hook_register_run h email username w s v s' He Hu Hav Hrun) as (Hs & Hf).
    destruct Hres as [(error & ->) | (token & user & ->)].
    + right. exists error. split; [reflexivity | apply Hf; reflexivity].
    + left. exists token, user. split; [reflexivity | apply Hs; reflexivity].
  - intros Hopt. destruct (authenticate_total email w s) as (v & s' & Hrun & Hres).
    exists v, s'. split; [exact Hrun|].
    destruct (hook_authenticate_run h options email w s v s' Hopt He Hav Hrun)
      as (Hs & Hf).
    destruct Hres as [(error & ->) | (token & user & ->)].
    + right. exists error. split; [reflexivity | apply Hf; reflexivity].
    + left. exists token, user. split; [reflexivity | apply Hs; reflexivity].
Qed.

Lemma X20_hook_outcome_witness :
  fst (useBiometrics_authenticate (ready_hook_state (Some "a@example.test")) None
         (world_with_platform accepting_server (Throw AbortError) (Throw AbortError))
         (initial_state ∅))
  = Ok (failure "signal is aborted without reason",
        ready_hook_state (Some "a@example.test")).
Proof.
  assert (He : "a@example.test" <> "") by discriminate.
  destruct (proj2 (X20_hook_returns_the_ceremony_outcome
                     (ready_hook_state (Some "a@example.test"))
                     (world_with_platform accepting_server (Throw AbortError)
                        (Throw AbortError))
                     (initial_state ∅) "a@example.test" "alice" None He eq_refl) eq_refl)
    as (v & s' & Hrun & [(token & user & -> & Hhook) | (error & -> & Hhook)]).
  - vm_compute in Hrun. discriminate Hrun.
  - rewrite Hhook. vm_compute in Hrun. injection Hrun as <- _. reflexivity.
Defined.

(** X21: the mount check always ends, with [isLoading] false.  On every host
    and from every state [checkWebAuthnSupport] returns, never writes to the
    store, and leaves [isLoading] false.  From the state of the first
    render, [isAvailable] ends true exactly when the credential API is
    there and the platform check answered [true]; [isEnrolled] ends true
    exactly when, in addition, a non-empty email could be read from the
    store, and then [lastEmail] is that email. *)
Theorem X21_mount_check_always_ends (b : Browser) (w : World) (s : State) (h : HookState) :
  (exists h' s',
      checkWebAuthnSupport b h w s = (Ok h', s')
      /\ isLoading h' = false
      /\ localStorage s' = localStorage s)
  /\ (exists h' s',
        checkWebAuthnSupport b initial_hook_state w s = (Ok h', s')
        /\ (isAvailable h' = true
            <-> isWebAuthnSupported w = true
                /\ isUserVerifyingPlatformAuthenticatorAvailable b = Ok true)
        /\ (isEnrolled h' = true
            <-> isAvailable h' = true
                /\ getItem_outcome b LAST_EMAIL_KEY = None
                /\ nonempty (localStorage s !! LAST_EMAIL_KEY) = true)
        /\ (isEnrolled h' = true -> lastEmail h' = localStorage s !! LAST_EMAIL_KEY)).
Proof.
  unfold checkWebAuthnSupport.
  rewrite !isPlatformAuthenticatorAvailable_run.
  destruct (isWebAuthnSupported w) eqn:Hsup; cbn [negb].
  - destruct (isWebAuthnSupported_window w Hsup) as (win & Hwin).
    destruct (isUserVerifyingPlatformAuthenticatorAvailable b) as [[|]|error] eqn:Hp.
    + rewrite !getLastEmail_run, Hwin.
      destruct (getItem_outcome b LAST_EMAIL_KEY) as [e|] eqn:Hg.
      * split; eexists _, _; (split; [reflexivity|]); cbn.
        -- auto.
        -- repeat split; try discriminate; auto.
           intros (_ & Habs & _). discriminate Habs.
      * split; eexists _, _; (split; [reflexivity|]); cbn.
        -- auto.
        -- repeat split; auto. intros (_ & _ & H). exact H.
    + split; eexists _, _; (split; [reflexivity|]); cbn.
      * auto.
      * repeat split; try discriminate.
        -- intros (_ & Habs). discriminate Habs.
        -- intros (Habs & _). discriminate Habs.
    + split; eexists _, _; (split; [reflexivity|]); cbn.
      * auto.
      * repeat split; try discriminate.
        -- intros (_ & Habs). discriminate Habs.
        -- intros (Habs & _). discriminate Habs.
  - split; eexists _, _; (split; [reflexivity|]); cbn.
    + auto.
    + repeat split; try discriminate.
      * intros (Habs & _). discriminate Habs.
      * intros (Habs & _). discriminate Habs.
Qed.

(* ===================================================================== *)
(** * A rejected finish step                                               *)
(* ===================================================================== *)



(* ===================================================================== *)
(** * Characters outside the alphabets                                     *)
(* ===================================================================== *)

Lemma foreign_is_bad c : is_foreign c = true -> is_bad (of_url c) = true.
Proof.
  intros H. rewrite <- (fromCharCode_charCode c) in H |- *.
  pose proof (byte_check foreign_stays_bad ltac:(vm_compute; reflexivity)
                (Base64.charCode c) (charCode_range c)) as Hc.
  unfold foreign_stays_bad in Hc. rewrite H in Hc. exact Hc.
Qed.

Lemma existsb_map_of_url t :
  string_existsb is_foreign t = true ->
  string_existsb is_bad (Base64.string_map of_url t) = true.
Proof.
  induction t as [|c t IH]; simpl; [discriminate|].
  intros H. apply orb_true_iff in H as [H|H].
  - rewrite (foreign_is_bad c H). reflexivity.
  - rewrite (IH H). apply orb_true_r.
Qed.

Lemma existsb_append p s x :
  string_existsb p s = true -> string_existsb p (s +:+ x) = true.
Proof.
  induction s as [|c s IH]; simpl; [discriminate|].
  intros H. apply orb_true_iff in H as [H|H].
  - rewrite H. reflexivity.
  - rewrite (IH H). apply orb_true_r.
Qed.

Lemma existsb_filter_ws s :
  string_existsb is_bad s = true ->
  string_existsb is_bad
    (Base64.string_filter (fun c => negb (Base64.is_ascii_whitespace c)) s) = true.
Proof.
  induction s as [|c s IH]; simpl; [discriminate|].
  intros H. apply orb_true_iff in H as [H|H].
  - assert (Hws : Base64.is_ascii_whitespace c = false).
    { unfold is_bad in H. destruct (Base64.is_ascii_whitespace c); [|reflexivity].
      rewrite andb_false_r in H. discriminate. }
    rewrite Hws. simpl. rewrite H. reflexivity.
  - destruct (negb (Base64.is_ascii_whitespace c)); [|exact (IH H)].
    simpl. rewrite (IH H). apply orb_true_r.
Qed.

Lemma existsb_strip_padding s :
  string_existsb is_bad s = true ->
  string_existsb is_bad (Base64.strip_padding s) = true.
Proof.
  induction s as [|c s IH]; simpl; [discriminate|].
  intros H. destruct (Base64.is_pad c) eqn:Hpad.
  - assert (Hc : is_bad c = false).
    { unfold is_bad. rewrite Hpad. apply andb_false_r. }
    rewrite Hc in H. simpl in H.
    destruct (String.eqb s "") eqn:He.
    + apply String.eqb_eq in He. subst s. discriminate.
    + destruct (String.eqb s "=") eqn:He'.
      * apply String.eqb_eq in He'. subst s. vm_compute in H. discriminate.
      * simpl. rewrite Hc. simpl. exact (IH H).
  - simpl. apply orb_true_iff in H as [H|H].
    + rewrite H. reflexivity.
    + rewrite (IH H). apply orb_true_r.
Qed.

Lemma bad_has_no_sextet c : is_bad c = true -> Base64.char_sextet c = None.
Proof.
  unfold is_bad, is_alpha. destruct (Base64.char_sextet c); [discriminate|reflexivity].
Qed.

Lemma decode_groups_bad s :
  string_existsb is_bad s = true -> Base64.decode_groups s = None.
Proof.
  induction s as [|a|a b|a b c|a b c d rest IH] using string_ind_by4;
    cbn [string_existsb]; intros H; try discriminate; try reflexivity.
  - rewrite !orb_true_iff in H. destruct H as [H|[H|H]]; [| |discriminate];
      cbn [Base64.decode_groups]; rewrite (bad_has_no_sextet _ H);
      repeat (destruct (Base64.char_sextet _)); reflexivity.
  - rewrite !orb_true_iff in H. destruct H as [H|[H|[H|H]]]; [| | |discriminate];
      cbn [Base64.decode_groups]; rewrite (bad_has_no_sextet _ H);
      repeat (destruct (Base64.char_sextet _)); reflexivity.
  - rewrite decode_groups_4.
    rewrite !orb_true_iff in H. destruct H as [H|[H|[H|[H|H]]]].
    1-4: rewrite (bad_has_no_sextet _ H);
      repeat (destruct (Base64.char_sextet _)); reflexivity.
    rewrite (IH H). repeat (destruct (Base64.char_sextet _)); reflexivity.
Qed.

(** X23: characters outside the alphabets are rejected, not skipped.  A text
    with a character that is neither a Base64 character (standard or
    URL-safe), nor ASCII whitespace, nor [=], makes [base64URLToBuffer]
    throw, wherever the character stands and whatever the rest is. *)
Theorem X23_decoder_rejects_foreign_characters (t : string) :
  string_existsb is_foreign t = true ->
  base64URLToBuffer t = None.
Proof.
  intros H. unfold base64URLToBuffer. rewrite replace_of_url.
  apply existsb_map_of_url in H.
  unfold padEnd, Base64.atob.
  match goal with
  | |- context [Base64.string_filter ?p (?s +:+ ?x)] =>
      pose proof (existsb_filter_ws _ (existsb_append _ s x H)) as Hf;
      set (data := Base64.string_filter p (s +:+ x)) in *
  end.
  cbv zeta.
  assert (Hd : string_existsb is_bad
                 (if (String.length data mod 4 =? 0)%nat
                  then Base64.strip_padding data else data) = true).
  { destruct (String.length data mod 4 =? 0)%nat;
      [apply existsb_strip_padding, Hf | exact Hf]. }
  destruct (String.length _ mod 4 =? 1)%nat; [reflexivity|].
  rewrite (decode_groups_bad _ Hd). reflexivity.
Qed.

Lemma X23_decoder_rejects_foreign_characters_witness :
  base64URLToBuffer "aGVs*G8" = None.
Proof. exact (X23_decoder_rejects_foreign_characters "aGVs*G8" eq_refl). Defined.
